(** * PRobr experiment driver: a shallow embedding of [run_experiment_probr.py]

    The driver fine-tunes and evaluates a rule-reasoning QA model.  The
    deep-learning framework is external to the repository: forward passes,
    optimisers and serialisation appear here as fields of the classes
    [Framework] and [Utils], or as entries of a log that records which
    framework primitive the driver calls, in which order and with which
    arguments.
    What is embedded faithfully is the orchestration the file itself
    contains: path computation, the feature cache lookup, the training loop
    with gradient accumulation, the step limit and the checkpoint cadence,
    and the decoding of predictions into text files.  Python 3 semantics
    are taken throughout: [//] is floor division, and [int()] and
    [math.floor] return integers and raise on nan and on infinities. *)

From stdpp Require Import gmap strings list sorting.
From Stdlib Require Import ZArith QArith Qround Ascii String DecimalString Lia.

Local Open Scope Z_scope.

(** ** Python values used by the driver *)

Module Py.

(** Exceptions the driver can raise itself.  A division by zero carries
    the source line of the division, as a traceback would. *)
Inductive zsite :=
| AtEpochCount     (* line 82:  max_steps // (len(loader) // g) + 1 *)
| AtTotalSteps     (* line 84:  len(loader) // g * num_train_epochs *)
| AtAccumulation   (* line 160: (step + 1) % g *)
| AtAverageLoss    (* line 206: tr_loss / global_step *)
| AtEvalLoss.      (* line 306: eval_loss / nb_eval_steps *)

Inductive exn :=
| ImportError (msg : string)
| ZeroDivisionError (site : zsite)
| IndexError
| KeyError (key : string)
| ValueError (msg : string)
| OverflowError (msg : string)
| AssertionError
| Exception (msg : string).

Inductive outcome (A : Type) :=
| Done (a : A)
| Raise (e : exn).
Arguments Done {A} a.
Arguments Raise {A} e.

Definition bind {A B} (o : outcome A) (k : A -> outcome B) : outcome B :=
  match o with
  | Done a => k a
  | Raise e => Raise e
  end.

(** [a // b] and [a % b] on Python integers: floor division, and a
    remainder with the sign of the divisor.  Both raise on [b = 0]. *)
Definition floordiv (a b : Z) : option Z :=
  if b =? 0 then None else Some (a / b).

Definition pymod (a b : Z) : option Z :=
  if b =? 0 then None else Some (a mod b).

(** A Python float, by the value it denotes: a rational (every finite
    double is one), an infinity or nan.  The command line gives all three:
    [float] accepts the texts [inf] and [nan]. *)
Inductive pyfloat :=
| Finite (q : Q)
| Infinity (negative : bool)
| NaN.

(** A value that is an [int] on one path and a [float] on another, as
    [t_total] and [args.num_train_epochs] after lines 80-84. *)
Inductive number :=
| Int (z : Z)
| Float (x : pyfloat).

Definition nan_to_integer : exn := ValueError "cannot convert float NaN to integer".

Definition infinity_to_integer : exn :=
  OverflowError "cannot convert float infinity to integer".

Definition int_too_large : exn := OverflowError "int too large to convert to float".

(** [int(x)] on a float: truncation toward zero. *)
Definition int_of_float (x : pyfloat) : outcome Z :=
  match x with
  | Finite q => Done (if Qle_bool 0 q then Qfloor q else Qceiling q)
  | Infinity _ => Raise infinity_to_integer
  | NaN => Raise nan_to_integer
  end.

(** [int(n)]. *)
Definition int_of_number (n : number) : outcome Z :=
  match n with
  | Int z => Done z
  | Float x => int_of_float x
  end.

(** [math.floor(x)] on a float. *)
Definition math_floor (x : pyfloat) : outcome Z :=
  match x with
  | Finite q => Done (Qfloor q)
  | Infinity _ => Raise infinity_to_integer
  | NaN => Raise nan_to_integer
  end.

(** [str(n)] on an integer. *)
Definition str_int (n : Z) : string :=
  NilZero.string_of_int (Z.to_int n).

(** [s.startswith('/')] and [s.endswith('/')]. *)
Definition startswith_sep (s : string) : bool :=
  match s with
  | String c _ => Ascii.eqb c "/"
  | EmptyString => false
  end.

Fixpoint endswith_sep (s : string) : bool :=
  match s with
  | EmptyString => false
  | String c EmptyString => Ascii.eqb c "/"
  | String _ s' => endswith_sep s'
  end.

(** [os.path.join(a, b)] of posixpath, two components. *)
Definition path_join (a b : string) : string :=
  if startswith_sep b then b
  else if (String.eqb a EmptyString || endswith_sep a)%bool then String.append a b
  else String.append a (String "/" b).

(** [s.split('/')]: never empty, keeps empty fields. *)
Fixpoint split_sep (s : string) : list string :=
  match s with
  | EmptyString => [EmptyString]
  | String c s' =>
      if Ascii.eqb c "/" then EmptyString :: split_sep s'
      else match split_sep s' with
           | [] => [String c EmptyString]
           | w :: ws => String c w :: ws
           end
  end.

(** [filter(None, l)] on strings keeps the non-empty ones. *)
Definition filter_nonempty (l : list string) : list string :=
  List.filter (fun w => negb (String.eqb w EmptyString)) l.

(** [l.pop()]: the last element; IndexError on the empty list. *)
Definition pop_last (l : list string) : outcome string :=
  match List.rev l with
  | [] => Raise IndexError
  | w :: _ => Done w
  end.

(** ["[" + ", ".join(repr(x) for x in l) + "]"], the text of [str(list)]. *)
Fixpoint join_comma (l : list string) : string :=
  match l with
  | [] => EmptyString
  | [w] => w
  | w :: ws => String.append w (String.append ", " (join_comma ws))
  end.

Definition str_list {A} (repr : A -> string) (l : list A) : string :=
  String.append "[" (String.append (join_comma (List.map repr l)) "]").

End Py.

Import Py.

Notation "'let!' x ':=' o 'in' k" := (Py.bind o (fun x => k))
  (at level 10, x pattern, o at level 100, k at level 200).

(** ** Command-line arguments

    The fields of the [argparse] namespace that the modelled functions
    read.  [n_gpu] is set by [main] before any of them is called. *)

Record args := {
  data_dir : string;
  data_cache_dir : option string;
  model_type : string;
  model_name_or_path : string;
  task_name : string;
  output_dir : string;
  max_seq_length : Z;
  max_edge_length : Z;
  max_node_length : Z;
  filter_mask : bool;
  per_gpu_train_batch_size : Z;
  per_gpu_eval_batch_size : Z;
  gradient_accumulation_steps : Z;
  learning_rate : pyfloat;
  weight_decay : pyfloat;
  adam_epsilon : pyfloat;
  num_train_epochs : pyfloat;
  max_steps : Z;
  warmup_steps : Z;
  warmup_pct : option pyfloat;
  fp16 : bool;
  fp16_opt_level : string;
  local_rank : Z;
  n_gpu : Z
}.

(** ** Parallel wrappers ([dp_or_ddp_model]) *)

(** A model is the network produced by [from_pretrained], possibly inside
    the framework's parallel wrappers. *)
Inductive module (net : Type) :=
| Plain (m : net)
| DataParallel (m : module net)
| DistributedDataParallel (m : module net) (device_ids : list Z)
    (output_device : Z) (find_unused_parameters : bool).

Arguments Plain {net} m.
Arguments DataParallel {net} m.
Arguments DistributedDataParallel {net} m device_ids output_device find_unused_parameters.

Definition dp_or_ddp_model {net} (a : args) (model : module net) : module net :=
  let model := if 1 <? n_gpu a then DataParallel model else model in
  let model :=
    if negb (local_rank a =? -1)
    then DistributedDataParallel model [local_rank a] (local_rank a) true
    else model in
  model.

(** [model.module if hasattr(model, 'module') else model]. *)
Definition model_to_save {net} (model : module net) : module net :=
  match model with
  | Plain m => Plain m
  | DataParallel m => m
  | DistributedDataParallel m _ _ _ => m
  end.

(** [args.local_rank in [-1, 0]]. *)
Definition is_main_process (a : args) : bool :=
  (local_rank a =? -1) || (local_rank a =? 0).

(** ** Features, tensors and datasets *)

(** [InputFeatures] is declared in [utils]; the driver reads these seven
    attributes of it.  Every one holds integers: six sequences and the
    answer label. *)
Record feature := {
  input_ids : list Z;
  input_mask : list Z;
  segment_ids : list Z;
  proof_offset : list Z;
  node_label : list Z;
  edge_label : list Z;
  label_id : Z
}.

Inductive dtype := Long | Float32.

(** One entry along the first dimension of a tensor. *)
Inductive cell :=
| Scalar (z : Z)
| Vector (v : list Z).

Record tensor := { t_dtype : dtype; t_rows : list cell }.

(** [torch.tensor([f.attr for f in features], dtype=torch.long)]. *)
Definition long_tensor (attr : feature -> cell) (features : list feature) : tensor :=
  {| t_dtype := Long; t_rows := List.map attr features |}.

(** [TensorDataset] of the given tensors, kept in argument order;
    [dataset[i]] is the tuple of the [i]-th entries, and [len(dataset)]
    the first dimension of the first tensor. *)
Record dataset := { tensors : list tensor }.

Definition dataset_len (d : dataset) : nat :=
  match tensors d with
  | [] => 0%nat
  | t :: _ => List.length (t_rows t)
  end.

Definition dataset_getitem (d : dataset) (i : nat) : option (list cell) :=
  mapM (fun t => t_rows t !! i) (tensors d).

Definition make_dataset (features : list feature) : dataset :=
  let all_input_ids := long_tensor (fun f => Vector (input_ids f)) features in
  let all_input_mask := long_tensor (fun f => Vector (input_mask f)) features in
  let all_segment_ids := long_tensor (fun f => Vector (segment_ids f)) features in
  let all_proof_offset := long_tensor (fun f => Vector (proof_offset f)) features in
  let all_node_label := long_tensor (fun f => Vector (node_label f)) features in
  let all_edge_label := long_tensor (fun f => Vector (edge_label f)) features in
  let all_label_ids := long_tensor (fun f => Scalar (label_id f)) features in
  {| tensors := [all_input_ids; all_input_mask; all_segment_ids; all_proof_offset;
                 all_node_label; all_edge_label; all_label_ids] |}.

(** ** What the driver imports

    [Utils] stands for the repository's [utils] module, [Framework] for
    the deep-learning stack and the file system around a run. *)

Record convert_flags := {
  cls_token_at_end : bool;
  sep_token_extra : bool;
  cls_token_segment_id : Z;
  pad_on_left : bool;
  pad_token_segment_id : Z
}.

Record processor (example : Type) := {
  get_labels : list string;
  get_train_examples : string -> list example;
  get_dev_examples : string -> list example;
  get_test_examples : string -> list example
}.

Arguments get_labels {example} p.
Arguments get_train_examples {example} p.
Arguments get_dev_examples {example} p.
Arguments get_test_examples {example} p.

Class Utils := {
  example : Type;
  tokenizer : Type;
  output_mode : Type;
  processors : gmap string (processor example);
  output_modes : gmap string output_mode;
  convert_examples_to_features_RR :
    list example -> list string -> Z -> Z -> Z -> tokenizer -> output_mode ->
    convert_flags -> bool -> list feature;
  (** [compute_metrics(task, preds, labels)], each value already as [str]. *)
  compute_metrics : string -> list nat -> list Z -> gmap string string
}.

(** The outputs of a forward pass in evaluation mode, after the four
    losses: answer logits [N x C], node logits [N x V x C] and edge
    logits [N x E x C]. *)
Record eval_output (F : Type) := {
  eo_loss : F;
  eo_logits : list (list F);
  eo_node_logits : list (list (list F));
  eo_edge_logits : list (list (list F))
}.

Arguments eo_loss {F} e.
Arguments eo_logits {F} e.
Arguments eo_node_logits {F} e.
Arguments eo_edge_logits {F} e.

Class Framework := {
  (** floating-point values and the operations the driver applies;
      [F_ltb x y] is the order in which [np.argmax] looks for a largest
      entry: [x] is below [y], a nan being above every number *)
  F : Type;
  fzero : F;
  fadd : F -> F -> F;
  fdiv_int : F -> Z -> F;
  tensor_mean : F -> F;
  F_ltb : F -> F -> bool;
  softmax : list F -> list F;
  repr_float : F -> string;
  repr_int64 : nat -> string;
  (** the double nearest to a rational, an infinity beyond the range *)
  round_float : Q -> pyfloat;
  (** the network and its forward passes: the training loss of the batch
      drawn at an epoch and step, and the evaluation outputs of a batch *)
  net : Type;
  forward_loss : module net -> nat -> nat -> F;
  model_eval : module net -> list (list cell) -> eval_output F;
  (** the constructors of the optimizer and of the schedule, which may
      reject their arguments: [AdamW weight_decay lr eps] over the two
      parameter groups of the model, and
      [WarmupLinearSchedule warmup_steps t_total] *)
  AdamW : pyfloat -> pyfloat -> pyfloat -> outcome unit;
  WarmupLinearSchedule : Z -> number -> outcome unit;
  (** the environment of the run *)
  apex_available : bool;
  path_exists : string -> bool;
  distributed_indices : nat -> list nat;
  metrics_json : option (gmap string string)
}.

(** ** The feature cache ([load_and_cache_examples]) *)

Definition model_type_in (a : args) (names : list string) : bool :=
  existsb (String.eqb (model_type a)) names.

(** The keyword arguments of the conversion that depend on
    [args.model_type]. *)
Definition flags_of (a : args) : convert_flags :=
  {| cls_token_at_end := model_type_in a ["xlnet"%string];
     sep_token_extra := model_type_in a ["roberta"; "roberta_mc"; "roberta_rr"]%string;
     cls_token_segment_id := if model_type_in a ["xlnet"%string] then 2 else 0;
     pad_on_left := model_type_in a ["xlnet"%string];
     pad_token_segment_id := if model_type_in a ["xlnet"%string] then 4 else 0 |}.

(** [list(filter(None, name.split('/'))).pop()]. *)
Definition checkpoint_name (name : string) : outcome string :=
  pop_last (filter_nonempty (split_sep name)).

(** ['cached_{}_{}_{}_{}'.format(split, name, str(len), str(task))]. *)
Definition cache_file_name (eval_split name : string) (seq_len : Z) (task : string) : string :=
  String.append "cached_"
    (String.append eval_split
       (String.append "_"
          (String.append name
             (String.append "_"
                (String.append (str_int seq_len)
                   (String.append "_" task)))))).

Definition cache_dir_of (a : args) : string :=
  match data_cache_dir a with
  | None => data_dir a
  | Some d => d
  end.

Definition cached_features_file (a : args) (task eval_split : string) : outcome string :=
  let! name := checkpoint_name (model_name_or_path a) in
  Done (path_join (cache_dir_of a)
          (cache_file_name eval_split name (max_seq_length a) task)).

(** [d[key]] on a dictionary. *)
Definition dict_get {V} (d : gmap string V) (key : string) : outcome V :=
  match d !! key with
  | Some v => Done v
  | None => Raise (KeyError key)
  end.

Definition split_examples `{Utils} (p : processor example) (a : args) (eval_split : string)
  : outcome (list example) :=
  if String.eqb eval_split "train" then Done (get_train_examples p (data_dir a))
  else if String.eqb eval_split "dev" then Done (get_dev_examples p (data_dir a))
  else if String.eqb eval_split "test" then Done (get_test_examples p (data_dir a))
  else Raise (Exception "eval_split should be among train / dev / test").

(** The body of [load_and_cache_examples] up to the feature list.  The
    [store] maps the paths [torch.load] can read to the feature lists
    stored there. *)
Definition load_features `{Utils} (store : gmap string (list feature)) (a : args)
    (task : string) (tok : tokenizer) (eval_split : string)
  : outcome (list feature * option (list example)) :=
  let! p := dict_get processors task in
  let! mode := dict_get output_modes task in
  let! file := cached_features_file a task eval_split in
  match store !! file with
  | Some features =>
      let examples :=
        if String.eqb eval_split "dev" then Some (get_dev_examples p (data_dir a))
        else None in
      Done (features, examples)
  | None =>
      let label_list := get_labels p in
      let! examples := split_examples p a eval_split in
      let features :=
        convert_examples_to_features_RR examples label_list
          (max_seq_length a) (max_node_length a) (max_edge_length a)
          tok mode (flags_of a) (filter_mask a) in
      Done (features, Some examples)
  end.

(** The function only reads the store: the store it leaves behind is
    returned beside its result. *)
Definition load_and_cache_examples `{Utils} (store : gmap string (list feature)) (a : args)
    (task : string) (tok : tokenizer) (eval_split : string)
  : gmap string (list feature) * outcome (dataset * option (list example)) :=
  (store,
   let! fe := load_features store a task tok eval_split in
   Done (make_dataset (fst fe), snd fe)).

(** ** Data loaders *)

(** The indices a sampler yields over [n] rows: all of them in order for
    [SequentialSampler]; for [RandomSampler] some order of all of them;
    for [DistributedSampler] the share of this process.  Samplers are
    taken to accept any dataset, the empty one included. *)
Definition sampled_count `{Framework} (a : args) (n : nat) : nat :=
  if local_rank a =? -1 then n else List.length (distributed_indices n).

(** [len(DataLoader(dataset, batch_size=bs))] for [bs > 0]. *)
Definition loader_len (n_samples : nat) (bs : Z) : Z :=
  (Z.of_nat n_samples + bs - 1) / bs.

Definition bad_batch_size : exn :=
  ValueError "batch_size should be a positive integer value".

(** Consecutive batches of [bs] rows, the last one possibly shorter. *)
Fixpoint batched_aux {A} (bs : nat) (cur : list A) (l : list A) : list (list A) :=
  match l with
  | [] => match cur with [] => [] | _ => [cur] end
  | x :: l' =>
      let cur' := cur ++ [x] in
      if (List.length cur' =? bs)%nat then cur' :: batched_aux bs [] l'
      else batched_aux bs cur' l'
  end.

Definition batched {A} (bs : nat) (l : list A) : list (list A) := batched_aux bs [] l.

(** ** Training ([train]) *)

Inductive clip_target := ModelParameters | AmpMasterParams.

(** The framework calls made for one batch, in program order. *)
Inductive op (F : Type) :=
| TrainMode
| Forward
| Backward (loss : F)
| ScaleLossBackward (loss : F)
| ClipGradNorm (target : clip_target)
| OptimizerStep
| SchedulerStep
| ZeroGrad.

Arguments TrainMode {F}.
Arguments Forward {F}.
Arguments Backward {F} loss.
Arguments ScaleLossBackward {F} loss.
Arguments ClipGradNorm {F} target.
Arguments OptimizerStep {F}.
Arguments SchedulerStep {F}.
Arguments ZeroGrad {F}.

Record batch_log (F : Type) := {
  bl_step : nat;
  bl_ops : list (op F)
}.

Arguments bl_step {F} b.
Arguments bl_ops {F} b.

Inductive save (net : Type) :=
| Makedirs (dir : string)
| SaveModel (m : module net) (dir : string)
| SaveTokenizer (dir : string).

Arguments Makedirs {net} dir.
Arguments SaveModel {net} m dir.
Arguments SaveTokenizer {net} dir.

(** What happened in one pass of the epoch loop: the batches processed,
    [global_step] when the batch loop was left, and what was saved. *)
Record epoch_log (F net : Type) := {
  el_index : nat;
  el_batches : list (batch_log F);
  el_global_step : Z;
  el_saves : list (save net)
}.

Arguments el_index {F net} e.
Arguments el_batches {F net} e.
Arguments el_global_step {F net} e.
Arguments el_saves {F net} e.

Inductive setup :=
| AmpInitialize (opt_level : string)
| InitialZeroGrad.

Record train_run (F net : Type) := {
  run_setup : list setup;
  run_model : module net;
  run_epochs : list (epoch_log F net);
  run_global_step : Z;
  run_tr_loss : F;
  run_result : outcome (Z * F)
}.

Arguments run_setup {F net} t.
Arguments run_model {F net} t.
Arguments run_epochs {F net} t.
Arguments run_global_step {F net} t.
Arguments run_tr_loss {F net} t.
Arguments run_result {F net} t.

(** [args.max_steps > 0 and global_step > args.max_steps]. *)
Definition stop_now (a : args) (global_step : Z) : bool :=
  (0 <? max_steps a) && (max_steps a <? global_step).

(** One pass of the batch loop body, lines 131-164, on the state
    [(global_step, tr_loss)]. *)
Definition train_batch `{Framework} (a : args) (model : module net) (epoch step : nat)
    (st : Z * F) : batch_log F * (Z * F) * option exn :=
  let g := gradient_accumulation_steps a in
  let loss := forward_loss model epoch step in
  let loss := if 1 <? n_gpu a then tensor_mean loss else loss in
  let loss := if 1 <? g then fdiv_int loss g else loss in
  let ops :=
    [TrainMode; Forward] ++
    (if fp16 a
     then [ScaleLossBackward loss; ClipGradNorm AmpMasterParams]
     else [Backward loss; ClipGradNorm ModelParameters]) in
  let tr_loss := fadd (snd st) loss in
  match pymod (Z.of_nat step + 1) g with
  | None =>
      ({| bl_step := step; bl_ops := ops |}, (fst st, tr_loss),
       Some (ZeroDivisionError AtAccumulation))
  | Some r =>
      if r =? 0
      then ({| bl_step := step;
               bl_ops := ops ++ [OptimizerStep; SchedulerStep; ZeroGrad] |},
            (fst st + 1, tr_loss), None)
      else ({| bl_step := step; bl_ops := ops |}, (fst st, tr_loss), None)
  end.

(** The batch loop over the remaining steps of an epoch; it is left
    early by the [break] of line 167 or by an exception. *)
Fixpoint batch_loop `{Framework} (a : args) (model : module net) (epoch : nat)
    (steps : list nat) (st : Z * F) : list (batch_log F) * (Z * F) * option exn :=
  match steps with
  | [] => ([], st, None)
  | step :: rest =>
      match train_batch a model epoch step st with
      | (b, st', Some e) => ([b], st', Some e)
      | (b, st', None) =>
          if stop_now a (fst st') then ([b], st', None)
          else
            match batch_loop a model epoch rest st' with
            | (bs, st'', err) => (b :: bs, st'', err)
            end
      end
  end.

(** Lines 171-181. *)
Definition checkpoint `{Framework} (a : args) (model : module net) (epoch_index : nat)
  : list (save net) :=
  if (Z.of_nat epoch_index + 1) mod 5 =? 0 then
    let dir :=
      path_join (output_dir a)
        (String.append "epoch-" (str_int (Z.of_nat epoch_index + 1))) in
    (if negb (path_exists dir) && is_main_process a then [Makedirs dir] else []) ++
    [SaveModel (model_to_save model) dir; SaveTokenizer dir;
     SaveModel (model_to_save model) (output_dir a); SaveTokenizer (output_dir a)]
  else [].

(** The epoch loop, lines 127-181, over the remaining epochs. *)
Fixpoint epoch_loop `{Framework} (a : args) (model : module net) (n_batches : nat)
    (epochs : list nat) (st : Z * F)
  : list (epoch_log F net) * (Z * F) * option exn :=
  match epochs with
  | [] => ([], st, None)
  | e :: rest =>
      match batch_loop a model e (seq 0 n_batches) st with
      | (bs, st', Some x) =>
          ([{| el_index := e; el_batches := bs; el_global_step := fst st';
               el_saves := [] |}], st', Some x)
      | (bs, st', None) =>
          if stop_now a (fst st')
          then ([{| el_index := e; el_batches := bs; el_global_step := fst st';
                    el_saves := [] |}], st', None)
          else
            let this := {| el_index := e; el_batches := bs; el_global_step := fst st';
                           el_saves := checkpoint a model e |} in
            match epoch_loop a model n_batches rest st' with
            | (es, st'', err) => (this :: es, st'', err)
            end
      end
  end.

(** [float(n)], also where an [int] meets a [float] in a product: the
    nearest double, and [OverflowError] from the first integer that rounds
    beyond the largest one. *)
Definition float_of_int `{Framework} (n : Z) : outcome pyfloat :=
  if Z.abs n <? 2 ^ 1024 - 2 ^ 970 then Done (round_float (inject_Z n))
  else Raise int_too_large.

(** [x * y] on floats: the rounded product; nan from a nan and from zero
    times an infinity. *)
Definition float_mul `{Framework} (x y : pyfloat) : pyfloat :=
  match x, y with
  | NaN, _ => NaN
  | _, NaN => NaN
  | Finite p, Finite q => round_float (p * q)
  | Finite p, Infinity s =>
      if Qeq_bool p 0 then NaN else Infinity (xorb s (negb (Qle_bool 0 p)))
  | Infinity s, Finite p =>
      if Qeq_bool p 0 then NaN else Infinity (xorb s (negb (Qle_bool 0 p)))
  | Infinity s, Infinity t => Infinity (xorb s t)
  end.

(** [x * n] for a float [x] and a number [n]. *)
Definition float_times `{Framework} (x : pyfloat) (n : number) : outcome pyfloat :=
  match n with
  | Int z => let! y := float_of_int z in Done (float_mul x y)
  | Float y => Done (float_mul x y)
  end.

(** Lines 80-84: [t_total] and [args.num_train_epochs] as they are after
    the two branches.  With a step limit both are integers; without one
    the epochs stay the float of the command line and [t_total] is a
    float as well. *)
Definition total_steps `{Framework} (a : args) (n_batches : Z) : outcome (number * number) :=
  let g := gradient_accumulation_steps a in
  if 0 <? max_steps a then
    match floordiv n_batches g with
    | None => Raise (ZeroDivisionError AtEpochCount)
    | Some u =>
        match floordiv (max_steps a) u with
        | None => Raise (ZeroDivisionError AtEpochCount)
        | Some q => Done (Int (max_steps a), Int (q + 1))
        end
    end
  else
    match floordiv n_batches g with
    | None => Raise (ZeroDivisionError AtTotalSteps)
    | Some u =>
        let! x := float_of_int u in
        Done (Float (float_mul x (num_train_epochs a)), Float (num_train_epochs a))
    end.

(** Lines 86-98: the optimizer and the schedule.  With [--warmup_pct]
    the warmup is [math.floor(args.warmup_pct * t_total)]. *)
Definition schedule `{Framework} (a : args) (t_total : number) : outcome unit :=
  let! _ := AdamW (weight_decay a) (learning_rate a) (adam_epsilon a) in
  match warmup_pct a with
  | None => WarmupLinearSchedule (warmup_steps a) t_total
  | Some pct =>
      let! product := float_times pct t_total in
      let! warmup := math_floor product in
      WarmupLinearSchedule warmup t_total
  end.

(** The number of passes of the epoch loop: [args.num_train_epochs] of
    lines 80-84 under the [int()] of line 123, which hands it to
    [trange]. *)
Definition epoch_count `{Framework} (a : args) (n_batches : Z) : outcome Z :=
  let! plan := total_steps a n_batches in
  int_of_number (snd plan).

Definition apex_missing : exn :=
  ImportError "Please install apex from https://www.github.com/nvidia/apex to use fp16 training.".

(** A run that stops before the loop, with the exception [e]. *)
Definition aborted `{Framework} (model : module net) (events : list setup) (e : exn)
  : train_run F net :=
  {| run_setup := events; run_model := model; run_epochs := [];
     run_global_step := 0; run_tr_loss := fzero; run_result := Raise e |}.

(** [train(args, train_dataset, model, tokenizer)], in the order of its
    statements: the processor (line 74), the loader (76-78), the totals
    (80-84), the optimizer and the schedule (86-98), apex (100-105), the
    wrappers (107), [zero_grad] (122), [int(args.num_train_epochs)] (123)
    and the loops.  The optimizer and the schedule are not part of the
    log; the summary writer, the samplers, [amp.initialize], the
    wrappers and the iterators of [tqdm] are taken to return. *)
Definition train `{Utils} `{Framework} (a : args) (train_dataset : dataset)
    (model : module net) : train_run F net :=
  match dict_get processors (task_name a) with
  | Raise e => aborted model [] e
  | Done _ =>
  let train_batch_size := per_gpu_train_batch_size a * Z.max 1 (n_gpu a) in
  if train_batch_size <=? 0 then aborted model [] bad_batch_size else
  let n_batches :=
    loader_len (sampled_count a (dataset_len train_dataset)) train_batch_size in
  match total_steps a n_batches with
  | Raise e => aborted model [] e
  | Done (t_total, epochs) =>
  match schedule a t_total with
  | Raise e => aborted model [] e
  | Done _ =>
  if fp16 a && negb apex_available then aborted model [] apex_missing else
  let amp := if fp16 a then [AmpInitialize (fp16_opt_level a)] else [] in
  let model := dp_or_ddp_model a model in
  match int_of_number epochs with
  | Raise e => aborted model (amp ++ [InitialZeroGrad]) e
  | Done n_epochs =>
  match epoch_loop a model (Z.to_nat n_batches) (seq 0 (Z.to_nat n_epochs)) (0, fzero) with
  | (es, (global_step, tr_loss), err) =>
      {| run_setup := amp ++ [InitialZeroGrad];
         run_model := model;
         run_epochs := es;
         run_global_step := global_step;
         run_tr_loss := tr_loss;
         run_result :=
           match err with
           | Some e => Raise e
           | None =>
               if global_step =? 0 then Raise (ZeroDivisionError AtAverageLoss)
               else Done (global_step, fdiv_int tr_loss global_step)
           end |}
  end
  end
  end
  end
  end.

(** ** Evaluation ([evaluate]) *)

(** [np.argmax] of a vector: the first index of a largest entry; it
    raises on the empty vector. *)
Fixpoint argmax_from `{Framework} (best : nat) (best_v : F) (i : nat) (l : list F) : nat :=
  match l with
  | [] => best
  | x :: l' =>
      if F_ltb best_v x then argmax_from i x (S i) l'
      else argmax_from best best_v (S i) l'
  end.

Definition argmax `{Framework} (l : list F) : outcome nat :=
  match l with
  | [] => Raise (ValueError "attempt to get argmax of an empty sequence")
  | x :: l' => Done (argmax_from 0%nat x 1%nat l')
  end.

(** [for x in l: f(x)], stopping at the first exception. *)
Fixpoint traverse {A B} (f : A -> outcome B) (l : list A) : outcome (list B) :=
  match l with
  | [] => Done []
  | x :: l' =>
      let! y := f x in
      let! ys := traverse f l' in
      Done (y :: ys)
  end.

(** [softmax(v)[1]] for every class vector of one example. *)
Definition class1 `{Framework} (v : list F) : outcome F :=
  match softmax v !! 1%nat with
  | Some p => Done p
  | None => Raise IndexError
  end.

(** The columns of a batch that the loop keeps: [batch[4]] and [batch[6]]. *)
Definition row_node_label (row : list cell) : list Z :=
  match row !! 4%nat with
  | Some (Vector v) => v
  | _ => []
  end.

Definition row_label (row : list cell) : Z :=
  match row !! 6%nat with
  | Some (Scalar z) => z
  | _ => 0
  end.

(** [node_gold[np.where(node_gold != -100)[0]]]. *)
Definition gold_nodes (node_gold : list Z) : list Z :=
  List.filter (fun z => negb (z =? -100)) node_gold.

(** Lines 341-344 for one example. *)
Definition node_line `{Framework} (node_gold : list Z) (node_pred : list nat) : string :=
  let node_gold := gold_nodes node_gold in
  let node_pred := firstn (List.length node_gold) node_pred in
  str_list repr_int64 node_pred.

Definition edge_line `{Framework} (edge_pred_logit : list F) : string :=
  str_list repr_float edge_pred_logit.

(** Lines 334-335: the labels are written one by one, so a prediction
    outside the label list leaves the lines written before it. *)
Fixpoint label_lines (labels : list string) (preds : list nat) : list string * option exn :=
  match preds with
  | [] => ([], None)
  | pred :: rest =>
      match labels !! pred with
      | None => ([], Some IndexError)
      | Some l =>
          match label_lines labels rest with
          | (ls, err) => (l :: ls, err)
          end
      end
  end.

(** Keys of the metrics with the split appended, and the lines of
    [eval_results_{split}.txt] in the order of [sorted]. *)
Definition with_split (eval_split : string) (result : gmap string string)
  : list (string * string) :=
  List.map (fun kv => (String.append (fst kv) (String.append "_" eval_split), snd kv))
    (map_to_list result).

Definition key_le (x y : string * string) : Prop := Is_true (String.leb (fst x) (fst y)).

#[local] Instance key_le_dec x y : Decision (key_le x y).
Proof. unfold key_le. apply _. Defined.

Definition result_lines (result_split : list (string * string)) : list string :=
  List.map (fun kv => String.append (fst kv) (String.append " = " (snd kv)))
    (merge_sort key_le result_split).

Definition file_name (stem eval_split ext : string) : string :=
  String.append stem (String.append eval_split ext).

(** The state of the outputs collected over the batches, lines 289-304. *)
Record collected (F : Type) := {
  c_logits : list (list F);
  c_node_logits : list (list (list F));
  c_edge_logits : list (list (list F));
  c_label_ids : list Z;
  c_node_label_ids : list (list Z)
}.

Arguments c_logits {F} c.
Arguments c_node_logits {F} c.
Arguments c_edge_logits {F} c.
Arguments c_label_ids {F} c.
Arguments c_node_label_ids {F} c.

Definition collect_batch `{Framework} (model : module net) (acc : collected F)
    (batch : list (list cell)) : collected F :=
  let outputs := model_eval model batch in
  {| c_logits := c_logits acc ++ eo_logits outputs;
     c_node_logits := c_node_logits acc ++ eo_node_logits outputs;
     c_edge_logits := c_edge_logits acc ++ eo_edge_logits outputs;
     c_label_ids := c_label_ids acc ++ List.map row_label batch;
     c_node_label_ids := c_node_label_ids acc ++ List.map row_node_label batch |}.

Definition collect `{Framework} (model : module net) (batches : list (list (list cell)))
  : collected F :=
  fold_left (collect_batch model) batches
    {| c_logits := []; c_node_logits := []; c_edge_logits := [];
       c_label_ids := []; c_node_label_ids := [] |}.

(** The rows the evaluation loader yields, in order. *)
Definition eval_rows `{Framework} (a : args) (d : dataset) : list (list cell) :=
  let indices :=
    if local_rank a =? -1 then seq 0 (dataset_len d)
    else distributed_indices (dataset_len d) in
  omap (dataset_getitem d) indices.

(** The text files and directories an evaluation leaves behind. *)
Record outputs := {
  files : gmap string (list string);
  made_dirs : list string
}.

(** Lines 306-351 on the collected outputs: decoding and the four files. *)
Definition write_predictions `{Utils} `{Framework} (eval_task eval_output_dir : string)
    (labels : list string) (eval_split : string) (n_batches : nat) (c : collected F)
    (fs : gmap string (list string))
  : gmap string (list string) * outcome (gmap string string) :=
  if (n_batches =? 0)%nat then (fs, Raise (ZeroDivisionError AtEvalLoss)) else
  match traverse argmax (c_logits c) with
  | Raise e => (fs, Raise e)
  | Done preds =>
  match traverse (traverse argmax) (c_node_logits c) with
  | Raise e => (fs, Raise e)
  | Done node_preds =>
  match traverse (traverse class1) (c_edge_logits c) with
  | Raise e => (fs, Raise e)
  | Done edge_pred_logits =>
  let result_split := with_split eval_split (compute_metrics eval_task preds (c_label_ids c)) in
  let fs := <[path_join eval_output_dir (file_name "eval_results_" eval_split ".txt")
              := result_lines result_split]> fs in
  let pred_file := path_join eval_output_dir (file_name "predictions_" eval_split ".lst") in
  match label_lines labels preds with
  | (ls, Some e) => (<[pred_file := ls]> fs, Raise e)
  | (ls, None) =>
  let fs := <[pred_file := ls]> fs in
  let fs := <[path_join eval_output_dir (file_name "prediction_nodes_" eval_split ".lst")
              := List.map (fun gp => node_line (fst gp) (snd gp))
                   (combine (c_node_label_ids c) node_preds)]> fs in
  let fs := <[path_join eval_output_dir (file_name "prediction_edge_logits_" eval_split ".lst")
              := List.map edge_line edge_pred_logits]> fs in
  (fs, Done (list_to_map result_split))
  end
  end
  end
  end.

(** [evaluate(args, model, tokenizer, processor, prefix, eval_split)]; the
    result is the metrics dictionary, updated over the one read from
    [/output/metrics.json] when that file exists. *)
Definition evaluate `{Utils} `{Framework} (store : gmap string (list feature))
    (fs : gmap string (list string)) (a : args) (model : module net) (tok : tokenizer)
    (proc : processor example) (eval_split : option string)
  : outputs * outcome (gmap string string) :=
  let eval_task := task_name a in
  let eval_output_dir := output_dir a in
  match eval_split with
  | None => ({| files := fs; made_dirs := [] |}, Raise AssertionError)
  | Some eval_split =>
  let existing := default ∅ metrics_json in
  match snd (load_and_cache_examples store a eval_task tok eval_split) with
  | Raise e => ({| files := fs; made_dirs := [] |}, Raise e)
  | Done (eval_dataset, _) =>
  let dirs :=
    if negb (path_exists eval_output_dir) && is_main_process a
    then [eval_output_dir] else [] in
  let eval_batch_size := per_gpu_eval_batch_size a * Z.max 1 (n_gpu a) in
  if eval_batch_size <=? 0
  then ({| files := fs; made_dirs := dirs |}, Raise bad_batch_size) else
  let batches := batched (Z.to_nat eval_batch_size) (eval_rows a eval_dataset) in
  let c := collect model batches in
  match write_predictions eval_task eval_output_dir (get_labels proc) eval_split
          (List.length batches) c fs with
  | (fs', Raise e) => ({| files := fs'; made_dirs := dirs |}, Raise e)
  | (fs', Done result) =>
      ({| files := fs'; made_dirs := dirs |}, Done (result ∪ existing))
  end
  end
  end.

(** ** Vocabulary of the statements *)

(** [c] is the last non-empty component of [s] between separators: [s]
    is [pre ++ c ++ suf], with [c] non-empty and free of separators,
    [suf] made of separators only, and [pre] empty or ending in one. *)
Fixpoint has_sep (s : string) : bool :=
  match s with
  | EmptyString => false
  | String c s' => Ascii.eqb c "/" || has_sep s'
  end.

Fixpoint only_seps (s : string) : bool :=
  match s with
  | EmptyString => true
  | String c s' => Ascii.eqb c "/" && only_seps s'
  end.

(** ['/'.join(l)], the inverse of [split_sep]. *)
Fixpoint join_sep (l : list string) : string :=
  match l with
  | [] => EmptyString
  | [w] => w
  | w :: ws => String.append w (String "/" (join_sep ws))
  end.

Definition is_last_component (s c : string) : Prop :=
  c <> EmptyString /\ has_sep c = false /\
  exists pre suf,
    s = String.append pre (String.append c suf) /\
    only_seps suf = true /\
    (pre = EmptyString \/ endswith_sep pre = true).

(** The arguments [a] with other values for the three settings that the
    cache file name leaves out. *)
Definition with_lengths_and_mask (a : args) (nodes edges : Z) (mask : bool) : args :=
  {| data_dir := data_dir a;
     data_cache_dir := data_cache_dir a;
     model_type := model_type a;
     model_name_or_path := model_name_or_path a;
     task_name := task_name a;
     output_dir := output_dir a;
     max_seq_length := max_seq_length a;
     max_edge_length := edges;
     max_node_length := nodes;
     filter_mask := mask;
     per_gpu_train_batch_size := per_gpu_train_batch_size a;
     per_gpu_eval_batch_size := per_gpu_eval_batch_size a;
     gradient_accumulation_steps := gradient_accumulation_steps a;
     learning_rate := learning_rate a;
     weight_decay := weight_decay a;
     adam_epsilon := adam_epsilon a;
     num_train_epochs := num_train_epochs a;
     max_steps := max_steps a;
     warmup_steps := warmup_steps a;
     warmup_pct := warmup_pct a;
     fp16 := fp16 a;
     fp16_opt_level := fp16_opt_level a;
     local_rank := local_rank a;
     n_gpu := n_gpu a |}.

(** The batch with 0-based index [step] is one whose 1-based index is a
    multiple of [g]. *)
Definition is_update_step (g : Z) (step : nat) : bool :=
  (Z.of_nat step + 1) mod g =? 0.

Definition is_optimizer_step {F} (o : op F) : bool :=
  match o with
  | OptimizerStep => true
  | _ => false
  end.

(** All batches of a run, and the number of optimizer steps in them. *)
Definition all_batches {F net} (es : list (epoch_log F net)) : list (batch_log F) :=
  List.concat (List.map el_batches es).

Definition optimizer_steps {F} (bs : list (batch_log F)) : nat :=
  List.length (List.filter is_optimizer_step (List.concat (List.map bl_ops bs))).

(** The number of batches a training epoch has. *)
Definition train_batches `{Framework} (a : args) (train_dataset : dataset) : Z :=
  loader_len (sampled_count a (dataset_len train_dataset))
    (per_gpu_train_batch_size a * Z.max 1 (n_gpu a)).

(** The number of batches among [steps] whose 1-based index is a
    multiple of [g]. *)
Definition update_steps (g : Z) (steps : list nat) : nat :=
  List.length (List.filter (is_update_step g) steps).

(** The task has a processor, the batch size is positive, and lines
    80-84 with the [int()] of line 123 give [n_epochs] passes of the
    epoch loop. *)
Definition prepared `{Utils} `{Framework} (a : args) (train_dataset : dataset)
    (n_epochs : Z) : Prop :=
  is_Some (processors !! task_name a) /\
  0 < per_gpu_train_batch_size a * Z.max 1 (n_gpu a) /\
  epoch_count a (train_batches a train_dataset) = Done n_epochs.

(** Lines 80-98 raise nothing: the totals are computed, and the
    optimizer and the schedule are built. *)
Definition scheduled `{Framework} (a : args) (train_dataset : dataset) : Prop :=
  exists t_total epochs,
    total_steps a (train_batches a train_dataset) = Done (t_total, epochs) /\
    schedule a t_total = Done tt.

(** [train] gets to the fp16 block of line 100. *)
Definition reaches_fp16 `{Utils} `{Framework} (a : args) (train_dataset : dataset) : Prop :=
  is_Some (processors !! task_name a) /\
  0 < per_gpu_train_batch_size a * Z.max 1 (n_gpu a) /\
  scheduled a train_dataset.

(** [train] gets past the whole preparation (lines 70-123) and enters
    the epoch loop with [n_epochs] passes. *)
Definition enters_loop `{Utils} `{Framework} (a : args) (train_dataset : dataset)
    (n_epochs : Z) : Prop :=
  prepared a train_dataset n_epochs /\
  scheduled a train_dataset /\
  (fp16 a = true -> apex_available = true).

(** The forward pass yields one row of every output per input row. *)
Definition rowwise `{Framework} (model : module net) : Prop :=
  forall batch,
    List.length (eo_logits (model_eval model batch)) = List.length batch /\
    List.length (eo_node_logits (model_eval model batch)) = List.length batch /\
    List.length (eo_edge_logits (model_eval model batch)) = List.length batch.

(** ** A concrete instance

    Rational numbers stand for the floats, a normalisation by the sum for
    the softmax, and a network that scores each row from its labels for
    the model.  The instance is used to run the definitions on inputs. *)

Module Sample.

Definition q_ltb (x y : Q) : bool := negb (Qle_bool y x).

Definition q_sum (v : list Q) : Q := fold_right Qplus 0%Q v.

Definition q_normalize (v : list Q) : list Q :=
  List.map (fun x => Qred (x / q_sum v)%Q) v.

Definition q_repr (x : Q) : string :=
  String.append (str_int (Qnum x)) (String.append "/" (str_int (Z.pos (Qden x)))).

Definition nat_repr (n : nat) : string := str_int (Z.of_nat n).

Definition scores (_ : module unit) (batch : list (list cell)) : eval_output Q :=
  {| eo_loss := 1%Q;
     eo_logits := List.map (fun row => [1%Q; inject_Z (2 * row_label row)]) batch;
     eo_node_logits :=
       List.map (fun row => List.map (fun z => [1%Q; inject_Z (2 * z)]) (row_node_label row))
         batch;
     eo_edge_logits := List.map (fun row => [[1%Q; 3%Q]; [3%Q; 1%Q]]) batch |}.

(** The checks of the optimizer's constructor: it rejects [lr < 0.0] and
    [not 0.0 <= eps]; a nan passes the first and fails the second. *)
Definition below_zero (x : pyfloat) : bool :=
  match x with
  | Finite q => negb (Qle_bool 0 q)
  | Infinity negative => negative
  | NaN => false
  end.

Definition zero_or_above (x : pyfloat) : bool :=
  match x with
  | Finite q => Qle_bool 0 q
  | Infinity negative => negb negative
  | NaN => false
  end.

Definition adamw (_ lr eps : pyfloat) : outcome unit :=
  if below_zero lr then Raise (ValueError "Invalid learning rate")
  else if negb (zero_or_above eps) then Raise (ValueError "Invalid epsilon value")
  else Done tt.

Definition framework (apex : bool) : Framework :=
  {| F := Q;
     fzero := 0%Q;
     fadd := Qplus;
     fdiv_int := fun x n => (x / inject_Z n)%Q;
     tensor_mean := fun x => x;
     F_ltb := q_ltb;
     softmax := q_normalize;
     repr_float := q_repr;
     repr_int64 := nat_repr;
     round_float := fun q => Finite (Qred q);
     net := unit;
     forward_loss := fun _ _ _ => 1%Q;
     model_eval := scores;
     AdamW := adamw;
     WarmupLinearSchedule := fun _ _ => Done tt;
     apex_available := apex;
     path_exists := fun _ => false;
     distributed_indices := fun n => seq 0 n;
     metrics_json := None |}.

Definition rr_processor : processor string :=
  {| get_labels := ["False"; "True"]%string;
     get_train_examples := fun _ => ["t1"; "t2"; "t3"]%string;
     get_dev_examples := fun _ => ["d1"; "d2"; "d3"]%string;
     get_test_examples := fun _ => ["x1"]%string |}.

(** Each example becomes a feature whose node labels are padded to
    [max_node_length] and whose edge labels to [max_edge_length]. *)
Definition convert (examples : list string) (labels : list string)
    (seq_len nodes edges : Z) (_ _ : unit) (_ : convert_flags) (mask : bool)
  : list feature :=
  List.map (fun _ =>
    {| input_ids := [0; 5; 2];
       input_mask := [1; 1; 1];
       segment_ids := [0; 0; 0];
       proof_offset := [1];
       node_label := [1; 0] ++ repeat (-100) (Z.to_nat nodes - 2);
       edge_label := repeat 0 (Z.to_nat edges);
       label_id := if mask then 0 else 1 |}) examples.

Definition utils : Utils :=
  {| example := string;
     tokenizer := unit;
     output_mode := unit;
     processors := {[ "rr"%string := rr_processor ]};
     output_modes := {[ "rr"%string := tt ]};
     convert_examples_to_features_RR := convert;
     compute_metrics := fun _ _ _ => {[ "acc"%string := "1.0"%string ]} |}.

Definition base : args :=
  {| data_dir := "data";
     data_cache_dir := None;
     model_type := "roberta_probr";
     model_name_or_path := "models/roberta-large/";
     task_name := "rr";
     output_dir := "out";
     max_seq_length := 300;
     max_edge_length := 4;
     max_node_length := 3;
     filter_mask := false;
     per_gpu_train_batch_size := 1;
     per_gpu_eval_batch_size := 2;
     gradient_accumulation_steps := 2;
     learning_rate := Finite (1 # 100000);
     weight_decay := Finite (1 # 10);
     adam_epsilon := Finite (1 # 1000000);
     num_train_epochs := Finite 3;
     max_steps := -1;
     warmup_steps := 0;
     warmup_pct := None;
     fp16 := false;
     fp16_opt_level := "O1";
     local_rank := -1;
     n_gpu := 1 |}.

(** Variations of [base] in the settings of the training loop. *)
Definition schedule_of (g steps : Z) (epochs : pyfloat) (pct : option pyfloat)
    (half : bool) : args :=
  {| data_dir := data_dir base;
     data_cache_dir := data_cache_dir base;
     model_type := model_type base;
     model_name_or_path := model_name_or_path base;
     task_name := task_name base;
     output_dir := output_dir base;
     max_seq_length := max_seq_length base;
     max_edge_length := max_edge_length base;
     max_node_length := max_node_length base;
     filter_mask := filter_mask base;
     per_gpu_train_batch_size := per_gpu_train_batch_size base;
     per_gpu_eval_batch_size := per_gpu_eval_batch_size base;
     gradient_accumulation_steps := g;
     learning_rate := learning_rate base;
     weight_decay := weight_decay base;
     adam_epsilon := adam_epsilon base;
     num_train_epochs := epochs;
     max_steps := steps;
     warmup_steps := warmup_steps base;
     warmup_pct := pct;
     fp16 := half;
     fp16_opt_level := fp16_opt_level base;
     local_rank := local_rank base;
     n_gpu := n_gpu base |}.

Definition training (g steps : Z) (epochs : Q) (half : bool) : args :=
  schedule_of g steps (Finite epochs) None half.

Definition a_feature : feature :=
  {| input_ids := [0; 5; 2];
     input_mask := [1; 1; 1];
     segment_ids := [0; 0; 0];
     proof_offset := [1];
     node_label := [1; 0; -100];
     edge_label := [0; 0; 0; 0];
     label_id := 1 |}.

(** A training set of [n] rows. *)
Definition rows (n : nat) : dataset := make_dataset (repeat a_feature n).

End Sample.

(** ** The entry point ([main]) and the metric reader ([get_metric_on_dev]) *)

(** [s.split(sep)] for a one-character separator, and [s.split(sep)[-1]]. *)
Fixpoint split_on (sep : ascii) (s : string) : list string :=
  match s with
  | EmptyString => [EmptyString]
  | String c s' =>
      if Ascii.eqb c sep then EmptyString :: split_on sep s'
      else match split_on sep s' with
           | [] => [String c EmptyString]
           | w :: ws => String c w :: ws
           end
  end.

Definition last_field (sep : ascii) (s : string) : string :=
  List.last (split_on sep s) EmptyString.

(** [os.path.dirname] of posixpath: the part up to the last separator,
    without its trailing separators unless it consists of them. *)
Fixpoint dir_head (p : string) : string :=
  match p with
  | EmptyString => EmptyString
  | String c p' =>
      if Ascii.eqb c "/" || has_sep p' then String c (dir_head p') else EmptyString
  end.

Fixpoint rstrip_sep (s : string) : string :=
  match s with
  | EmptyString => EmptyString
  | String c s' => if only_seps s then EmptyString else String c (rstrip_sep s')
  end.

Definition dirname (p : string) : string :=
  let head := dir_head p in
  if negb (String.eqb head EmptyString) && negb (only_seps head)
  then rstrip_sep head else head.

(** The options of the command line that only [main] reads. *)
Record run_flags := {
  do_train : bool;
  do_eval : bool;
  do_prediction : bool;
  run_on_test : bool;
  eval_all_checkpoints : bool;
  no_cuda : bool;
  overwrite_output_dir : bool;
  do_lower_case : bool;
  config_name : string;
  tokenizer_name : string;
  server_ip : string;
  server_port : string
}.

(** What [main] asks of the machine and of the pretrained-model
    library.  The three loaders may raise; the other calls are taken to
    return.  [glob_sorted saved pattern] is
    [sorted(glob.glob(pattern, recursive=True))] on the files of the host
    after the run has saved weights into the directories [saved]. *)
Class Host (U : Utils) (Fw : Framework) := {
  dir_nonempty : string -> bool;
  cuda_device_count : Z;
  str_lower : string -> string;
  attach_debugger : outcome unit;
  glob_sorted : list string -> string -> list string;
  config : Type;
  load_config : string -> nat -> string -> outcome config;
  load_tokenizer : string -> bool -> outcome tokenizer;
  load_model : string -> string -> option config -> outcome net
}.

(** [args] after [main] has set [n_gpu] and lowered the two names. *)
Definition at_runtime (a : args) (task mtype : string) (gpus : Z) : args :=
  {| data_dir := data_dir a;
     data_cache_dir := data_cache_dir a;
     model_type := mtype;
     model_name_or_path := model_name_or_path a;
     task_name := task;
     output_dir := output_dir a;
     max_seq_length := max_seq_length a;
     max_edge_length := max_edge_length a;
     max_node_length := max_node_length a;
     filter_mask := filter_mask a;
     per_gpu_train_batch_size := per_gpu_train_batch_size a;
     per_gpu_eval_batch_size := per_gpu_eval_batch_size a;
     gradient_accumulation_steps := gradient_accumulation_steps a;
     learning_rate := learning_rate a;
     weight_decay := weight_decay a;
     adam_epsilon := adam_epsilon a;
     num_train_epochs := num_train_epochs a;
     max_steps := max_steps a;
     warmup_steps := warmup_steps a;
     warmup_pct := warmup_pct a;
     fp16 := fp16 a;
     fp16_opt_level := fp16_opt_level a;
     local_rank := local_rank a;
     n_gpu := gpus |}.

(** One call of [evaluate] made by [main]. *)
Record eval_call (net : Type) := {
  ec_split : string;
  ec_prefix : string;
  ec_model : module net
}.

Arguments ec_split {net} e.
Arguments ec_prefix {net} e.
Arguments ec_model {net} e.

(** A run of [main]: the log of its training, which holds the
    checkpoints saved; its calls of [evaluate]; the text files, which
    only [evaluate] writes; and the result. *)
Record main_run (F net : Type) := {
  mr_train : option (train_run F net);
  mr_evals : list (eval_call net);
  mr_files : gmap string (list string);
  mr_result : outcome (gmap string string)
}.

Arguments mr_train {F net} m.
Arguments mr_evals {F net} m.
Arguments mr_files {F net} m.
Arguments mr_result {F net} m.

Definition output_dir_in_use (a : args) : exn :=
  ValueError
    (String.append "Output directory ("
       (String.append (output_dir a)
          ") already exists and is not empty. Use --overwrite_output_dir to overcome.")).

Definition task_not_found (task : string) : exn :=
  ValueError (String.append "Task not found: " task).

(** The keys of [MODEL_CLASSES]. *)
Definition model_classes : list string := ["roberta_rr"; "roberta_probr"]%string.

(** The directories into which a training has saved weights, in the
    order of the calls of [save_pretrained] on the model. *)
Definition save_dir {net} (s : save net) : option string :=
  match s with
  | SaveModel _ dir => Some dir
  | _ => None
  end.

Definition saved_model_dirs {F net} (trained : option (train_run F net)) : list string :=
  match trained with
  | None => []
  | Some run => omap save_dir (List.concat (List.map el_saves (run_epochs run)))
  end.

(** [checkpoint.split('-')[-1] if len(checkpoints) > 1 else ""]. *)
Definition step_suffix (checkpoints : list string) (checkpoint : string) : string :=
  if (1 <? List.length checkpoints)%nat then last_field "-" checkpoint else EmptyString.

(** [dict((k + '_{}'.format(global_step), v) for k, v in result.items())]. *)
Definition suffix_keys (global_step : string) (result : gmap string string)
  : gmap string string :=
  fold_left
    (fun m kv => <[String.append (fst kv) (String.append "_" global_step) := snd kv]> m)
    (map_to_list result) ∅.

(** Lines 632-639 over the remaining checkpoints. *)
Fixpoint eval_checkpoints `{H : Host} (store : gmap string (list feature)) (a : args)
    (tok : tokenizer) (proc : processor example) (checkpoints todo : list string)
    (fs : gmap string (list string)) (results : gmap string string)
  : list (eval_call net) * gmap string (list string) * outcome (gmap string string) :=
  match todo with
  | [] => ([], fs, Done results)
  | checkpoint :: rest =>
      let global_step := step_suffix checkpoints checkpoint in
      match load_model (model_type a) checkpoint None with
      | Raise e => ([], fs, Raise e)
      | Done m =>
          let model := dp_or_ddp_model a (Plain m) in
          let call := {| ec_split := "dev"; ec_prefix := global_step; ec_model := model |} in
          match evaluate store fs a model tok proc (Some "dev"%string) with
          | (out, Raise e) => ([call], files out, Raise e)
          | (out, Done result) =>
              match eval_checkpoints store a tok proc checkpoints rest (files out)
                      (suffix_keys global_step result ∪ results) with
              | (calls, fs', r) => (call :: calls, fs', r)
              end
          end
      end
  end.

(** Lines 642-650. *)
Definition test_run `{H : Host} (store : gmap string (list feature)) (a : args)
    (tok : tokenizer) (proc : processor example) (checkpoints : list string)
    (fs : gmap string (list string)) (results : gmap string string)
  : list (eval_call net) * gmap string (list string) * outcome (gmap string string) :=
  match checkpoints with
  | [] => ([], fs, Raise IndexError)
  | checkpoint :: _ =>
      let global_step := step_suffix checkpoints checkpoint in
      match load_model (model_type a) checkpoint None with
      | Raise e => ([], fs, Raise e)
      | Done m =>
          let model := dp_or_ddp_model a (Plain m) in
          let call := {| ec_split := "test"; ec_prefix := global_step; ec_model := model |} in
          match evaluate store fs a model tok proc (Some "test"%string) with
          | (out, Raise e) => ([call], files out, Raise e)
          | (out, Done result) =>
              ([call], files out, Done (suffix_keys global_step result ∪ results))
          end
      end
  end.

(** A run of [main] that ends with [e] before anything was trained or
    evaluated. *)
Definition stopped `{Framework} (fs : gmap string (list string)) (e : exn)
  : main_run F net :=
  {| mr_train := None; mr_evals := []; mr_files := fs; mr_result := Raise e |}.

(** Lines 623-653: evaluation on dev and test after the training. *)
Definition evaluation_phase `{H : Host} (store : gmap string (list feature)) (a : args)
    (fl : run_flags) (tok : tokenizer) (proc : processor example)
    (trained : option (train_run F net)) (fs : gmap string (list string))
  : main_run F net :=
  let checkpoints :=
    if do_eval fl && is_main_process a && eval_all_checkpoints fl
    then List.map dirname
           (glob_sorted (saved_model_dirs trained)
              (String.append (output_dir a) "/**/pytorch_model.bin"))
    else [output_dir a] in
  let '(calls, fs1, r1) :=
    if do_eval fl && is_main_process a
    then eval_checkpoints store a tok proc checkpoints checkpoints fs ∅
    else ([], fs, Done ∅) in
  match r1 with
  | Raise e =>
      {| mr_train := trained; mr_evals := calls; mr_files := fs1; mr_result := Raise e |}
  | Done results =>
      if run_on_test fl && is_main_process a then
        let '(calls2, fs2, r2) := test_run store a tok proc checkpoints fs1 results in
        {| mr_train := trained; mr_evals := calls ++ calls2; mr_files := fs2;
           mr_result := r2 |}
      else
        {| mr_train := trained; mr_evals := calls; mr_files := fs1;
           mr_result := Done results |}
  end.

(** [main()], from the parsed arguments on.  Logging, seeding, device
    placement and the barriers of distributed training leave no trace in
    the result and are left out. *)
Definition main `{H : Host} (store : gmap string (list feature))
    (fs : gmap string (list string)) (a : args) (fl : run_flags) : main_run F net :=
  if dir_nonempty (output_dir a) && do_train fl && negb (overwrite_output_dir fl)
  then stopped fs (output_dir_in_use a) else
  match (if negb (String.eqb (server_ip fl) EmptyString) &&
            negb (String.eqb (server_port fl) EmptyString)
         then attach_debugger else Done tt) with
  | Raise e => stopped fs e
  | Done _ =>
  let gpus := if (local_rank a =? -1) || no_cuda fl then cuda_device_count else 1 in
  let task := str_lower (task_name a) in
  match processors !! task with
  | None => stopped fs (task_not_found task)
  | Some proc =>
  match dict_get output_modes task with
  | Raise e => stopped fs e
  | Done _ =>
  let mtype := str_lower (model_type a) in
  if negb (existsb (String.eqb mtype) model_classes) then stopped fs (KeyError mtype) else
  let a := at_runtime a task mtype gpus in
  let or_model (name : string) :=
    if String.eqb name EmptyString then model_name_or_path a else name in
  match load_config (or_model (config_name fl)) (List.length (get_labels proc)) task with
  | Raise e => stopped fs e
  | Done cfg =>
  match load_tokenizer (or_model (tokenizer_name fl)) (do_lower_case fl) with
  | Raise e => stopped fs e
  | Done tok =>
  match load_model mtype (model_name_or_path a) (Some cfg) with
  | Raise e => stopped fs e
  | Done m =>
  if do_prediction fl then
    let model := dp_or_ddp_model a (Plain m) in
    let call := {| ec_split := "test"; ec_prefix := ""; ec_model := model |} in
    match evaluate store fs a model tok proc (Some "test"%string) with
    | (out, r) =>
        {| mr_train := None; mr_evals := [call]; mr_files := files out;
           mr_result := r |}
    end
  else if do_train fl then
    match snd (load_and_cache_examples store a task tok "train") with
    | Raise e => stopped fs e
    | Done (train_dataset, _) =>
        let run := train a train_dataset (Plain m) in
        match run_result run with
        | Raise e =>
            {| mr_train := Some run; mr_evals := []; mr_files := fs;
               mr_result := Raise e |}
        | Done _ => evaluation_phase store a fl tok proc (Some run) fs
        end
    end
  else evaluation_phase store a fl tok proc None fs
  end
  end
  end
  end
  end
  end.

(** The two command lines that [get_metric_on_dev] hands to
    [os.system], lines 209-224. *)
Definition dev_metric_commands (a : args) : string * string :=
  let out := output_dir a in
  let arg (flag path : string) :=
    String.append flag (String.append out (String.append path " ")) in
  (String.append "python ./ilp_infer/inference.py "
     (String.append (String.append "--data_dir " (String.append (data_dir a) " "))
        (String.append "--eval_split dev "
           (String.append (arg "--node_preds " "/prediction_nodes_dev.lst")
              (String.append (arg "--edge_logits  " "/prediction_edge_logits_dev.lst")
                 (String.append (arg "--edge_preds " "/edge_preds_d5_dev.lst")
                    (arg "> " "/dev_inference.log")))))),
   String.append "python ./evaluation/eval_proof.py "
     (String.append (String.append "--data_dir " (String.append (data_dir a) " "))
        (String.append "--eval_split dev "
           (String.append (arg "--qa_pred_file " "/predictions_dev.lst")
              (String.append (arg "--node_pred_file " "/prediction_nodes_dev.lst")
                 (String.append (arg "--edge_pred_file " "/edge_preds_d5_dev.lst")
                    (String.append "> " (String.append out "/dev_eval.log")))))))).

(** ** Further vocabulary *)

(** The loss that a batch of the log handed to its backward pass. *)
Definition backward_loss {F} (o : op F) : option F :=
  match o with
  | Backward l => Some l
  | ScaleLossBackward l => Some l
  | _ => None
  end.

Definition batch_losses {F} (b : batch_log F) : list F :=
  omap backward_loss (bl_ops b).

(** The float comparison is a strict order in which "not below" is
    transitive, as [<] on numbers is. *)
Definition orders `{Framework} : Prop :=
  (forall x y, F_ltb x y = true -> F_ltb y x = false) /\
  (forall x y z, F_ltb x y = false -> F_ltb y z = false -> F_ltb x z = false).

(** [k] is the first index of a largest entry of [v]: no entry is above
    the one at [k], and every entry before it is below. *)
Definition first_largest `{Framework} (v : list F) (k : nat) : Prop :=
  exists x,
    v !! k = Some x /\
    forall j y, v !! j = Some y -> F_ltb x y = false /\ ((j < k)%nat -> F_ltb y x = true).

(** The row of a feature in the dataset: its seven attributes in the
    order of the tensors. *)
Definition feature_row (f : feature) : list cell :=
  [Vector (input_ids f); Vector (input_mask f); Vector (segment_ids f);
   Vector (proof_offset f); Vector (node_label f); Vector (edge_label f);
   Scalar (label_id f)].

(** The features in the order in which the evaluation sees them: all of
    them in the order of the file for a single process, those at the
    indices of the distributed sampler otherwise. *)
Definition eval_features `{Framework} (a : args) (features : list feature) : list feature :=
  omap (fun i => features !! i)
    (if local_rank a =? -1 then seq 0 (List.length features)
     else distributed_indices (List.length features)).

(** [c in s]. *)
Fixpoint contains (c : ascii) (s : string) : bool :=
  match s with
  | EmptyString => false
  | String c' s' => Ascii.eqb c' c || contains c s'
  end.

(** ** A host for the concrete instance *)

Module SampleHost.

Definition path_le (x y : string) : Prop := Is_true (String.leb x y).

#[local] Instance path_le_dec x y : Decision (path_le x y).
Proof. unfold path_le. apply _. Defined.

(** The weights files that were there, all taken to match, and the ones
    saved since, each once and in order. *)
Definition glob_weights (found saved : list string) : list string :=
  merge_sort path_le
    (remove_dups (found ++ List.map (fun dir => path_join dir "pytorch_model.bin") saved)).

Definition host (nonempty : bool) (found : list string)
  : Host Sample.utils (Sample.framework true) :=
  {| dir_nonempty := fun _ => nonempty;
     cuda_device_count := 1;
     str_lower := fun s => s;
     attach_debugger := Done tt;
     glob_sorted := fun saved _ => glob_weights found saved;
     config := unit;
     load_config := fun _ _ _ => Done tt;
     load_tokenizer := fun _ _ => (Done tt : outcome (@tokenizer Sample.utils));
     load_model := fun _ _ _ => (Done tt : outcome (@net (Sample.framework true))) |}.

Definition flags (training eval prediction test all overwrite : bool) : run_flags :=
  {| do_train := training;
     do_eval := eval;
     do_prediction := prediction;
     run_on_test := test;
     eval_all_checkpoints := all;
     no_cuda := false;
     overwrite_output_dir := overwrite;
     do_lower_case := false;
     config_name := "";
     tokenizer_name := "";
     server_ip := "";
     server_port := "" |}.

(** [Sample.base] on the second process of a distributed run. *)
Definition worker : args := {|
  data_dir := data_dir Sample.base;
  data_cache_dir := data_cache_dir Sample.base;
  model_type := model_type Sample.base;
  model_name_or_path := model_name_or_path Sample.base;
  task_name := task_name Sample.base;
  output_dir := output_dir Sample.base;
  max_seq_length := max_seq_length Sample.base;
  max_edge_length := max_edge_length Sample.base;
  max_node_length := max_node_length Sample.base;
  filter_mask := filter_mask Sample.base;
  per_gpu_train_batch_size := per_gpu_train_batch_size Sample.base;
  per_gpu_eval_batch_size := per_gpu_eval_batch_size Sample.base;
  gradient_accumulation_steps := gradient_accumulation_steps Sample.base;
  learning_rate := learning_rate Sample.base;
  weight_decay := weight_decay Sample.base;
  adam_epsilon := adam_epsilon Sample.base;
  num_train_epochs := num_train_epochs Sample.base;
  max_steps := max_steps Sample.base;
  warmup_steps := warmup_steps Sample.base;
  warmup_pct := warmup_pct Sample.base;
  fp16 := fp16 Sample.base;
  fp16_opt_level := fp16_opt_level Sample.base;
  local_rank := 1;
  n_gpu := n_gpu Sample.base
|}.


End SampleHost.

(** * Properties *)

(** ** Parallel wrappers *)

(** C7: [dp_or_ddp_model] wraps the model in [DataParallel] exactly when
    [n_gpu > 1], then wraps the result in [DistributedDataParallel] (on
    the device [local_rank]) exactly when [local_rank <> -1]; when
    neither holds the model comes back unchanged. *)
Theorem dp_or_ddp_model_cases {net} (a : args) (model : module net) :
  (n_gpu a <= 1 -> local_rank a = -1 -> dp_or_ddp_model a model = model) /\
  (1 < n_gpu a -> local_rank a = -1 ->
     dp_or_ddp_model a model = DataParallel model) /\
  (n_gpu a <= 1 -> local_rank a <> -1 ->
     dp_or_ddp_model a model =
     DistributedDataParallel model [local_rank a] (local_rank a) true) /\
  (1 < n_gpu a -> local_rank a <> -1 ->
     dp_or_ddp_model a model =
     DistributedDataParallel (DataParallel model) [local_rank a] (local_rank a) true).
Proof.
  unfold dp_or_ddp_model.
  destruct (Z.ltb_spec 1 (n_gpu a)), (Z.eqb_spec (local_rank a) (-1));
    cbn [negb]; repeat split; intros; first [ reflexivity | lia | congruence ].
Qed.

(** The four cases at a single process with one GPU. *)
Lemma dp_or_ddp_model_cases_witness :
  dp_or_ddp_model Sample.base (Plain tt) = Plain tt.
Proof.
  apply (dp_or_ddp_model_cases Sample.base (Plain tt)); reflexivity || (cbn; lia).
Defined.

(** ** Strings and paths *)

Lemma append_cons (c : ascii) (s t : string) : String c s +:+ t = String c (s +:+ t).
Proof. reflexivity. Qed.

Lemma append_nil_l (t : string) : "" +:+ t = t.
Proof. reflexivity. Qed.

Lemma append_nil_r (s : string) : s +:+ "" = s.
Proof.
  induction s as [|c s IH]; [reflexivity |].
  now rewrite append_cons, IH.
Qed.

Lemma append_assoc (s t u : string) : (s +:+ t) +:+ u = s +:+ (t +:+ u).
Proof.
  induction s as [|c s IH]; [reflexivity |].
  now rewrite !append_cons, IH.
Qed.

Lemma append_inv_head (p s t : string) : p +:+ s = p +:+ t -> s = t.
Proof.
  induction p as [|c p IH]; [trivial |].
  rewrite !append_cons. intros E. injection E. exact IH.
Qed.

Lemma split_sep_not_nil (s : string) : split_sep s <> [].
Proof.
  destruct s as [|c s]; cbn; [discriminate |].
  destruct (Ascii.eqb c "/"); [discriminate |].
  destruct (split_sep s); discriminate.
Qed.

Lemma split_sep_no_sep (c : string) : has_sep c = false -> split_sep c = [c].
Proof.
  induction c as [|ch c IH]; cbn; [reflexivity |].
  destruct (Ascii.eqb ch "/"); cbn; [discriminate |].
  intros E. now rewrite (IH E).
Qed.

Lemma split_sep_app (pre rest : string) :
  split_sep (pre +:+ String "/" rest) = split_sep pre ++ split_sep rest.
Proof.
  induction pre as [|ch pre IH]; [reflexivity |].
  rewrite append_cons. cbn [split_sep].
  destruct (Ascii.eqb ch "/"); rewrite IH; [reflexivity |].
  pose proof (split_sep_not_nil pre) as Hne.
  destruct (split_sep pre); [congruence | reflexivity].
Qed.

Lemma split_sep_only_seps (suf : string) :
  only_seps suf = true -> filter_nonempty (split_sep suf) = [].
Proof.
  induction suf as [|ch suf IH]; cbn; [reflexivity |].
  destruct (Ascii.eqb ch "/"); cbn; [exact IH | discriminate].
Qed.

Lemma filter_nonempty_app (l1 l2 : list string) :
  filter_nonempty (l1 ++ l2) = filter_nonempty l1 ++ filter_nonempty l2.
Proof. apply List.filter_app. Qed.

Lemma filter_nonempty_single (c : string) : c <> "" -> filter_nonempty [c] = [c].
Proof.
  intros Hc. unfold filter_nonempty. cbn.
  destruct (String.eqb_spec c ""); [contradiction | reflexivity].
Qed.

Lemma pop_last_snoc (l : list string) (c : string) : pop_last (l ++ [c]) = Done c.
Proof. unfold pop_last. now rewrite List.rev_app_distr. Qed.

Lemma endswith_sep_snoc (pre : string) :
  endswith_sep pre = true -> exists p, pre = p +:+ "/".
Proof.
  induction pre as [|ch pre IH]; cbn; [discriminate |].
  destruct pre as [|ch' pre'].
  - intros E. apply Ascii.eqb_eq in E. subst ch. now exists ""%string.
  - intros E. destruct (IH E) as [p Hp]. exists (String ch p).
    now rewrite append_cons, <- Hp.
Qed.

(** The component followed by separators splits into itself and empty
    fields. *)
Lemma split_component_tail (c suf : string) :
  c <> "" -> has_sep c = false -> only_seps suf = true ->
  filter_nonempty (split_sep (c +:+ suf)) = [c].
Proof.
  intros Hc Hsep Hsuf. destruct suf as [|ch suf].
  - rewrite append_nil_r, (split_sep_no_sep _ Hsep). now apply filter_nonempty_single.
  - cbn in Hsuf. apply andb_prop in Hsuf as [Hch Hsuf].
    apply Ascii.eqb_eq in Hch. subst ch.
    rewrite split_sep_app, filter_nonempty_app, (split_sep_no_sep _ Hsep).
    rewrite (split_sep_only_seps _ Hsuf), filter_nonempty_single by assumption.
    reflexivity.
Qed.

(** The source's split, filter and pop yields the last non-empty
    component. *)
Lemma checkpoint_name_last_component (s c : string) :
  is_last_component s c -> checkpoint_name s = Done c.
Proof.
  intros (Hc & Hsep & pre & suf & -> & Hsuf & Hpre).
  unfold checkpoint_name.
  pose proof (split_component_tail c suf Hc Hsep Hsuf) as Htail.
  destruct Hpre as [-> | Hend].
  - rewrite append_nil_l, Htail. apply (pop_last_snoc []).
  - destruct (endswith_sep_snoc _ Hend) as [p ->].
    rewrite append_assoc, append_cons, append_nil_l.
    rewrite split_sep_app, filter_nonempty_app, Htail.
    apply pop_last_snoc.
Qed.

Lemma join_split_sep (s : string) : join_sep (split_sep s) = s.
Proof.
  induction s as [|ch s IH]; [reflexivity |].
  cbn [split_sep]. pose proof (split_sep_not_nil s) as Hne.
  destruct (split_sep s) as [|w ws]; [congruence |].
  destruct (Ascii.eqb_spec ch "/") as [-> |].
  - change (join_sep ("" :: w :: ws)) with ("" +:+ String "/" (join_sep (w :: ws))).
    now rewrite IH.
  - destruct ws as [|w' ws].
    + cbn [join_sep] in *. now subst.
    + change (join_sep (String ch w :: w' :: ws))
        with (String ch w +:+ String "/" (join_sep (w' :: ws))).
      change (join_sep (w :: w' :: ws))
        with (w +:+ String "/" (join_sep (w' :: ws))) in IH.
      now rewrite append_cons, IH.
Qed.

Lemma split_sep_fields (s : string) : Forall (fun w => has_sep w = false) (split_sep s).
Proof.
  induction s as [|ch s IH]; [repeat constructor |].
  cbn [split_sep]. destruct (Ascii.eqb ch "/") eqn:E.
  - constructor; [reflexivity | exact IH].
  - destruct (split_sep s) as [|w ws]; [repeat constructor; cbn; now rewrite E |].
    inversion IH; subst. constructor; [cbn; now rewrite E | assumption].
Qed.

Lemma pop_last_filter_inv (l : list string) (c : string) :
  pop_last (filter_nonempty l) = Done c ->
  exists l1 l2, l = l1 ++ c :: l2 /\ c <> "" /\ filter_nonempty l2 = [].
Proof.
  induction l as [|x l IH] using rev_ind; [discriminate |].
  rewrite filter_nonempty_app. unfold filter_nonempty at 2. cbn [List.filter].
  destruct (String.eqb_spec x "") as [-> | Hx]; cbn [negb].
  - rewrite app_nil_r. intros E. destruct (IH E) as (l1 & l2 & -> & Hc & Hl2).
    exists l1, (l2 ++ [""%string]). repeat split; [now rewrite <- app_assoc | assumption |].
    rewrite filter_nonempty_app, Hl2. reflexivity.
  - rewrite pop_last_snoc. intros [= <-]. now exists l, [].
Qed.

Lemma join_sep_app (l1 l2 : list string) :
  l1 <> [] -> l2 <> [] ->
  join_sep (l1 ++ l2) = join_sep l1 +:+ String "/" (join_sep l2).
Proof.
  intros H1 H2. induction l1 as [|w l1 IH]; [congruence |].
  destruct l1 as [|w' l1].
  - destruct l2; [congruence | reflexivity].
  - change (join_sep ((w :: w' :: l1) ++ l2))
      with (w +:+ String "/" (join_sep ((w' :: l1) ++ l2))).
    rewrite IH by discriminate.
    change (join_sep (w :: w' :: l1)) with (w +:+ String "/" (join_sep (w' :: l1))).
    now rewrite append_assoc, append_cons.
Qed.

Lemma join_sep_empties (l : list string) :
  filter_nonempty l = [] -> only_seps (join_sep l) = true.
Proof.
  induction l as [|w l IH]; [reflexivity |].
  unfold filter_nonempty. cbn [List.filter].
  destruct (String.eqb_spec w "") as [-> |]; cbn [negb]; [| discriminate].
  intros E. specialize (IH E). destruct l; [reflexivity |].
  change (join_sep ("" :: s :: l)) with (String "/" (join_sep (s :: l))).
  cbn [only_seps]. now rewrite IH.
Qed.

Lemma endswith_sep_app (p : string) : endswith_sep (p +:+ "/") = true.
Proof.
  induction p as [|ch p IH]; [reflexivity |].
  rewrite append_cons. cbn [endswith_sep].
  destruct (p +:+ "/") eqn:E; [| exact IH].
  destruct p; discriminate.
Qed.

(** Conversely, whatever the source pops is the last non-empty
    component. *)
Lemma checkpoint_name_inv (s c : string) :
  checkpoint_name s = Done c -> is_last_component s c.
Proof.
  unfold checkpoint_name. intros E.
  destruct (pop_last_filter_inv _ _ E) as (l1 & l2 & Hl & Hc & Hl2).
  pose proof (split_sep_fields s) as Hf. rewrite Hl in Hf.
  apply Forall_app in Hf as [_ Hf]. inversion Hf as [|? ? Hsep _]; subst.
  split; [assumption |]. split; [assumption |].
  exists (match l1 with [] => "" | _ => join_sep l1 +:+ "/" end)%string,
         (match l2 with [] => "" | _ => String "/" (join_sep l2) end)%string.
  split; [| split].
  - rewrite <- (join_split_sep s), Hl.
    destruct l1 as [|w1 l1], l2 as [|w2 l2].
    + cbn [app join_sep]. now rewrite append_nil_l, append_nil_r.
    + rewrite append_nil_l. apply (join_sep_app [c] (w2 :: l2)); discriminate.
    + rewrite append_nil_r, join_sep_app by discriminate.
      now rewrite append_assoc, append_cons, append_nil_l.
    + rewrite join_sep_app by discriminate.
      change (join_sep (c :: w2 :: l2)) with (c +:+ String "/" (join_sep (w2 :: l2))).
      now rewrite append_assoc, append_cons, append_nil_l.
  - destruct l2 as [|w2 l2]; [reflexivity |].
    cbn [only_seps]. now rewrite (join_sep_empties _ Hl2).
  - destruct l1 as [|w1 l1]; [now left | right; apply endswith_sep_app].
Qed.

(** A name without a non-empty component makes [pop] fail. *)
Lemma checkpoint_name_no_component (s : string) :
  only_seps s = true -> checkpoint_name s = Raise IndexError.
Proof.
  intros E. unfold checkpoint_name. now rewrite (split_sep_only_seps _ E).
Qed.

(** [os.path.join] with a relative second component keeps the first. *)
Lemma path_join_relative (dir name : string) :
  startswith_sep name = false ->
  exists prefix,
    (prefix = dir \/ prefix = dir +:+ "/") /\
    forall name', startswith_sep name' = false -> path_join dir name' = prefix +:+ name'.
Proof.
  intros _. unfold path_join.
  destruct (String.eqb dir "" || endswith_sep dir).
  - exists dir. split; [now left |]. intros n ->. reflexivity.
  - exists (dir +:+ "/"). split; [now right |]. intros n ->.
    now rewrite append_assoc, append_cons, append_nil_l.
Qed.

(** ** The feature cache *)

Section CacheProperties.

Context `{U : Utils}.

(** C2: the cached features file is the data cache directory
    ([data_cache_dir] if given, else [data_dir]) joined with
    [cached_{split}_{c}_{max_seq_length}_{task}], where [c] is the last
    non-empty '/'-separated component of [model_name_or_path]; and that
    path is the one whose stored features [load_and_cache_examples]
    returns as the dataset. *)
Theorem cached_features_file_key (a : args) (task eval_split c : string) :
  is_last_component (model_name_or_path a) c ->
  let dir := match data_cache_dir a with Some d => d | None => data_dir a end in
  let file :=
    path_join dir
      ("cached_" +:+ eval_split +:+ "_" +:+ c +:+ "_" +:+
       str_int (max_seq_length a) +:+ "_" +:+ task) in
  cached_features_file a task eval_split = Done file /\
  forall store tok p mode features,
    processors !! task = Some p ->
    output_modes !! task = Some mode ->
    store !! file = Some features ->
    snd (load_and_cache_examples store a task tok eval_split) =
    Done (make_dataset features,
          if String.eqb eval_split "dev" then Some (get_dev_examples p (data_dir a))
          else None).
Proof.
  intros Hc dir file.
  assert (Hfile : cached_features_file a task eval_split = Done file).
  { unfold cached_features_file.
    now rewrite (checkpoint_name_last_component _ _ Hc). }
  split; [exact Hfile |].
  intros store tok p mode features Hp Hm Hs.
  unfold load_and_cache_examples, load_features, dict_get.
  cbn [snd]. rewrite Hp, Hm. cbn [bind]. rewrite Hfile. cbn [bind].
  now rewrite Hs.
Qed.

(** C8, as amended: the cache file path does not depend on
    [max_node_length], [max_edge_length] or [filter_mask]; when the file
    exists the same features are loaded whatever these three are; on a
    miss the three values are handed to the conversion that computes the
    features, and the store is left as it was: nothing is written to the
    cache file. *)
Theorem cache_ignores_lengths_and_mask (store : gmap string (list feature)) (a : args)
    (task : string) (tok : tokenizer) (eval_split : string) (nodes edges : Z)
    (mask : bool) :
  let a' := with_lengths_and_mask a nodes edges mask in
  cached_features_file a' task eval_split = cached_features_file a task eval_split /\
  (forall file features,
     cached_features_file a task eval_split = Done file ->
     store !! file = Some features ->
     load_and_cache_examples store a' task tok eval_split =
     load_and_cache_examples store a task tok eval_split) /\
  (forall file p mode examples,
     cached_features_file a task eval_split = Done file ->
     store !! file = None ->
     processors !! task = Some p ->
     output_modes !! task = Some mode ->
     split_examples p a eval_split = Done examples ->
     load_and_cache_examples store a' task tok eval_split =
     (store,
      Done (make_dataset
              (convert_examples_to_features_RR examples (get_labels p)
                 (max_seq_length a) nodes edges tok mode (flags_of a) mask),
            Some examples))).
Proof.
  intros a'. split; [reflexivity |]. split.
  - intros file features Hfile Hs.
    unfold load_and_cache_examples, load_features. f_equal.
    destruct (dict_get processors task); [| reflexivity].
    destruct (dict_get output_modes task); [| reflexivity]. cbn [bind].
    change (cached_features_file a' task eval_split)
      with (cached_features_file a task eval_split).
    rewrite Hfile. cbn [bind]. now rewrite Hs.
  - intros file p mode examples Hfile Hs Hp Hm Hex.
    unfold load_and_cache_examples, load_features, dict_get.
    rewrite Hp, Hm. cbn [bind].
    change (cached_features_file a' task eval_split)
      with (cached_features_file a task eval_split).
    rewrite Hfile. cbn [bind]. rewrite Hs.
    change (split_examples p a' eval_split) with (split_examples p a eval_split).
    now rewrite Hex.
Qed.

(** C5: the dataset returned by [load_and_cache_examples] holds exactly
    seven tensors of type long, in the order input ids, input mask,
    segment ids, proof offset, node labels, edge labels, answer label
    ids, each with one row per feature. *)
Theorem dataset_of_seven_long_tensors (store : gmap string (list feature)) (a : args)
    (task : string) (tok : tokenizer) (eval_split : string) (d : dataset)
    (ex : option (list example)) :
  snd (load_and_cache_examples store a task tok eval_split) = Done (d, ex) ->
  exists features,
    load_features store a task tok eval_split = Done (features, ex) /\
    tensors d =
      [ {| t_dtype := Long; t_rows := List.map (fun f => Vector (input_ids f)) features |};
        {| t_dtype := Long; t_rows := List.map (fun f => Vector (input_mask f)) features |};
        {| t_dtype := Long; t_rows := List.map (fun f => Vector (segment_ids f)) features |};
        {| t_dtype := Long; t_rows := List.map (fun f => Vector (proof_offset f)) features |};
        {| t_dtype := Long; t_rows := List.map (fun f => Vector (node_label f)) features |};
        {| t_dtype := Long; t_rows := List.map (fun f => Vector (edge_label f)) features |};
        {| t_dtype := Long; t_rows := List.map (fun f => Scalar (label_id f)) features |} ] /\
    List.length (tensors d) = 7%nat /\
    Forall (fun t => t_dtype t = Long /\ List.length (t_rows t) = List.length features)
      (tensors d) /\
    dataset_len d = List.length features /\
    forall i f,
      features !! i = Some f ->
      dataset_getitem d i =
      Some [Vector (input_ids f); Vector (input_mask f); Vector (segment_ids f);
            Vector (proof_offset f); Vector (node_label f); Vector (edge_label f);
            Scalar (label_id f)].
Proof.
  unfold load_and_cache_examples. cbn [snd].
  destruct (load_features store a task tok eval_split) as [[features ex'] | e];
    cbn [bind fst snd]; [| discriminate].
  intros [= <- <-]. exists features.
  split; [reflexivity |]. split; [reflexivity |]. split; [reflexivity |].
  split; [| split].
  - unfold make_dataset, long_tensor. cbn [tensors].
    repeat constructor; cbn [t_rows]; apply List.length_map.
  - unfold dataset_len, make_dataset, long_tensor. cbn. apply List.length_map.
  - intros i f Hi. unfold dataset_getitem, make_dataset, long_tensor.
    cbn [tensors t_rows mapM]. rewrite !list_lookup_fmap, Hi. reflexivity.
Qed.

End CacheProperties.

(** The key of [models/roberta-large/] for the dev split. *)
Lemma cached_features_file_key_witness :
  is_last_component "models/roberta-large/" "roberta-large" /\
  cached_features_file Sample.base "rr" "dev" =
  Done "data/cached_dev_roberta-large_300_rr"%string.
Proof.
  assert (H : is_last_component (model_name_or_path Sample.base) "roberta-large").
  { split; [discriminate |]. split; [reflexivity |].
    exists "models/"%string, "/"%string. repeat split. now right. }
  split; [exact H |].
  exact (proj1 (@cached_features_file_key Sample.utils Sample.base "rr" "dev"
                  "roberta-large" H)).
Defined.

(** A miss on the empty store with other lengths and mask. *)
Lemma cache_ignores_lengths_and_mask_witness :
  @load_and_cache_examples Sample.utils ∅
    (with_lengths_and_mask Sample.base 5 9 true) "rr" tt "train" =
  (∅, Done (make_dataset
              (Sample.convert ["t1"; "t2"; "t3"]%string ["False"; "True"]%string
                 300 5 9 tt tt (flags_of Sample.base) true),
            Some ["t1"; "t2"; "t3"]%string)).
Proof.
  apply (proj2 (proj2 (@cache_ignores_lengths_and_mask Sample.utils ∅ Sample.base
                         "rr" tt "train" 5 9 true))
           "data/cached_train_roberta-large_300_rr"%string Sample.rr_processor tt);
    reflexivity.
Defined.

(** The three training examples of the sample give three rows. *)
Lemma dataset_of_seven_long_tensors_witness :
  exists features,
    @load_features Sample.utils ∅ Sample.base "rr" tt "train" =
    Done (features, Some ["t1"; "t2"; "t3"]%string) /\
    List.length features = 3%nat.
Proof.
  assert (H : snd (@load_and_cache_examples Sample.utils ∅ Sample.base "rr" tt "train") =
              Done (make_dataset
                      (Sample.convert ["t1"; "t2"; "t3"]%string ["False"; "True"]%string
                         300 3 4 tt tt (flags_of Sample.base) false),
                    Some ["t1"; "t2"; "t3"]%string)) by reflexivity.
  destruct (@dataset_of_seven_long_tensors Sample.utils _ _ _ _ _ _ _ H)
    as (features & Hload & _ & _ & _ & Hlen & _).
  exists features. split; [exact Hload |]. rewrite <- Hlen. reflexivity.
Defined.

(** On a miss the features are computed and returned, and the store has
    no file at the cache path afterwards: the claim that they are stored
    fails. *)
Lemma cache_miss_stores_nothing :
  let store : gmap string (list feature) := ∅ in
  let file := "data/cached_train_roberta-large_300_rr"%string in
  cached_features_file Sample.base "rr" "train" = Done file /\
  store !! file = None /\
  snd (@load_and_cache_examples Sample.utils store Sample.base "rr" tt "train") =
  Done (make_dataset
          (Sample.convert ["t1"; "t2"; "t3"]%string ["False"; "True"]%string
             300 3 4 tt tt (flags_of Sample.base) false),
        Some ["t1"; "t2"; "t3"]%string) /\
  fst (@load_and_cache_examples Sample.utils store Sample.base "rr" tt "train") !! file
  = None.
Proof. repeat split. Qed.

(** ** The training loop *)

Section TrainProperties.

Context `{U : Utils} `{Fw : Framework}.

(** The loss handed to the backward pass of the batch at [e], [s]. *)
Local Abbreviation scaled_loss a m e s :=
  (let l := forward_loss m e s in
   let l := if 1 <? n_gpu a then tensor_mean l else l in
   if 1 <? gradient_accumulation_steps a
   then fdiv_int l (gradient_accumulation_steps a) else l).

(** The framework calls of the batch at [e], [s]. *)
Local Abbreviation batch_ops a m e s :=
  ([TrainMode; Forward] ++
   (if fp16 a
    then [ScaleLossBackward (scaled_loss a m e s); ClipGradNorm AmpMasterParams]
    else [Backward (scaled_loss a m e s); ClipGradNorm ModelParameters]) ++
   (if is_update_step (gradient_accumulation_steps a) s
    then [OptimizerStep; SchedulerStep; ZeroGrad] else [])).

Lemma train_batch_run (a : args) (m : module net) (e s : nat) (st : Z * F) :
  gradient_accumulation_steps a <> 0 ->
  train_batch a m e s st =
  ({| bl_step := s; bl_ops := batch_ops a m e s |},
   (fst st + (if is_update_step (gradient_accumulation_steps a) s then 1 else 0),
    fadd (snd st) (scaled_loss a m e s)),
   None).
Proof.
  intros Hg. unfold train_batch, pymod, is_update_step.
  destruct (Z.eqb_spec (gradient_accumulation_steps a) 0) as [| _]; [contradiction |].
  destruct ((Z.of_nat s + 1) mod gradient_accumulation_steps a =? 0).
  - rewrite <- app_assoc. reflexivity.
  - rewrite app_nil_r, Z.add_0_r. reflexivity.
Qed.

Lemma optimizer_steps_batch_ops (a : args) (m : module net) (e s : nat) :
  List.filter is_optimizer_step (batch_ops a m e s) =
  if is_update_step (gradient_accumulation_steps a) s then [OptimizerStep] else [].
Proof.
  destruct (fp16 a), (is_update_step (gradient_accumulation_steps a) s); reflexivity.
Qed.

(** What one pass of the batch loop leaves: no exception, a log of a
    prefix of the steps that is cut only by the step limit, and a
    [global_step] advanced by the update steps in it. *)
Lemma batch_loop_run (a : args) (m : module net) (e : nat) :
  gradient_accumulation_steps a <> 0 ->
  forall steps st bs st' err,
    batch_loop a m e steps st = (bs, st', err) ->
    err = None /\
    (exists rest,
       steps = List.map bl_step bs ++ rest /\
       (rest <> [] -> stop_now a (fst st') = true)) /\
    Forall (fun b => bl_ops b = batch_ops a m e (bl_step b)) bs /\
    fst st' =
      fst st + Z.of_nat (update_steps (gradient_accumulation_steps a) (List.map bl_step bs)).
Proof.
  intros Hg. induction steps as [|s steps IH]; intros st bs st' err.
  - cbn [batch_loop]. intros [= <- <- <-].
    repeat split; [now exists [] | constructor | cbn; lia].
  - cbn [batch_loop]. rewrite (train_batch_run a m e s st Hg).
    set (st1 := (fst st + _, _)).
    destruct (stop_now a (fst st1)) eqn:Hstop.
    + intros [= <- <- <-]. repeat split.
      * exists steps. split; [reflexivity | intros _; exact Hstop].
      * repeat constructor.
      * subst st1. unfold update_steps. cbn [fst List.map List.filter bl_step].
        destruct (is_update_step _ s); cbn [List.length]; lia.
    + destruct (batch_loop a m e steps st1) as [[bs1 st2] err1] eqn:Hloop.
      intros [= <- <- <-].
      destruct (IH _ _ _ _ Hloop) as (-> & (rest & Hrest & Hcut) & Hall & Hgs).
      repeat split.
      * exists rest. split; [cbn [List.map bl_step]; now rewrite Hrest at 1 | exact Hcut].
      * constructor; [reflexivity | exact Hall].
      * rewrite Hgs. subst st1. unfold update_steps.
        cbn [fst List.map List.filter bl_step].
        destruct (is_update_step _ s); cbn [List.length]; lia.
Qed.

(** Under a step limit the batch loop never takes [global_step] beyond
    the limit plus one, and it is left early only at that value. *)
Lemma batch_loop_limit (a : args) (m : module net) (e : nat) :
  gradient_accumulation_steps a <> 0 ->
  0 < max_steps a ->
  forall steps st bs st' err,
    batch_loop a m e steps st = (bs, st', err) ->
    fst st <= max_steps a ->
    fst st' <= max_steps a + 1 /\
    (stop_now a (fst st') = false -> List.map bl_step bs = steps).
Proof.
  intros Hg Hmax. induction steps as [|s steps IH]; intros st bs st' err.
  - cbn [batch_loop]. intros [= <- <- <-] Hle. split; [lia | reflexivity].
  - cbn [batch_loop]. rewrite (train_batch_run a m e s st Hg).
    set (st1 := (fst st + _, _)). intros Hrun Hle.
    assert (H1 : fst st1 <= max_steps a + 1).
    { subst st1. cbn [fst]. destruct (is_update_step _ s); lia. }
    destruct (stop_now a (fst st1)) eqn:Hstop.
    + injection Hrun as <- <- <-. split; [exact H1 |]. congruence.
    + destruct (batch_loop a m e steps st1) as [[bs1 st2] err1] eqn:Hloop.
      injection Hrun as <- <- <-.
      assert (Hle1 : fst st1 <= max_steps a).
      { unfold stop_now in Hstop. apply andb_false_iff in Hstop as [H | H];
          [apply Z.ltb_ge in H | apply Z.ltb_ge in H]; lia. }
      destruct (IH _ _ _ _ Hloop Hle1) as [Hb Hall].
      split; [exact Hb |]. intros Hns. cbn [List.map bl_step]. now rewrite (Hall Hns).
Qed.

(** Without a step limit nothing stops the loops. *)
Lemma stop_now_unlimited (a : args) (gs : Z) : max_steps a <= 0 -> stop_now a gs = false.
Proof.
  intros H. unfold stop_now. destruct (Z.ltb_spec 0 (max_steps a)); [lia | reflexivity].
Qed.

Lemma stop_now_true (a : args) (gs : Z) :
  stop_now a gs = true <-> 0 < max_steps a /\ max_steps a < gs.
Proof. unfold stop_now. rewrite andb_true_iff, !Z.ltb_lt. reflexivity. Qed.

(** The epochs of a log: each one holds a prefix of the steps of an
    epoch with the calls of each batch, and saves a checkpoint unless the
    step limit ended it. *)
Local Abbreviation epoch_ok a m n_batches el :=
  (Forall (fun b => bl_ops b = batch_ops a m (el_index el) (bl_step b)) (el_batches el) /\
   (exists rest,
      seq 0 n_batches = List.map bl_step (el_batches el) ++ rest /\
      (rest <> [] -> stop_now a (el_global_step el) = true)) /\
   el_saves el =
     if stop_now a (el_global_step el) then [] else checkpoint a m (el_index el)).

Lemma epoch_loop_run (a : args) (m : module net) (n_batches : nat) :
  gradient_accumulation_steps a <> 0 ->
  forall epochs st es st' err,
    epoch_loop a m n_batches epochs st = (es, st', err) ->
    err = None /\
    (exists rest, epochs = List.map el_index es ++ rest) /\
    Forall (fun el => epoch_ok a m n_batches el) es /\
    fst st' =
      fst st + Z.of_nat (update_steps (gradient_accumulation_steps a)
                           (List.map bl_step (all_batches es))).
Proof.
  intros Hg. induction epochs as [|e epochs IH]; intros st es st' err.
  - cbn [epoch_loop]. intros [= <- <- <-].
    repeat split; [now exists [] | constructor | cbn; lia].
  - cbn [epoch_loop].
    destruct (batch_loop a m e (seq 0 n_batches) st) as [[bs st1] err1] eqn:Hb.
    destruct (batch_loop_run a m e Hg _ _ _ _ _ Hb) as (-> & Hpre & Hops & Hgs).
    destruct (stop_now a (fst st1)) eqn:Hstop.
    + intros [= <- <- <-]. repeat split.
      * now exists epochs.
      * constructor; [| constructor]. cbn [el_index el_batches el_global_step el_saves].
        rewrite Hstop. repeat split; assumption.
      * unfold all_batches. cbn [List.map List.concat el_batches].
        now rewrite app_nil_r.
    + destruct (epoch_loop a m n_batches epochs st1) as [[es1 st2] err2] eqn:Hloop.
      intros [= <- <- <-].
      destruct (IH _ _ _ _ Hloop) as (-> & (rest & Hrest) & Hall & Hgs2).
      repeat split.
      * exists rest. cbn [List.map el_index]. now rewrite Hrest at 1.
      * constructor; [| exact Hall].
        cbn [el_index el_batches el_global_step el_saves].
        rewrite Hstop. repeat split; assumption.
      * rewrite Hgs2, Hgs. unfold all_batches, update_steps.
        cbn [List.map List.concat el_batches].
        rewrite List.map_app, List.filter_app, List.length_app. lia.
Qed.

Lemma epoch_loop_limit (a : args) (m : module net) (n_batches : nat) :
  gradient_accumulation_steps a <> 0 ->
  0 < max_steps a ->
  forall epochs st es st' err,
    epoch_loop a m n_batches epochs st = (es, st', err) ->
    fst st <= max_steps a ->
    fst st' <= max_steps a + 1 /\
    Forall (fun el => el_global_step el <= max_steps a + 1) es /\
    (stop_now a (fst st') = false ->
     fst st' =
       fst st + Z.of_nat (List.length epochs) *
                Z.of_nat (update_steps (gradient_accumulation_steps a) (seq 0 n_batches))).
Proof.
  intros Hg Hmax. induction epochs as [|e epochs IH]; intros st es st' err.
  - cbn [epoch_loop]. intros [= <- <- <-] Hle.
    repeat split; [lia | constructor | cbn; lia].
  - cbn [epoch_loop].
    destruct (batch_loop a m e (seq 0 n_batches) st) as [[bs st1] err1] eqn:Hb.
    intros Hrun Hle.
    destruct (batch_loop_run a m e Hg _ _ _ _ _ Hb) as (-> & _ & _ & Hgs).
    destruct (batch_loop_limit a m e Hg Hmax _ _ _ _ _ Hb Hle) as [Hb1 Hfull].
    destruct (stop_now a (fst st1)) eqn:Hstop.
    + injection Hrun as <- <- <-.
      repeat split; [exact Hb1 | repeat constructor; exact Hb1 | congruence].
    + destruct (epoch_loop a m n_batches epochs st1) as [[es1 st2] err2] eqn:Hloop.
      injection Hrun as <- <- <-.
      assert (Hle1 : fst st1 <= max_steps a).
      { pose proof (proj2 (stop_now_true a (fst st1))) as H.
        destruct (Z.le_gt_cases (fst st1) (max_steps a)); [assumption |].
        rewrite H in Hstop by lia. discriminate. }
      destruct (IH _ _ _ _ Hloop Hle1) as (Hb2 & Hall & Hcount).
      repeat split; [exact Hb2 | constructor; [exact Hb1 | exact Hall] |].
      intros Hns. rewrite (Hcount Hns), Hgs, (Hfull eq_refl).
      cbn [List.length]. lia.
Qed.

Lemma total_steps_done (a : args) (n_batches : Z) (plan : number * number) :
  total_steps a n_batches = Done plan -> gradient_accumulation_steps a <> 0.
Proof.
  unfold total_steps, floordiv. intros H Hg. rewrite Hg in H. cbn in H.
  destruct (0 <? max_steps a); discriminate.
Qed.

Lemma epoch_count_plan (a : args) (n_batches n : Z) :
  epoch_count a n_batches = Done n <->
  exists t_total epochs,
    total_steps a n_batches = Done (t_total, epochs) /\ int_of_number epochs = Done n.
Proof.
  unfold epoch_count. destruct (total_steps a n_batches) as [[t e] | x]; cbn [bind snd].
  - split; [eauto | intros (t' & e' & [= <- <-] & H); exact H].
  - split; [discriminate | intros (t' & e' & [=] & _)].
Qed.

Lemma epoch_count_done (a : args) (n_batches n : Z) :
  epoch_count a n_batches = Done n -> gradient_accumulation_steps a <> 0.
Proof.
  intros H. apply epoch_count_plan in H as (t & e & H & _).
  exact (total_steps_done _ _ _ H).
Qed.

(** With a step limit the epochs are [max_steps // (n // g) + 1];
    without one they are [int(num_train_epochs)]. *)
Lemma epoch_count_limited (a : args) (n_batches n : Z) :
  0 < max_steps a ->
  epoch_count a n_batches = Done n ->
  n_batches / gradient_accumulation_steps a <> 0 /\
  n = max_steps a / (n_batches / gradient_accumulation_steps a) + 1.
Proof.
  intros Hmax. unfold epoch_count, total_steps, floordiv.
  destruct (Z.ltb_spec 0 (max_steps a)); [| lia].
  destruct (Z.eqb_spec (gradient_accumulation_steps a) 0); [discriminate |].
  destruct (Z.eqb_spec (n_batches / gradient_accumulation_steps a) 0); [discriminate |].
  cbn. intros [= <-]. split; [assumption | reflexivity].
Qed.

Lemma epoch_count_unlimited (a : args) (n_batches n : Z) :
  max_steps a <= 0 ->
  epoch_count a n_batches = Done n ->
  int_of_float (num_train_epochs a) = Done n.
Proof.
  intros Hmax. unfold epoch_count, total_steps, floordiv.
  destruct (Z.ltb_spec 0 (max_steps a)); [lia |].
  destruct (_ =? 0); [discriminate |].
  destruct (float_of_int _); cbn; [tauto | discriminate].
Qed.

(** A run that enters the loop is the log of the epoch loop, which ends
    without exception, with the division of line 206 as its result. *)
Lemma train_entered (a : args) (ds : dataset) (model : module net) (n : Z) :
  enters_loop a ds n ->
  exists es gs tr,
    epoch_loop a (dp_or_ddp_model a model) (Z.to_nat (train_batches a ds))
      (seq 0 (Z.to_nat n)) (0, fzero) = (es, (gs, tr), None) /\
    train a ds model =
    {| run_setup :=
         (if fp16 a then [AmpInitialize (fp16_opt_level a)] else []) ++ [InitialZeroGrad];
       run_model := dp_or_ddp_model a model;
       run_epochs := es;
       run_global_step := gs;
       run_tr_loss := tr;
       run_result :=
         if gs =? 0 then Raise (ZeroDivisionError AtAverageLoss)
         else Done (gs, fdiv_int tr gs) |}.
Proof.
  intros (([p Hp] & Hbs & Hn) & (t & e & Ht & Hs) & Hapex).
  pose proof (epoch_count_done _ _ _ Hn) as Hg.
  apply epoch_count_plan in Hn as (t' & e' & Ht' & Hn).
  rewrite Ht in Ht'. injection Ht' as <- <-.
  destruct (epoch_loop a (dp_or_ddp_model a model) (Z.to_nat (train_batches a ds))
              (seq 0 (Z.to_nat n)) (0, fzero)) as [[es [gs tr]] err] eqn:Hloop.
  destruct (epoch_loop_run a _ _ Hg _ _ _ _ _ Hloop) as (-> & _).
  exists es, gs, tr. split; [reflexivity |].
  unfold train, dict_get. rewrite Hp.
  destruct (Z.leb_spec (per_gpu_train_batch_size a * Z.max 1 (n_gpu a)) 0); [lia |].
  unfold train_batches in Ht, Hloop. rewrite Ht, Hs, Hn.
  destruct (fp16 a) eqn:Hfp.
  - rewrite (Hapex eq_refl). cbn [andb negb]. now rewrite Hloop.
  - cbn [andb]. now rewrite Hloop.
Qed.

(** The stages of the preparation, in the order of the source: what
    [train] is when one of them raises. *)
Lemma train_before_fp16 (a : args) (ds : dataset) (model : module net) :
  (exists e,
     train a ds model = aborted model [] e /\ ~ reaches_fp16 a ds /\
     (e = KeyError (task_name a) \/ e = bad_batch_size \/
      total_steps a (train_batches a ds) = Raise e \/
      exists t_total epochs,
        total_steps a (train_batches a ds) = Done (t_total, epochs) /\
        schedule a t_total = Raise e)) \/
  (exists t_total epochs,
     reaches_fp16 a ds /\
     total_steps a (train_batches a ds) = Done (t_total, epochs) /\
     schedule a t_total = Done tt /\
     train a ds model =
       if fp16 a && negb apex_available then aborted model [] apex_missing
       else
         match int_of_number epochs with
         | Raise e =>
             aborted (dp_or_ddp_model a model)
               ((if fp16 a then [AmpInitialize (fp16_opt_level a)] else []) ++
                [InitialZeroGrad]) e
         | Done n =>
             match epoch_loop a (dp_or_ddp_model a model) (Z.to_nat (train_batches a ds))
                     (seq 0 (Z.to_nat n)) (0, fzero) with
             | (es, (gs, tr), err) =>
                 {| run_setup :=
                      (if fp16 a then [AmpInitialize (fp16_opt_level a)] else []) ++
                      [InitialZeroGrad];
                    run_model := dp_or_ddp_model a model;
                    run_epochs := es;
                    run_global_step := gs;
                    run_tr_loss := tr;
                    run_result :=
                      match err with
                      | Some e => Raise e
                      | None =>
                          if gs =? 0 then Raise (ZeroDivisionError AtAverageLoss)
                          else Done (gs, fdiv_int tr gs)
                      end |}
             end
         end).
Proof.
  unfold reaches_fp16, scheduled, train, dict_get, train_batches.
  destruct (processors !! task_name a) as [p |] eqn:Hp.
  2:{ left. eexists. split; [reflexivity |]. split; [| auto].
      intros ([? [=]] & _). }
  destruct (Z.leb_spec (per_gpu_train_batch_size a * Z.max 1 (n_gpu a)) 0) as [Hbs | Hbs].
  { left. eexists. split; [reflexivity |]. split; [| auto]. intros (_ & H & _). lia. }
  destruct (total_steps a _) as [[t e] | x] eqn:Ht.
  2:{ left. eexists. split; [reflexivity |]. split; [| auto].
      intros (_ & _ & t & e & [=] & _). }
  destruct (schedule a t) as [[] | x] eqn:Hs.
  2:{ left. eexists. split; [reflexivity |]. split; [| eauto 10].
      intros (_ & _ & t' & e' & [= <- <-] & H). congruence. }
  right. exists t, e. repeat split; eauto.
Qed.

(** Every run either stops before the loop, with no batch processed, or
    enters it. *)
Lemma train_cases (a : args) (ds : dataset) (model : module net) :
  (exists m events e,
     train a ds model = aborted m events e /\ forall n, ~ enters_loop a ds n) \/
  (exists n, enters_loop a ds n).
Proof.
  destruct (train_before_fp16 a ds model)
    as [(e & He & Hno & _) | (t & ep & Hr & Ht & Hs & Hrun)].
  { left. exists model, [], e. split; [exact He |].
    intros n ((Hp & Hbs & _) & Hsch & _). apply Hno. repeat split; assumption. }
  destruct (fp16 a && negb apex_available) eqn:Hfp.
  { left. exists model, [], apex_missing. split; [exact Hrun |].
    intros n (_ & _ & Hapex). apply andb_true_iff in Hfp as [Hf Ha].
    rewrite (Hapex Hf) in Ha. discriminate. }
  destruct (int_of_number ep) as [n | e] eqn:Hn.
  - right. exists n. destruct Hr as (Hp & Hbs & Hsch).
    split; [| split; [exact Hsch |]].
    + split; [exact Hp |]. split; [exact Hbs |].
      apply epoch_count_plan. eauto.
    + intros Hf. rewrite Hf in Hfp. now destruct apex_available.
  - left. eexists _, _, e. split; [exact Hrun |].
    intros n ((_ & _ & Hc) & _). apply epoch_count_plan in Hc as (t' & e' & Ht' & Hc).
    rewrite Ht in Ht'. injection Ht' as <- <-. congruence.
Qed.

Lemma seq_prefix (l rest : list nat) (s n : nat) :
  seq s n = l ++ rest -> l = seq s (List.length l).
Proof.
  revert s n. induction l as [|x l IH]; intros s n H; [reflexivity |].
  destruct n as [|n]; [discriminate |].
  cbn in H. injection H as <- H. cbn. f_equal. exact (IH _ _ H).
Qed.

Lemma is_update_step_multiple (g : Z) (s : nat) :
  is_update_step g s = true <-> (Z.of_nat s + 1) mod g = 0.
Proof. unfold is_update_step. apply Z.eqb_eq. Qed.

Lemma optimizer_steps_app {A} (bs1 bs2 : list (batch_log A)) :
  optimizer_steps (bs1 ++ bs2) = (optimizer_steps bs1 + optimizer_steps bs2)%nat.
Proof.
  unfold optimizer_steps.
  now rewrite List.map_app, List.concat_app, List.filter_app, List.length_app.
Qed.

Lemma update_steps_app (g : Z) (l1 l2 : list nat) :
  update_steps g (l1 ++ l2) = (update_steps g l1 + update_steps g l2)%nat.
Proof. unfold update_steps. now rewrite List.filter_app, List.length_app. Qed.

(** The optimizer steps of a log are its batches at update steps. *)
Lemma optimizer_steps_batches (a : args) (m : module net) (e : nat)
    (bs : list (batch_log F)) :
  Forall (fun b => bl_ops b = batch_ops a m e (bl_step b)) bs ->
  optimizer_steps bs = update_steps (gradient_accumulation_steps a) (List.map bl_step bs).
Proof.
  induction 1 as [|b bs Hb _ IH]; [reflexivity |].
  change (b :: bs) with ([b] ++ bs).
  rewrite optimizer_steps_app, List.map_app, update_steps_app, IH. f_equal.
  unfold optimizer_steps, update_steps. cbn [List.map List.concat List.filter].
  rewrite app_nil_r, Hb, optimizer_steps_batch_ops.
  destruct (is_update_step _ _); reflexivity.
Qed.

Lemma optimizer_steps_epochs (a : args) (m : module net) (n_batches : nat)
    (es : list (epoch_log F net)) :
  Forall (fun el => epoch_ok a m n_batches el) es ->
  optimizer_steps (all_batches es) =
  update_steps (gradient_accumulation_steps a) (List.map bl_step (all_batches es)).
Proof.
  induction 1 as [|el es (Hops & _) _ IH]; [reflexivity |].
  unfold all_batches in *. cbn [List.map List.concat].
  rewrite optimizer_steps_app, List.map_app, update_steps_app, IH. f_equal.
  exact (optimizer_steps_batches _ _ _ _ Hops).
Qed.

(** C3: with [gradient_accumulation_steps = g > 1], every batch of every
    epoch runs the backward pass on its loss divided by [g]; the
    optimizer step, the scheduler step and [zero_grad] follow on exactly
    the batches whose 1-based index in the epoch is a multiple of [g],
    and [global_step] counts exactly those batches. *)
Theorem gradient_accumulation (a : args) (ds : dataset) (model : module net) :
  1 < gradient_accumulation_steps a ->
  let g := gradient_accumulation_steps a in
  let run := train a ds model in
  (forall el b,
     In el (run_epochs run) -> In b (el_batches el) ->
     let l := forward_loss (run_model run) (el_index el) (bl_step b) in
     let loss := fdiv_int (if 1 <? n_gpu a then tensor_mean l else l) g in
     bl_ops b =
       [TrainMode; Forward] ++
       (if fp16 a
        then [ScaleLossBackward loss; ClipGradNorm AmpMasterParams]
        else [Backward loss; ClipGradNorm ModelParameters]) ++
       (if decide ((Z.of_nat (bl_step b) + 1) mod g = 0)
        then [OptimizerStep; SchedulerStep; ZeroGrad] else [])) /\
  (forall el,
     In el (run_epochs run) ->
     List.map bl_step (el_batches el) = seq 0 (List.length (el_batches el))) /\
  run_global_step run =
    Z.of_nat (update_steps g (List.map bl_step (all_batches (run_epochs run)))) /\
  Z.of_nat (optimizer_steps (all_batches (run_epochs run))) = run_global_step run.
Proof.
  intros Hg g run.
  destruct (train_cases a ds model) as [(m0 & ev & e & He & _) | [n Hn]].
  { subst run. rewrite He. cbn. repeat split; intros; contradiction. }
  destruct (train_entered a ds model n Hn) as (es & gs & tr & Hloop & Hrun).
  assert (Hg0 : gradient_accumulation_steps a <> 0) by lia.
  destruct (epoch_loop_run a _ _ Hg0 _ _ _ _ _ Hloop) as (_ & _ & Hall & Hgs).
  subst run. rewrite Hrun. cbn [run_epochs run_model run_global_step].
  rewrite List.Forall_forall in Hall.
  assert (Hops : forall el b, In el es -> In b (el_batches el) ->
            bl_ops b = batch_ops a (dp_or_ddp_model a model) (el_index el) (bl_step b)).
  { intros el b Hel Hb. destruct (Hall el Hel) as (Hbs & _).
    rewrite List.Forall_forall in Hbs. exact (Hbs b Hb). }
  split; [| split; [| split]].
  - intros el b Hel Hb. cbn zeta. rewrite (Hops el b Hel Hb).
    destruct (Z.ltb_spec 1 (gradient_accumulation_steps a)); [| lia].
    subst g. do 2 f_equal.
    destruct (decide _) as [Hm | Hm].
    + apply is_update_step_multiple in Hm. now rewrite Hm.
    + destruct (is_update_step _ _) eqn:E; [| reflexivity].
      apply is_update_step_multiple in E. contradiction.
  - intros el Hel. destruct (Hall el Hel) as (_ & (rest & Hrest & _) & _).
    rewrite <- (List.length_map bl_step). exact (seq_prefix _ _ _ _ Hrest).
  - cbn [fst] in Hgs. rewrite Hgs. subst g. lia.
  - cbn [fst] in Hgs. rewrite Hgs.
    rewrite (optimizer_steps_epochs a _ _ es) by (apply List.Forall_forall; exact Hall).
    lia.
Qed.

(** C4, as amended: the epochs of a run are numbered from 1 in order;
    an epoch whose 1-based index is a multiple of 5 and which the step
    limit did not end ([global_step] not beyond [max_steps > 0] when its
    batch loop was left) saves the model weights and the tokenizer to
    [epoch-{index}] under the output directory and to the output
    directory itself; no other epoch saves anything.  Without a step
    limit no epoch is ended by it. *)
Theorem checkpoint_cadence (a : args) (ds : dataset) (model : module net) :
  let run := train a ds model in
  List.map el_index (run_epochs run) = seq 0 (List.length (run_epochs run)) /\
  (forall gs, max_steps a <= 0 -> stop_now a gs = false) /\
  forall el,
    In el (run_epochs run) ->
    let k := Z.of_nat (el_index el) + 1 in
    let dir := path_join (output_dir a) ("epoch-" +:+ str_int k) in
    let weights := model_to_save (run_model run) in
    (k mod 5 = 0 -> stop_now a (el_global_step el) = false ->
     el_saves el =
       (if negb (path_exists dir) && is_main_process a then [Makedirs dir] else []) ++
       [SaveModel weights dir; SaveTokenizer dir;
        SaveModel weights (output_dir a); SaveTokenizer (output_dir a)]) /\
    (k mod 5 <> 0 -> el_saves el = []) /\
    (stop_now a (el_global_step el) = true -> el_saves el = []).
Proof.
  intros run.
  destruct (train_cases a ds model) as [(m0 & ev & e & He & _) | [n Hn]].
  { subst run. rewrite He. cbn. repeat split; try contradiction.
    intros gs Hgs. now apply stop_now_unlimited. }
  destruct (train_entered a ds model n Hn) as (es & gs & tr & Hloop & Hrun).
  pose proof (epoch_count_done _ _ _ (proj2 (proj2 (proj1 Hn)))) as Hg.
  destruct (epoch_loop_run a _ _ Hg _ _ _ _ _ Hloop) as (_ & (rest & Hrest) & Hall & _).
  subst run. rewrite Hrun. cbn [run_epochs run_model].
  split; [| split].
  - rewrite <- (List.length_map el_index). exact (seq_prefix _ _ _ _ Hrest).
  - intros gs' Hgs. now apply stop_now_unlimited.
  - intros el Hel. rewrite List.Forall_forall in Hall.
    destruct (Hall el Hel) as (_ & _ & Hsaves). cbn zeta.
    rewrite Hsaves. unfold checkpoint.
    destruct (stop_now a (el_global_step el)).
    + repeat split; congruence.
    + destruct (Z.eqb_spec ((Z.of_nat (el_index el) + 1) mod 5) 0) as [E | E];
        repeat split; congruence.
Qed.

(** C6, as amended: with fp16 enabled, a run that gets to the fp16
    block (the task has a processor, the batch size is positive, and
    lines 80-98 compute the totals and build the optimizer and the
    schedule without an exception) raises [ImportError], asking to
    install apex, before any step when apex cannot be imported; when it
    can, AMP is initialised at [fp16_opt_level] and every batch runs its
    backward pass through [amp.scale_loss] and then clips the gradient
    norm of the AMP master parameters. *)
Theorem fp16_needs_apex (a : args) (ds : dataset) (model : module net) :
  fp16 a = true ->
  reaches_fp16 a ds ->
  let run := train a ds model in
  (apex_available = false ->
     run_result run =
       Raise (ImportError
                "Please install apex from https://www.github.com/nvidia/apex to use fp16 training.") /\
     run_setup run = [] /\ run_epochs run = []) /\
  (apex_available = true ->
     run_setup run = [AmpInitialize (fp16_opt_level a); InitialZeroGrad] /\
     forall el b,
       In el (run_epochs run) -> In b (el_batches el) ->
       exists loss rest,
         bl_ops b =
           [TrainMode; Forward; ScaleLossBackward loss; ClipGradNorm AmpMasterParams] ++ rest /\
         (rest = [] \/ rest = [OptimizerStep; SchedulerStep; ZeroGrad])).
Proof.
  intros Hfp Hprep run.
  destruct (train_before_fp16 a ds model)
    as [(e & _ & Hno & _) | (t & ep & _ & Ht & _ & Hrun)]; [contradiction |].
  pose proof (total_steps_done _ _ _ Ht) as Hg.
  subst run. rewrite Hrun, Hfp. split; intros Hapex; rewrite Hapex; cbn [andb negb].
  - repeat split.
  - destruct (int_of_number ep) as [n | e]; [| split; [reflexivity | contradiction]].
    destruct (epoch_loop a _ _ _ _) as [[es [gs tr]] err] eqn:Hloop.
    destruct (epoch_loop_run a _ _ Hg _ _ _ _ _ Hloop) as (_ & _ & Hall & _).
    cbn [run_setup run_epochs]. split; [reflexivity |].
    intros el b Hel Hb. rewrite List.Forall_forall in Hall.
    destruct (Hall el Hel) as (Hops & _). rewrite List.Forall_forall in Hops.
    rewrite (Hops b Hb), Hfp. eexists _, _. split; [reflexivity |].
    destruct (is_update_step _ _); auto.
Qed.

Lemma update_steps_none (g : Z) (l : list nat) :
  (forall s, In s l -> is_update_step g s = false) -> update_steps g l = 0%nat.
Proof.
  intros H. unfold update_steps. induction l as [|s l IH]; [reflexivity |].
  cbn [List.filter]. rewrite (H s (or_introl eq_refl)). apply IH.
  intros s' Hs'. apply H. now right.
Qed.

(** An epoch shorter than [g] holds no update step. *)
Lemma short_epoch_no_update (g : Z) (n_batches : nat) (l rest : list nat) :
  Z.of_nat n_batches < g ->
  seq 0 n_batches = l ++ rest ->
  update_steps g l = 0%nat.
Proof.
  intros Hlt Hseq. apply update_steps_none. intros s Hs.
  assert (Hin : In s (seq 0 n_batches)) by (rewrite Hseq; apply in_or_app; now left).
  apply in_seq in Hin. unfold is_update_step.
  rewrite Z.mod_small by lia. apply Z.eqb_neq. lia.
Qed.

(** C9: a run that reaches the return statement returns
    [(global_step, tr_loss / global_step)]; when no optimizer step was
    performed, [global_step] is still 0 there and the division raises
    [ZeroDivisionError].  That is the case when an epoch has fewer
    batches than [gradient_accumulation_steps], and when there is no
    epoch at all. *)
Theorem average_loss_division (a : args) (ds : dataset) (model : module net) (n : Z) :
  enters_loop a ds n ->
  let run := train a ds model in
  let steps := optimizer_steps (all_batches (run_epochs run)) in
  (run_global_step run <> 0 ->
     run_result run =
       Done (run_global_step run, fdiv_int (run_tr_loss run) (run_global_step run))) /\
  (steps = 0%nat ->
     run_global_step run = 0 /\
     run_result run = Raise (ZeroDivisionError AtAverageLoss)) /\
  (train_batches a ds < gradient_accumulation_steps a -> steps = 0%nat) /\
  (n <= 0 -> steps = 0%nat).
Proof.
  intros Hn run steps.
  destruct (train_entered a ds model n Hn) as (es & gs & tr & Hloop & Hrun).
  pose proof (epoch_count_done _ _ _ (proj2 (proj2 (proj1 Hn)))) as Hg.
  destruct (epoch_loop_run a _ _ Hg _ _ _ _ _ Hloop) as (_ & _ & Hall & Hgs).
  pose proof (optimizer_steps_epochs a _ _ es Hall) as Hcount.
  cbn [fst] in Hgs. subst steps run. rewrite Hrun.
  cbn [run_epochs run_global_step run_tr_loss run_result].
  split; [| split; [| split]].
  - intros Hne. destruct (Z.eqb_spec gs 0); [contradiction | reflexivity].
  - intros H0. rewrite Hcount in H0. rewrite H0 in Hgs. cbn in Hgs. subst gs.
    split; reflexivity.
  - intros Hlt. rewrite Hcount. clear Hcount Hgs Hloop Hrun.
    induction Hall as [|el es' (_ & (rest & Hrest & _) & _) _ IH]; [reflexivity |].
    unfold all_batches in *. cbn [List.map List.concat].
    rewrite List.map_app, update_steps_app, IH.
    rewrite (short_epoch_no_update _ (Z.to_nat (train_batches a ds)) _ rest);
      [reflexivity | | exact Hrest].
    assert (0 <= train_batches a ds).
    { unfold train_batches, loader_len. apply Z.div_pos; [| exact (proj1 (proj2 (proj1 Hn)))].
      pose proof (proj1 (proj2 (proj1 Hn))). lia. }
    rewrite Z2Nat.id; lia.
  - intros Hle. replace (Z.to_nat n) with 0%nat in Hloop by lia.
    cbn in Hloop. injection Hloop as <- _ _. reflexivity.
Qed.

Lemma train_batches_nonneg (a : args) (ds : dataset) :
  0 < per_gpu_train_batch_size a * Z.max 1 (n_gpu a) -> 0 <= train_batches a ds.
Proof. intros H. unfold train_batches, loader_len. apply Z.div_pos; lia. Qed.

(** Among the first [k] batches of an epoch, [k / g] are update steps. *)
Lemma update_steps_seq (g : Z) (k : nat) :
  0 < g -> Z.of_nat (update_steps g (seq 0 k)) = Z.of_nat k / g.
Proof.
  intros Hg. induction k as [|k IH]; [now rewrite Z.div_0_l by lia |].
  rewrite seq_S, update_steps_app, Nat2Z.inj_add, IH. cbn [Nat.add].
  unfold update_steps, is_update_step. cbn [List.filter].
  replace (Z.of_nat (S k)) with (Z.of_nat k + 1) by lia.
  pose proof (Z.div_mod (Z.of_nat k) g ltac:(lia)) as Hk.
  pose proof (Z.mod_pos_bound (Z.of_nat k) g Hg) as Hr.
  destruct (Z.eq_dec (Z.of_nat k mod g) (g - 1)) as [E | E].
  - assert (Hm : (Z.of_nat k + 1) mod g = 0).
    { symmetry. apply (Z.mod_unique_pos _ _ (Z.of_nat k / g + 1)); lia. }
    assert (Hd : (Z.of_nat k + 1) / g = Z.of_nat k / g + 1).
    { symmetry. apply (Z.div_unique_pos _ _ _ 0); lia. }
    rewrite Hm, Hd. reflexivity.
  - assert (Hm : (Z.of_nat k + 1) mod g = Z.of_nat k mod g + 1).
    { symmetry. apply (Z.mod_unique_pos _ _ (Z.of_nat k / g)); lia. }
    assert (Hd : (Z.of_nat k + 1) / g = Z.of_nat k / g).
    { symmetry. apply (Z.div_unique_pos _ _ _ (Z.of_nat k mod g + 1)); lia. }
    rewrite Hm, Hd. destruct (Z.eqb_spec (Z.of_nat k mod g + 1) 0); [lia |].
    cbn [List.length]. lia.
Qed.

(** Only the last epoch of a log can have been ended by the step limit. *)
Lemma epoch_loop_stop_last (a : args) (m : module net) (n_batches : nat) :
  forall epochs st es st' err,
    epoch_loop a m n_batches epochs st = (es, st', err) ->
    Forall (fun el => stop_now a (el_global_step el) = false) (removelast es).
Proof.
  induction epochs as [|e epochs IH]; intros st es st' err.
  - cbn [epoch_loop]. intros [= <- <- <-]. constructor.
  - cbn [epoch_loop].
    destruct (batch_loop a m e (seq 0 n_batches) st) as [[bs st1] [x |]].
    + intros [= <- <- <-]. constructor.
    + destruct (stop_now a (fst st1)) eqn:Hstop.
      * intros [= <- <- <-]. constructor.
      * destruct (epoch_loop a m n_batches epochs st1) as [[es1 st2] err2] eqn:Hloop.
        intros [= <- <- <-]. specialize (IH _ _ _ _ Hloop).
        destruct es1 as [|el es1]; [constructor |].
        change (removelast (?x :: el :: es1)) with (x :: removelast (el :: es1)).
        constructor; [exact Hstop | exact IH].
Qed.

(** C10: with [max_steps > 0], [global_step] never exceeds
    [max_steps + 1], at the end of any epoch and of the run, and it is
    the number of optimizer steps performed; the batch loop is cut short
    and the epoch loop ended only when [global_step > max_steps]; and a
    run whose epochs hold at least [max_steps + 1] update steps, as is
    the case whenever [gradient_accumulation_steps > 0], performs exactly
    [max_steps + 1] optimizer steps. *)
Theorem max_steps_bound (a : args) (ds : dataset) (model : module net) :
  0 < max_steps a ->
  let g := gradient_accumulation_steps a in
  let n_batches := Z.to_nat (train_batches a ds) in
  let run := train a ds model in
  run_global_step run <= max_steps a + 1 /\
  Forall (fun el => el_global_step el <= max_steps a + 1) (run_epochs run) /\
  Z.of_nat (optimizer_steps (all_batches (run_epochs run))) = run_global_step run /\
  Forall (fun el => el_global_step el <= max_steps a) (removelast (run_epochs run)) /\
  (forall el,
     In el (run_epochs run) ->
     exists rest,
       seq 0 n_batches = List.map bl_step (el_batches el) ++ rest /\
       (rest <> [] -> max_steps a < el_global_step el)) /\
  (forall n,
     enters_loop a ds n ->
     max_steps a + 1 <= n * Z.of_nat (update_steps g (seq 0 n_batches)) ->
     run_global_step run = max_steps a + 1) /\
  (forall n,
     enters_loop a ds n -> 0 < g ->
     run_global_step run = max_steps a + 1).
Proof.
  intros Hmax g n_batches run.
  destruct (train_cases a ds model) as [(m0 & ev & e & He & Hno) | [n Hn]].
  { subst run. rewrite He. cbn.
    repeat split; try constructor; try lia; try contradiction;
      intros n' Hn'; destruct (Hno n' Hn'). }
  destruct (train_entered a ds model n Hn) as (es & gs & tr & Hloop & Hrun).
  pose proof (epoch_count_done _ _ _ (proj2 (proj2 (proj1 Hn)))) as Hg.
  destruct (epoch_loop_run a _ _ Hg _ _ _ _ _ Hloop) as (_ & _ & Hall & Hgs).
  destruct (epoch_loop_limit a _ _ Hg Hmax _ _ _ _ _ Hloop ltac:(cbn; lia))
    as (Hle & Hles & Hfull).
  pose proof (epoch_loop_stop_last a _ _ _ _ _ _ _ Hloop) as Hlast.
  pose proof (optimizer_steps_epochs a _ _ es Hall) as Hcount.
  cbn [fst] in Hgs, Hle, Hfull.
  assert (Hexact : forall n',
            enters_loop a ds n' ->
            max_steps a + 1 <= n' * Z.of_nat (update_steps g (seq 0 n_batches)) ->
            gs = max_steps a + 1).
  { intros n' Hn' Henough.
    assert (n' = n) as ->.
    { destruct Hn as ((_ & _ & E1) & _), Hn' as ((_ & _ & E2) & _). congruence. }
    destruct (stop_now a gs) eqn:Hstop.
    - apply stop_now_true in Hstop. lia.
    - specialize (Hfull eq_refl). rewrite List.length_seq in Hfull.
      assert (0 < n) by nia. rewrite Z2Nat.id in Hfull by lia.
      assert (stop_now a gs = true) by (apply stop_now_true; subst g n_batches; lia).
      congruence. }
  subst run. rewrite Hrun. cbn [run_epochs run_global_step].
  repeat split.
  - exact Hle.
  - exact Hles.
  - rewrite Hcount, Hgs. lia.
  - eapply List.Forall_impl; [| exact Hlast]. cbn beta. intros el Hstop.
    destruct (Z.le_gt_cases (el_global_step el) (max_steps a)); [assumption |].
    rewrite (proj2 (stop_now_true a _)) in Hstop by lia. discriminate.
  - intros el Hel. rewrite List.Forall_forall in Hall.
    destruct (Hall el Hel) as (_ & (rest & Hrest & Hcut) & _).
    exists rest. split; [exact Hrest |].
    intros Hne. apply stop_now_true. exact (Hcut Hne).
  - exact Hexact.
  - intros n' Hn' Hgpos. apply (Hexact n' Hn').
    destruct Hn' as ((_ & Hbs & Hcnt) & _).
    pose proof (train_batches_nonneg a ds Hbs) as Hnb.
    subst n_batches g. rewrite update_steps_seq, Z2Nat.id by lia.
    destruct (epoch_count_limited _ _ _ Hmax Hcnt) as [Hu ->].
    set (u := train_batches a ds / gradient_accumulation_steps a) in *.
    assert (0 < u).
    { assert (0 <= u) by (apply Z.div_pos; lia). lia. }
    pose proof (Z.div_mod (max_steps a) u ltac:(lia)).
    pose proof (Z.mod_pos_bound (max_steps a) u ltac:(lia)). nia.
Qed.

End TrainProperties.

(** *** Runs of the sample instance *)

(** Three batches with [g = 2]: one optimizer step, on the second batch. *)
Lemma gradient_accumulation_witness :
  1 < 2 /\
  run_global_step
    (@train Sample.utils (Sample.framework true) (Sample.training 2 (-1) 1 true)
       (Sample.rows 3) (Plain tt)) =
  Z.of_nat (update_steps 2 [0; 1; 2]%nat).
Proof.
  assert (H : 1 < gradient_accumulation_steps (Sample.training 2 (-1) 1 true))
    by (cbn; lia).
  split; [lia |].
  exact (proj1 (proj2 (proj2
    (@gradient_accumulation Sample.utils (Sample.framework true)
       (Sample.training 2 (-1) 1 true) (Sample.rows 3) (Plain tt) H)))).
Defined.

(** Five epochs without a step limit: the fifth one saves. *)
Lemma checkpoint_cadence_witness :
  exists el,
    run_epochs
      (@train Sample.utils (Sample.framework true)
         (Sample.training 1 (-1) 5 false) (Sample.rows 1) (Plain tt)) !! 4%nat = Some el /\
    el_saves el =
    [Makedirs "out/epoch-5"; SaveModel (Plain tt) "out/epoch-5";
     SaveTokenizer "out/epoch-5"; SaveModel (Plain tt) "out"; SaveTokenizer "out"]%string.
Proof.
  eexists. split; [reflexivity |].
  lazymatch goal with
  | |- el_saves ?e = _ =>
      pose proof (proj2 (proj2
        (@checkpoint_cadence Sample.utils (Sample.framework true)
           (Sample.training 1 (-1) 5 false) (Sample.rows 1) (Plain tt))) e) as H
  end.
  cbv zeta in H. refine (proj1 (H _) eq_refl eq_refl).
  do 4 right. left. reflexivity.
Defined.

(** With [max_steps = 4] and one update per epoch, the fifth epoch runs
    its only batch, takes [global_step] to 5 and is ended by the step
    limit before the checkpoint: an epoch whose 1-based index is a
    multiple of 5 without a checkpoint. *)
Lemma checkpoint_skipped_at_step_limit :
  let run := @train Sample.utils (Sample.framework true)
               (Sample.training 1 4 3 false) (Sample.rows 1) (Plain tt) in
  exists el,
    In el (run_epochs run) /\
    (Z.of_nat (el_index el) + 1) mod 5 = 0 /\
    List.map bl_step (el_batches el) = seq 0 1 /\
    el_global_step el = 5 /\
    el_saves el = [] /\
    run_result run = Done (5, (5 # 5)%Q).
Proof.
  cbv zeta. eexists. split.
  - do 4 right. left. reflexivity.
  - repeat split.
Qed.

(** Without apex the sample run with fp16 stops at the import. *)
Lemma fp16_needs_apex_witness :
  fp16 (Sample.training 2 (-1) 1 true) = true /\
  run_result
    (@train Sample.utils (Sample.framework false) (Sample.training 2 (-1) 1 true)
       (Sample.rows 3) (Plain tt)) =
  Raise (ImportError
           "Please install apex from https://www.github.com/nvidia/apex to use fp16 training.").
Proof.
  assert (Hp : @reaches_fp16 Sample.utils (Sample.framework false)
                 (Sample.training 2 (-1) 1 true) (Sample.rows 3)).
  { split; [eexists; reflexivity |]. split; [cbn; lia |].
    eexists _, _. split; reflexivity. }
  split; [reflexivity |].
  exact (proj1 (proj1
    (@fp16_needs_apex Sample.utils (Sample.framework false)
       (Sample.training 2 (-1) 1 true) (Sample.rows 3) (Plain tt) eq_refl Hp) eq_refl)).
Defined.

(** With fp16 enabled and apex missing, a run with [max_steps = 1] and
    a single batch for [gradient_accumulation_steps = 8] fails at line 82
    with a division by zero, before the import is tried: no
    [ImportError] is raised. *)
Lemma fp16_without_apex_other_error :
  let a := Sample.training 8 1 3 true in
  fp16 a = true /\
  @apex_available (Sample.framework false) = false /\
  run_result (@train Sample.utils (Sample.framework false) a (Sample.rows 1) (Plain tt)) =
  Raise (ZeroDivisionError AtEpochCount).
Proof. repeat split. Qed.

(** One batch per epoch with [g = 2]: no update, and the return divides
    by zero. *)
Lemma average_loss_division_witness :
  @enters_loop Sample.utils (Sample.framework true)
    (Sample.training 2 (-1) 3 false) (Sample.rows 1) 3 /\
  run_result
    (@train Sample.utils (Sample.framework true) (Sample.training 2 (-1) 3 false)
       (Sample.rows 1) (Plain tt)) =
  Raise (ZeroDivisionError AtAverageLoss).
Proof.
  assert (Hn : @enters_loop Sample.utils (Sample.framework true)
                 (Sample.training 2 (-1) 3 false) (Sample.rows 1) 3).
  { split; [| split; [eexists _, _; split; reflexivity | discriminate]].
    split; [eexists; reflexivity |]. split; [cbn; lia | reflexivity]. }
  split; [exact Hn |].
  pose proof (@average_loss_division Sample.utils (Sample.framework true)
                (Sample.training 2 (-1) 3 false) (Sample.rows 1) (Plain tt) 3 Hn) as H.
  cbv zeta in H. destruct H as (_ & H0 & Hshort & _).
  apply H0. apply Hshort. vm_compute. reflexivity.
Defined.

(** With [max_steps = 4] the sample run performs five optimizer steps. *)
Lemma max_steps_bound_witness :
  0 < 4 /\
  run_global_step
    (@train Sample.utils (Sample.framework true) (Sample.training 1 4 3 false)
       (Sample.rows 1) (Plain tt)) = 4 + 1.
Proof.
  assert (Hn : @enters_loop Sample.utils (Sample.framework true)
                 (Sample.training 1 4 3 false) (Sample.rows 1) 5).
  { split; [| split; [eexists _, _; split; reflexivity | discriminate]].
    split; [eexists; reflexivity |]. split; [cbn; lia | reflexivity]. }
  assert (Hmax : 0 < max_steps (Sample.training 1 4 3 false)) by (cbn; lia).
  split; [lia |].
  pose proof (@max_steps_bound Sample.utils (Sample.framework true)
                (Sample.training 1 4 3 false) (Sample.rows 1) (Plain tt) Hmax) as H.
  cbv zeta in H. destruct H as (_ & _ & _ & _ & _ & _ & H).
  apply (H 5 Hn). vm_compute. reflexivity.
Defined.

(** ** Evaluation *)

Lemma batched_aux_concat {A} (bs : nat) (cur l : list A) :
  List.concat (batched_aux bs cur l) = cur ++ l.
Proof.
  revert cur. induction l as [|x l IH]; intros cur; cbn [batched_aux].
  - destruct cur; cbn; now rewrite ?app_nil_r.
  - destruct (List.length (cur ++ [x]) =? bs)%nat.
    + cbn [List.concat]. rewrite IH. cbn [app]. now rewrite <- app_assoc.
    + rewrite IH. now rewrite <- app_assoc.
Qed.

(** The batches of a loader hold the rows in order, each once. *)
Lemma batched_concat {A} (bs : nat) (l : list A) : List.concat (batched bs l) = l.
Proof. unfold batched. now rewrite batched_aux_concat. Qed.

Lemma batched_nil_inv {A} (bs : nat) (l : list A) : batched bs l = [] -> l = [].
Proof. intros H. rewrite <- (batched_concat bs l), H. reflexivity. Qed.

Lemma traverse_Forall2 {A B} (f : A -> outcome B) (l : list A) (ys : list B) :
  traverse f l = Done ys -> Forall2 (fun x y => f x = Done y) l ys.
Proof.
  revert ys. induction l as [|x l IH]; intros ys; cbn [traverse].
  - intros [= <-]. constructor.
  - destruct (f x) as [y |] eqn:Hx; cbn [bind]; [| discriminate].
    destruct (traverse f l) as [ys' |]; cbn [bind]; [| discriminate].
    intros [= <-]. constructor; [exact Hx | now apply IH].
Qed.

Lemma label_lines_Forall2 (labels : list string) (preds : list nat) (ls : list string) :
  label_lines labels preds = (ls, None) ->
  Forall2 (fun pred line => labels !! pred = Some line) preds ls.
Proof.
  revert ls. induction preds as [|p preds IH]; intros ls; cbn [label_lines].
  - intros [= <-]. constructor.
  - destruct (labels !! p) as [l |] eqn:Hp; [| discriminate].
    destruct (label_lines labels preds) as [ls' err] eqn:Hrest.
    intros [= <- ->]. constructor; [exact Hp | now apply IH].
Qed.

Lemma gold_nodes_filter (node_gold : list Z) :
  gold_nodes node_gold = filter (fun z => z <> -100) node_gold.
Proof.
  unfold gold_nodes. induction node_gold as [|z l IH]; [reflexivity |].
  cbn [List.filter]. rewrite filter_cons.
  destruct (Z.eqb_spec z (-100)), (decide (z <> -100)); cbn [negb];
    try contradiction; now rewrite IH.
Qed.

Section EvalProperties.

Context `{U : Utils} `{Fw : Framework}.

Lemma collect_batch_fold (model : module net) (batches : list (list (list cell)))
    (acc : collected F) :
  let c := fold_left (collect_batch model) batches acc in
  let outputs := List.map (model_eval model) batches in
  c_logits c = c_logits acc ++ List.concat (List.map eo_logits outputs) /\
  c_node_logits c = c_node_logits acc ++ List.concat (List.map eo_node_logits outputs) /\
  c_edge_logits c = c_edge_logits acc ++ List.concat (List.map eo_edge_logits outputs) /\
  c_label_ids c = c_label_ids acc ++ List.map row_label (List.concat batches) /\
  c_node_label_ids c =
    c_node_label_ids acc ++ List.map row_node_label (List.concat batches).
Proof.
  revert acc. induction batches as [|b batches IH]; intros acc; cbn zeta.
  - cbn. now rewrite !app_nil_r.
  - cbn [fold_left List.map List.concat].
    destruct (IH (collect_batch model acc b)) as (H1 & H2 & H3 & H4 & H5).
    cbn zeta in *. rewrite H1, H2, H3, H4, H5. unfold collect_batch.
    cbn [c_logits c_node_logits c_edge_logits c_label_ids c_node_label_ids].
    rewrite !List.map_app, <- !app_assoc. repeat split.
Qed.

(** What the loop over the batches collects: the outputs of the
    batches, and the label columns of their rows, in order. *)
Lemma collect_outputs (model : module net) (batches : list (list (list cell))) :
  let c := collect model batches in
  let outputs := List.map (model_eval model) batches in
  c_logits c = List.concat (List.map eo_logits outputs) /\
  c_node_logits c = List.concat (List.map eo_node_logits outputs) /\
  c_edge_logits c = List.concat (List.map eo_edge_logits outputs) /\
  c_label_ids c = List.map row_label (List.concat batches) /\
  c_node_label_ids c = List.map row_node_label (List.concat batches).
Proof. unfold collect. apply collect_batch_fold. Qed.

(** A row-wise model returns as many rows as the loader yields. *)
Lemma rowwise_lengths (model : module net) (batches : list (list (list cell))) :
  rowwise model ->
  let outputs := List.map (model_eval model) batches in
  List.length (List.concat (List.map eo_logits outputs)) =
    List.length (List.concat batches) /\
  List.length (List.concat (List.map eo_node_logits outputs)) =
    List.length (List.concat batches) /\
  List.length (List.concat (List.map eo_edge_logits outputs)) =
    List.length (List.concat batches).
Proof.
  intros Hrow. induction batches as [|b batches IH]; [repeat split |].
  cbn zeta in *. cbn [List.map List.concat]. rewrite !List.length_app.
  destruct (Hrow b) as (H1 & H2 & H3), IH as (I1 & I2 & I3).
  rewrite H1, H2, H3, I1, I2, I3. repeat split.
Qed.

End EvalProperties.

(** The three prediction files of a split have different paths. *)
Lemma prediction_files_distinct (dir eval_split : string) :
  let file stem := path_join dir (file_name stem eval_split ".lst") in
  file "predictions_"%string <> file "prediction_nodes_"%string /\
  file "predictions_"%string <> file "prediction_edge_logits_"%string /\
  file "prediction_nodes_"%string <> file "prediction_edge_logits_"%string.
Proof.
  intros file.
  destruct (path_join_relative dir "x" eq_refl) as (prefix & _ & Hjoin).
  subst file. cbn beta. rewrite !Hjoin by reflexivity.
  repeat split; intros H; apply append_inv_head in H.
  - apply (f_equal (String.get 10)) in H. vm_compute in H. discriminate.
  - apply (f_equal (String.get 10)) in H. vm_compute in H. discriminate.
  - apply (f_equal (String.get 11)) in H. vm_compute in H. discriminate.
Qed.

Lemma Forall2_compose {A B C} (R : A -> B -> Prop) (S : B -> C -> Prop)
    (l : list A) (m : list B) (k : list C) :
  Forall2 R l m -> Forall2 S m k ->
  Forall2 (fun x z => exists y, R x y /\ S y z) l k.
Proof.
  intros H. revert k. induction H as [|x y l m Hxy _ IH]; intros k Hk.
  - inversion Hk. constructor.
  - inversion Hk as [|? z ? k' Hyz Hk']; subst. constructor; eauto.
Qed.

Section ArgmaxOrder.

Context `{Fw : Framework}.

Lemma ltb_irrefl : orders -> forall x, F_ltb x x = false.
Proof.
  intros [Hasym _] x. destruct (F_ltb x x) eqn:E; [| reflexivity].
  now rewrite (Hasym _ _ E) in E.
Qed.

Lemma argmax_from_spec (Hord : orders) (l pre : list F) (best : nat) (bv : F) :
  pre !! best = Some bv ->
  (forall j y, pre !! j = Some y ->
     F_ltb bv y = false /\ ((j < best)%nat -> F_ltb y bv = true)) ->
  let k := argmax_from best bv (List.length pre) l in
  exists x,
    (pre ++ l) !! k = Some x /\
    forall j y, (pre ++ l) !! j = Some y ->
      F_ltb x y = false /\ ((j < k)%nat -> F_ltb y x = true).
Proof.
  revert pre best bv. induction l as [|x l IH]; intros pre best bv Hbest Hinv; cbn zeta.
  - cbn [argmax_from]. rewrite app_nil_r. eauto.
  - cbn [argmax_from]. pose proof Hord as [Hasym Htrans].
    assert (Hlt : (best < List.length pre)%nat) by (eapply lookup_lt_Some; eauto).
    replace (pre ++ x :: l) with ((pre ++ [x]) ++ l) by now rewrite <- app_assoc.
    replace (S (List.length pre)) with (List.length (pre ++ [x]))
      by (rewrite List.length_app; cbn; lia).
    destruct (F_ltb bv x) eqn:Hx.
    + apply IH.
      * rewrite lookup_app_r by lia. now rewrite Nat.sub_diag.
      * intros j y Hj.
        destruct (lookup_app_Some pre [x] j y) as [Hcases _].
        destruct (Hcases Hj) as [Hpre | [Hge Hlast]].
        -- destruct (Hinv j y Hpre) as [Hby _].
           assert (Hyx : F_ltb y x = true).
           { destruct (F_ltb y x) eqn:E; [reflexivity |].
             now rewrite (Htrans _ _ _ Hby E) in Hx. }
           split; [exact (Hasym _ _ Hyx) | intros _; exact Hyx].
        -- destruct (j - List.length pre)%nat eqn:Ej; [| discriminate].
           injection Hlast as <-. split; [now apply ltb_irrefl | lia].
    + apply IH.
      * now apply lookup_app_l_Some.
      * intros j y Hj.
        destruct (lookup_app_Some pre [x] j y) as [Hcases _].
        destruct (Hcases Hj) as [Hpre | [Hge Hlast]].
        -- exact (Hinv j y Hpre).
        -- destruct (j - List.length pre)%nat eqn:Ej; [| discriminate].
           injection Hlast as <-. split; [exact Hx | lia].
Qed.

(** The index that [argmax] returns is the first of a largest entry. *)
Lemma argmax_first (Hord : orders) (v : list F) (k : nat) :
  argmax v = Done k -> first_largest v k.
Proof.
  destruct v as [|x v]; [discriminate |]. cbn [argmax]. intros [= <-].
  apply (argmax_from_spec Hord v [x] 0%nat x); [reflexivity |].
  intros [|j] y; [| discriminate]. intros [= <-].
  split; [now apply ltb_irrefl | lia].
Qed.

End ArgmaxOrder.

Lemma sample_orders : @orders (Sample.framework true).
Proof.
  split; cbn; unfold Sample.q_ltb.
  - intros x y H. apply negb_true_iff in H. apply negb_false_iff.
    apply Qle_bool_iff. destruct (Qlt_le_dec x y) as [Hlt | Hle].
    + now apply Qlt_le_weak.
    + apply Qle_bool_iff in Hle. congruence.
  - intros x y z H1 H2. apply negb_false_iff in H1, H2. apply negb_false_iff.
    apply Qle_bool_iff in H1, H2. apply Qle_bool_iff. now apply Qle_trans with y.
Qed.

(** The rows that the evaluation loader yields are the rows of the
    features it sees. *)
Lemma omap_lookup_seq {A} (pre l : list A) :
  omap (fun i => (pre ++ l) !! i) (seq (List.length pre) (List.length l)) = l.
Proof.
  revert pre. induction l as [|x l IH]; intros pre; [reflexivity |].
  cbn [List.length seq].
  change (omap ?f (?i :: ?r))
    with (match f i with Some y => y :: omap f r | None => omap f r end).
  cbn beta. rewrite lookup_app_r, Nat.sub_diag by lia. cbn [lookup list_lookup].
  f_equal. replace (pre ++ x :: l) with ((pre ++ [x]) ++ l) by now rewrite <- app_assoc.
  replace (S (List.length pre)) with (List.length (pre ++ [x]))
    by (rewrite List.length_app; cbn; lia).
  apply IH.
Qed.

Lemma eval_features_single `{Framework} (a : args) (features : list feature) :
  local_rank a = -1 -> eval_features a features = features.
Proof.
  intros Hr. unfold eval_features. rewrite Hr. cbn [Z.eqb Pos.eqb].
  exact (omap_lookup_seq [] features).
Qed.

Lemma dataset_getitem_feature (features : list feature) (i : nat) :
  dataset_getitem (make_dataset features) i = feature_row <$> features !! i.
Proof.
  unfold dataset_getitem, make_dataset, long_tensor. cbn [tensors t_rows mapM].
  rewrite !list_lookup_fmap. destruct (features !! i); reflexivity.
Qed.

Lemma eval_rows_features `{Framework} (a : args) (features : list feature) :
  eval_rows a (make_dataset features) = List.map feature_row (eval_features a features).
Proof.
  unfold eval_rows, eval_features.
  assert (Hlen : dataset_len (make_dataset features) = List.length features).
  { unfold dataset_len, make_dataset, long_tensor. cbn. apply List.length_map. }
  rewrite Hlen.
  generalize (if local_rank a =? -1 then seq 0 (List.length features)
              else distributed_indices (List.length features)).
  intros idx. induction idx as [|i idx IH]; [reflexivity |].
  change (omap ?f (i :: idx))
    with (match f i with Some y => y :: omap f idx | None => omap f idx end).
  rewrite dataset_getitem_feature, IH.
  destruct (features !! i); reflexivity.
Qed.

Section EvaluateFiles.

Context `{U : Utils} `{Fw : Framework}.

(** A completed [write_predictions] decoded all outputs and left the
    three prediction files. *)
Lemma write_predictions_files (task dir : string) (labels : list string)
    (eval_split : string) (n_batches : nat) (c : collected F)
    (fs fs' : gmap string (list string)) (result : gmap string string) :
  write_predictions task dir labels eval_split n_batches c fs = (fs', Done result) ->
  exists preds node_preds edge_probs pred_lines,
    traverse argmax (c_logits c) = Done preds /\
    traverse (traverse argmax) (c_node_logits c) = Done node_preds /\
    traverse (traverse class1) (c_edge_logits c) = Done edge_probs /\
    label_lines labels preds = (pred_lines, None) /\
    fs' !! path_join dir (file_name "predictions_" eval_split ".lst") = Some pred_lines /\
    fs' !! path_join dir (file_name "prediction_nodes_" eval_split ".lst") =
      Some (List.map (fun gp => node_line (fst gp) (snd gp))
              (combine (c_node_label_ids c) node_preds)) /\
    fs' !! path_join dir (file_name "prediction_edge_logits_" eval_split ".lst") =
      Some (List.map edge_line edge_probs).
Proof.
  unfold write_predictions.
  destruct (n_batches =? 0)%nat; [discriminate |].
  destruct (traverse argmax (c_logits c)) as [preds |]; [| discriminate].
  destruct (traverse (traverse argmax) (c_node_logits c)) as [node_preds |];
    [| discriminate].
  destruct (traverse (traverse class1) (c_edge_logits c)) as [edge_probs |];
    [| discriminate].
  destruct (label_lines labels preds) as [ls [e |]] eqn:Hl; [discriminate |].
  intros [= <- _].
  destruct (prediction_files_distinct dir eval_split) as (Hpn & Hpe & Hne).
  exists preds, node_preds, edge_probs, ls.
  repeat split; try reflexivity.
  - exact Hl.
  - rewrite !lookup_insert_ne by congruence. apply lookup_insert_eq.
  - rewrite lookup_insert_ne by congruence. apply lookup_insert_eq.
  - apply lookup_insert_eq.
Qed.

Lemma node_lines_decoded (Hord : orders) (features : list feature)
    (node_logits : list (list (list F))) (node_preds : list (list nat)) :
  Forall2 (fun vs ks => traverse argmax vs = Done ks) node_logits node_preds ->
  Forall2
    (fun (fv : feature * list (list F)) line =>
       exists ks,
         Forall2 first_largest (snd fv) ks /\
         line =
           str_list repr_int64
             (firstn (List.length (filter (fun z => z <> -100) (node_label (fst fv))))
                ks))
    (combine features node_logits)
    (List.map (fun gp => node_line (fst gp) (snd gp))
       (combine (List.map row_node_label (List.map feature_row features)) node_preds)).
Proof.
  intros H. revert features. induction H as [|vs ks l m Hv _ IH]; intros features.
  - destruct features; constructor.
  - destruct features as [|f features]; [constructor |].
    cbn [combine List.map fst snd]. constructor; [| apply IH].
    exists ks. split.
    + apply traverse_Forall2 in Hv. eapply Forall2_impl; [exact Hv |].
      cbn beta. intros v k. now apply argmax_first.
    + unfold node_line. now rewrite gold_nodes_filter.
Qed.

Lemma edge_lines_decoded (edge_logits : list (list (list F))) (edge_probs : list (list F)) :
  Forall2 (fun vs ps => traverse class1 vs = Done ps) edge_logits edge_probs ->
  Forall2
    (fun vs line =>
       exists ps,
         Forall2 (fun v p => softmax v !! 1%nat = Some p) vs ps /\
         line = str_list repr_float ps)
    edge_logits (List.map edge_line edge_probs).
Proof.
  induction 1 as [|vs ps l m Hv _ IH]; [constructor |].
  cbn [List.map]. constructor; [| exact IH].
  exists ps. split; [| reflexivity].
  apply traverse_Forall2 in Hv.
  eapply Forall2_impl; [exact Hv |]. cbn beta. intros v p. unfold class1.
  destruct (softmax v !! 1%nat); [intros [= ->]; reflexivity | discriminate].
Qed.

End EvaluateFiles.

Section EvaluateSpec.

Context `{U : Utils} `{Fw : Framework}.

(** C1: a completed evaluation leaves three prediction files in the
    output directory, each with one line per example seen:
    [predictions_{split}.lst] holds the label that the processor's label
    list gives at the first largest of the answer logits;
    [prediction_nodes_{split}.lst] the first largest index of every
    node's logits, cut to the number of the node labels of the example's
    feature that differ from -100;
    [prediction_edge_logits_{split}.lst] the class-1 entry of the softmax
    of every edge's logits.  The logits are those of the model on the
    rows of the features, batch by batch. *)
Theorem evaluate_writes_predictions (store : gmap string (list feature))
    (fs : gmap string (list string)) (a : args) (model : module net) (tok : tokenizer)
    (proc : processor example) (eval_split : string) (out : outputs)
    (results : gmap string string) :
  rowwise model ->
  orders ->
  evaluate store fs a model tok proc (Some eval_split) = (out, Done results) ->
  exists features ex,
    load_features store a (task_name a) tok eval_split = Done (features, ex) /\
    let examples := eval_features a features in
    let batch_size := Z.to_nat (per_gpu_eval_batch_size a * Z.max 1 (n_gpu a)) in
    let outs :=
      List.map (model_eval model) (batched batch_size (List.map feature_row examples)) in
    let logits := List.concat (List.map eo_logits outs) in
    let node_logits := List.concat (List.map eo_node_logits outs) in
    let edge_logits := List.concat (List.map eo_edge_logits outs) in
    let file stem := path_join (output_dir a) (stem +:+ eval_split +:+ ".lst") in
    (local_rank a = -1 -> examples = features) /\
    exists pred_lines node_lines edge_lines,
      files out !! file "predictions_"%string = Some pred_lines /\
      files out !! file "prediction_nodes_"%string = Some node_lines /\
      files out !! file "prediction_edge_logits_"%string = Some edge_lines /\
      List.length pred_lines = List.length examples /\
      List.length node_lines = List.length examples /\
      List.length edge_lines = List.length examples /\
      Forall2
        (fun v line => exists k, first_largest v k /\ get_labels proc !! k = Some line)
        logits pred_lines /\
      Forall2
        (fun (fv : feature * list (list F)) line =>
           exists ks,
             Forall2 first_largest (snd fv) ks /\
             line =
               str_list repr_int64
                 (firstn
                    (List.length (filter (fun z => z <> -100) (node_label (fst fv))))
                    ks))
        (combine examples node_logits) node_lines /\
      Forall2
        (fun vs line =>
           exists ps,
             Forall2 (fun v p => softmax v !! 1%nat = Some p) vs ps /\
             line = str_list repr_float ps)
        edge_logits edge_lines.
Proof.
  intros Hrow Hord. unfold evaluate, load_and_cache_examples. cbn [snd].
  destruct (load_features store a (task_name a) tok eval_split)
    as [[features ex] | e] eqn:Hload; cbn [bind fst snd]; [| discriminate].
  destruct (Z.leb_spec (per_gpu_eval_batch_size a * Z.max 1 (n_gpu a)) 0);
    [discriminate |].
  rewrite eval_rows_features.
  set (examples := eval_features a features).
  set (rows := List.map feature_row examples).
  set (batches := batched _ rows).
  destruct (write_predictions _ _ _ _ _ _ fs) as [fs' [result | e]] eqn:Hw;
    [| discriminate].
  intros [= <- _]. exists features, ex. split; [reflexivity |]. cbn zeta.
  split; [apply eval_features_single |].
  destruct (write_predictions_files _ _ _ _ _ _ _ _ _ Hw)
    as (preds & node_preds & edge_probs & pred_lines & Hp & Hn & He & Hl & F1 & F2 & F3).
  destruct (collect_outputs model batches) as (C1 & C2 & C3 & _ & C5).
  cbn zeta in *. rewrite C1 in Hp. rewrite C2 in Hn. rewrite C3 in He. rewrite C5 in F2.
  destruct (rowwise_lengths model batches Hrow) as (L1 & L2 & L3). cbn zeta in *.
  assert (Hcat : List.concat batches = rows) by apply batched_concat.
  rewrite Hcat in *.
  assert (Hlen : List.length rows = List.length examples) by apply List.length_map.
  apply traverse_Forall2 in Hp, Hn, He. apply label_lines_Forall2 in Hl.
  pose proof (node_lines_decoded Hord examples _ _ Hn) as Hnodes.
  pose proof (edge_lines_decoded _ _ He) as Hedges.
  assert (Hfirst : Forall2 first_largest
                     (List.concat (List.map eo_logits (List.map (model_eval model) batches)))
                     preds).
  { eapply Forall2_impl; [exact Hp |]. cbn beta. intros v k. now apply argmax_first. }
  pose proof (Forall2_compose _ _ _ _ _ Hfirst Hl) as Hpreds.
  subst rows. cbn [files]. eexists _, _, _.
  split; [exact F1 |]. split; [exact F2 |]. split; [exact F3 |].
  split; [| split; [| split; [| split; [exact Hpreds | split; [exact Hnodes | exact Hedges]]]]].
  - rewrite <- (Forall2_length _ _ _ Hpreds), L1. exact Hlen.
  - rewrite <- (Forall2_length _ _ _ Hnodes), List.length_combine, L2, Hlen.
    apply Nat.min_id.
  - rewrite <- (Forall2_length _ _ _ Hedges), L3. exact Hlen.
Qed.

End EvaluateSpec.

(** The dev split of the sample instance: three examples with the node
    labels [1], [0] and one padding, whose lines are the label [True],
    the two node predictions and the two edge probabilities. *)
Lemma evaluate_writes_predictions_witness :
  let out := fst (@evaluate Sample.utils (Sample.framework true) ∅ ∅ Sample.base
                    (Plain tt) tt Sample.rr_processor (Some "dev"%string)) in
  @rowwise (Sample.framework true) (Plain tt) /\
  @orders (Sample.framework true) /\
  files out !! "out/predictions_dev.lst"%string = Some ["True"; "True"; "True"]%string /\
  files out !! "out/prediction_nodes_dev.lst"%string =
    Some ["[1, 0]"; "[1, 0]"; "[1, 0]"]%string /\
  files out !! "out/prediction_edge_logits_dev.lst"%string =
    Some ["[3/4, 1/4]"; "[3/4, 1/4]"; "[3/4, 1/4]"]%string /\
  Forall2
    (fun v line =>
       exists k, @first_largest (Sample.framework true) v k /\
                 ["False"; "True"]%string !! k = Some line)
    [[1%Q; 2%Q]; [1%Q; 2%Q]; [1%Q; 2%Q]] ["True"; "True"; "True"]%string.
Proof.
  cbv zeta.
  assert (Hrow : @rowwise (Sample.framework true) (Plain tt)).
  { intros batch. cbn. rewrite !List.length_map. auto. }
  split; [exact Hrow |]. split; [exact sample_orders |].
  split; [reflexivity |]. split; [reflexivity |]. split; [reflexivity |].
  destruct (@evaluate Sample.utils (Sample.framework true) ∅ ∅ Sample.base
              (Plain tt) tt Sample.rr_processor (Some "dev"%string))
    as [out [results | e]] eqn:He; [| vm_compute in He; discriminate].
  destruct (@evaluate_writes_predictions Sample.utils (Sample.framework true)
              _ _ _ _ _ _ _ _ _ Hrow sample_orders He)
    as (features & ex & Hload & _ & pl & nl & el & F1 & _ & _ & _ & _ & _ & Hpreds & _).
  vm_compute in Hload. injection Hload as <- _.
  vm_compute in He. injection He as <- _.
  vm_compute in F1. injection F1 as <-.
  exact Hpreds.
Defined.

(** * Further properties *)

(** ** The feature cache, beyond the key *)

Section CacheBehaviour.

Context `{U : Utils}.


(** X2: two model paths with the same last non-empty component share
    one cache file, whatever directories lead to it and however many
    separators follow it. *)
Theorem cache_shared_by_last_component (a1 a2 : args) (task eval_split c : string) :
  is_last_component (model_name_or_path a1) c ->
  is_last_component (model_name_or_path a2) c ->
  cache_dir_of a1 = cache_dir_of a2 ->
  max_seq_length a1 = max_seq_length a2 ->
  cached_features_file a1 task eval_split = cached_features_file a2 task eval_split.
Proof.
  intros H1 H2 Hd Hl. unfold cached_features_file.
  rewrite (checkpoint_name_last_component _ _ H1), (checkpoint_name_last_component _ _ H2).
  cbn [bind]. now rewrite Hd, Hl.
Qed.

(** X3: the split name is checked only on a cache miss.  For a split
    other than train, dev and test, a miss raises the exception of line
    389, while an existing cache file is loaded, with no examples. *)
Theorem split_checked_only_on_miss (store : gmap string (list feature)) (a : args)
    (task : string) (tok : tokenizer) (eval_split file : string)
    (p : processor example) (mode : output_mode) :
  eval_split <> "train"%string -> eval_split <> "dev"%string ->
  eval_split <> "test"%string ->
  processors !! task = Some p ->
  output_modes !! task = Some mode ->
  cached_features_file a task eval_split = Done file ->
  (store !! file = None ->
   snd (load_and_cache_examples store a task tok eval_split) =
   Raise (Exception "eval_split should be among train / dev / test")) /\
  (forall features,
     store !! file = Some features ->
     snd (load_and_cache_examples store a task tok eval_split) =
     Done (make_dataset features, None)).
Proof.
  intros Htrain Hdev Htest Hp Hm Hfile.
  apply String.eqb_neq in Htrain, Hdev, Htest.
  unfold load_and_cache_examples, load_features, dict_get, split_examples. cbn [snd].
  rewrite Hp, Hm. cbn [bind]. rewrite Hfile. cbn [bind].
  split.
  - intros Hs. rewrite Hs, Htrain, Hdev, Htest. reflexivity.
  - intros features Hs. rewrite Hs, Hdev. reflexivity.
Qed.

(** X4: a task without processor raises [KeyError], and a model name
    without any non-empty component (empty, or separators only) raises
    [IndexError] from [pop], whatever the store holds. *)
Theorem load_fails_without_task_or_name (store : gmap string (list feature)) (a : args)
    (task : string) (tok : tokenizer) (eval_split : string) :
  (processors !! task = None ->
   snd (load_and_cache_examples store a task tok eval_split) = Raise (KeyError task)) /\
  (is_Some (processors !! task) -> is_Some (output_modes !! task) ->
   only_seps (model_name_or_path a) = true ->
   snd (load_and_cache_examples store a task tok eval_split) = Raise IndexError).
Proof.
  unfold load_and_cache_examples, load_features, dict_get, cached_features_file.
  cbn [snd]. split.
  - intros ->. reflexivity.
  - intros [p ->] [m ->] Hname. cbn [bind].
    now rewrite (checkpoint_name_no_component _ Hname).
Qed.

End CacheBehaviour.


Lemma cache_shared_by_last_component_witness :
  cached_features_file Sample.base "rr" "dev" =
  cached_features_file (with_lengths_and_mask Sample.base 1 1 true) "rr" "dev".
Proof.
  assert (H : is_last_component "models/roberta-large/" "roberta-large").
  { split; [discriminate |]. split; [reflexivity |].
    exists "models/"%string, "/"%string. repeat split. now right. }
  exact (cache_shared_by_last_component Sample.base
           (with_lengths_and_mask Sample.base 1 1 true) "rr" "dev" "roberta-large"
           H H eq_refl eq_refl).
Defined.

Lemma split_checked_only_on_miss_witness :
  snd (@load_and_cache_examples Sample.utils ∅ Sample.base "rr" tt "validation") =
  Raise (Exception "eval_split should be among train / dev / test").
Proof.
  apply (proj1 (@split_checked_only_on_miss Sample.utils ∅ Sample.base "rr" tt
                  "validation" "data/cached_validation_roberta-large_300_rr"
                  Sample.rr_processor tt
                  ltac:(discriminate) ltac:(discriminate) ltac:(discriminate)
                  eq_refl eq_refl eq_refl)).
  reflexivity.
Defined.

Lemma load_fails_without_task_or_name_witness :
  snd (@load_and_cache_examples Sample.utils ∅ Sample.base "qa" tt "dev") =
  Raise (KeyError "qa").
Proof.
  apply (proj1 (@load_fails_without_task_or_name Sample.utils ∅ Sample.base "qa" tt "dev")).
  reflexivity.
Defined.

(** ** The training loop, beyond the claims *)

Section TrainBehaviour.

Context `{U : Utils} `{Fw : Framework}.

(** What the stages of the preparation can raise. *)
Lemma float_of_int_raise (n : Z) (e : exn) : float_of_int n = Raise e -> e = int_too_large.
Proof. unfold float_of_int. destruct (_ <? _); [discriminate | now intros [= <-]]. Qed.

Lemma total_steps_raise (a : args) (n_batches : Z) (e : exn) :
  total_steps a n_batches = Raise e ->
  e = ZeroDivisionError AtEpochCount \/ e = ZeroDivisionError AtTotalSteps \/
  e = int_too_large.
Proof.
  unfold total_steps, floordiv.
  destruct (0 <? max_steps a), (gradient_accumulation_steps a =? 0);
    try (intros [= <-]; now auto).
  - destruct (_ =? 0); [intros [= <-]; auto | discriminate].
  - destruct (float_of_int _) eqn:E; cbn [bind]; [discriminate |].
    intros [= <-]. right. right. exact (float_of_int_raise _ _ E).
Qed.

Lemma total_steps_limited (a : args) (n_batches : Z) (t_total epochs : number) :
  0 < max_steps a ->
  total_steps a n_batches = Done (t_total, epochs) ->
  t_total = Int (max_steps a) /\ exists n, epochs = Int n.
Proof.
  intros Hmax. unfold total_steps, floordiv.
  destruct (Z.ltb_spec 0 (max_steps a)); [| lia].
  destruct (_ =? 0); [discriminate |]. destruct (_ =? 0); [discriminate |].
  intros [= <- <-]. eauto.
Qed.

Lemma to_integer_raise (x : pyfloat) (e : exn) :
  (math_floor x = Raise e -> e = nan_to_integer \/ e = infinity_to_integer) /\
  (int_of_float x = Raise e -> e = nan_to_integer \/ e = infinity_to_integer).
Proof. destruct x; cbn; split; intros [= <-]; auto. Qed.

Lemma schedule_raise (a : args) (t_total : number) (e : exn) :
  schedule a t_total = Raise e ->
  AdamW (weight_decay a) (learning_rate a) (adam_epsilon a) = Raise e \/
  (exists pct, warmup_pct a = Some pct /\
     (e = int_too_large \/ e = nan_to_integer \/ e = infinity_to_integer)) \/
  exists warmup, WarmupLinearSchedule warmup t_total = Raise e.
Proof.
  unfold schedule. destruct (AdamW _ _ _); cbn [bind]; [| now left].
  destruct (warmup_pct a) as [pct |]; [| eauto].
  unfold float_times. destruct t_total as [z | y].
  - destruct (float_of_int z) eqn:E; cbn [bind].
    + destruct (math_floor _) eqn:Ef; cbn [bind]; [eauto |].
      intros [= <-]. right. left. exists pct. split; [reflexivity |].
      right. exact (proj1 (to_integer_raise _ _) Ef).
    + intros [= <-]. right. left. exists pct. split; [reflexivity |].
      left. exact (float_of_int_raise _ _ E).
  - cbn [bind]. destruct (math_floor _) eqn:Ef; cbn [bind]; [eauto |].
    intros [= <-]. right. left. exists pct. split; [reflexivity |].
    right. exact (proj1 (to_integer_raise _ _) Ef).
Qed.

(** X5: [train] raises at three places only.  Before the fp16 block is
    passed, with nothing logged: the missing processor, the batch size
    the loader rejects, the divisions of lines 82 and 84, a conversion of
    an integer too large for a float, the constructor of the optimizer,
    the [math.floor] of line 98 on nan or an infinity, the constructor of
    the schedule, and the missing apex.  At the [int()] of line 123, on
    nan or an infinity and without a step limit, after AMP and the
    wrappers were set up.  And at the division of the return statement,
    when no optimizer step was done.  No batch is processed in the first
    two cases. *)
Theorem train_exceptions (a : args) (ds : dataset) (model : module net) (e : exn) :
  let run := train a ds model in
  run_result run = Raise e ->
  (run = aborted model [] e /\
   (e = KeyError (task_name a) \/ e = bad_batch_size \/
    e = ZeroDivisionError AtEpochCount \/ e = ZeroDivisionError AtTotalSteps \/
    e = int_too_large \/
    AdamW (weight_decay a) (learning_rate a) (adam_epsilon a) = Raise e \/
    (exists pct, warmup_pct a = Some pct /\
       (e = nan_to_integer \/ e = infinity_to_integer)) \/
    (exists warmup t_total, WarmupLinearSchedule warmup t_total = Raise e) \/
    e = apex_missing)) \/
  (run =
     aborted (dp_or_ddp_model a model)
       ((if fp16 a then [AmpInitialize (fp16_opt_level a)] else []) ++ [InitialZeroGrad]) e /\
   max_steps a <= 0 /\
   int_of_float (num_train_epochs a) = Raise e /\
   (e = nan_to_integer \/ e = infinity_to_integer)) \/
  (e = ZeroDivisionError AtAverageLoss /\
   run_global_step run = 0 /\
   optimizer_steps (all_batches (run_epochs run)) = 0%nat /\
   exists n, enters_loop a ds n).
Proof.
  cbv zeta.
  destruct (train_before_fp16 a ds model)
    as [(x & Hrun & _ & Hx) | (t & ep & Hr & Ht & Hs & Hrun)].
  { rewrite Hrun. cbn [aborted run_result]. intros [= <-]. left.
    split; [reflexivity |].
    destruct Hx as [-> | [-> | [Hx | (t & ep & _ & Hx)]]]; auto 10.
    - destruct (total_steps_raise _ _ _ Hx) as [-> | [-> | ->]]; auto 10.
    - destruct (schedule_raise _ _ _ Hx)
        as [H | [(pct & Hp & [-> | H]) | (w & H)]]; eauto 12. }
  pose proof (total_steps_done _ _ _ Ht) as Hg.
  rewrite Hrun. destruct (fp16 a && negb apex_available) eqn:Hfp.
  { cbn [aborted run_result]. intros [= <-]. left. split; [reflexivity | auto 12]. }
  destruct (int_of_number ep) as [n | x] eqn:Hn.
  2:{ cbn [aborted run_result]. intros [= <-]. right. left. split; [reflexivity |].
      destruct (Z.lt_ge_cases 0 (max_steps a)) as [Hmax | Hmax].
      - destruct (total_steps_limited _ _ _ _ Hmax Ht) as (_ & k & ->). discriminate.
      - assert (Hep : ep = Float (num_train_epochs a)).
        { revert Ht. unfold total_steps, floordiv.
          destruct (Z.ltb_spec 0 (max_steps a)); [lia |].
          destruct (_ =? 0); [discriminate |].
          destruct (float_of_int _); cbn [bind]; [| discriminate]. now intros [= _ <-]. }
        subst ep. cbn [int_of_number] in Hn.
        split; [lia |]. split; [exact Hn |].
        exact (proj2 (to_integer_raise _ _) Hn). }
  destruct (epoch_loop a _ _ _ _) as [[es [gs tr]] err] eqn:Hloop.
  destruct (epoch_loop_run a _ _ Hg _ _ _ _ _ Hloop) as (-> & _ & Hall & Hgs).
  cbn [run_result run_global_step run_epochs].
  destruct (Z.eqb_spec gs 0) as [-> |]; [| discriminate].
  intros [= <-]. right. right. split; [reflexivity |]. split; [reflexivity |].
  split.
  - rewrite (optimizer_steps_epochs a _ _ es Hall). cbn [fst] in Hgs. lia.
  - exists n. destruct Hr as (Hp & Hbs & Hsch).
    split; [| split; [exact Hsch |]].
    + split; [exact Hp |]. split; [exact Hbs |]. apply epoch_count_plan. eauto.
    + intros Hf. rewrite Hf in Hfp. now destruct apex_available.
Qed.

(** X25: with [--warmup_pct nan], a run that gets to line 98 (the task
    has a processor, the batch size is positive, lines 80-84 give the
    totals, the optimizer is built, and a step limit, if any, fits a
    float) stops there with the [ValueError] of [math.floor], before
    apex is looked for and before any batch. *)
Theorem warmup_pct_nan_stops_training (a : args) (ds : dataset) (model : module net)
    (t_total epochs : number) :
  warmup_pct a = Some NaN ->
  is_Some (processors !! task_name a) ->
  0 < per_gpu_train_batch_size a * Z.max 1 (n_gpu a) ->
  total_steps a (train_batches a ds) = Done (t_total, epochs) ->
  AdamW (weight_decay a) (learning_rate a) (adam_epsilon a) = Done tt ->
  max_steps a < 2 ^ 1024 - 2 ^ 970 ->
  train a ds model = aborted model [] nan_to_integer.
Proof.
  intros Hpct [p Hp] Hbs Ht Hopt Hfits.
  assert (Hs : schedule a t_total = Raise nan_to_integer).
  { unfold schedule. rewrite Hopt, Hpct. cbn [bind].
    destruct (Z.lt_ge_cases 0 (max_steps a)) as [Hmax | Hmax].
    - destruct (total_steps_limited _ _ _ _ Hmax Ht) as (-> & _).
      unfold float_times, float_of_int.
      destruct (Z.ltb_spec (Z.abs (max_steps a)) (2 ^ 1024 - 2 ^ 970)); [reflexivity | lia].
    - revert Ht. unfold total_steps, floordiv.
      destruct (Z.ltb_spec 0 (max_steps a)); [lia |].
      destruct (_ =? 0); [discriminate |].
      destruct (float_of_int _); cbn [bind]; [| discriminate].
      intros [= <- _]. reflexivity. }
  unfold train, dict_get. rewrite Hp.
  destruct (Z.leb_spec (per_gpu_train_batch_size a * Z.max 1 (n_gpu a)) 0); [lia |].
  unfold train_batches in Ht. now rewrite Ht, Hs.
Qed.

(** X6: with a step limit, a training set that gives fewer batches than
    [gradient_accumulation_steps] makes [train] fail at line 82, where
    [max_steps] is divided by the zero updates of an epoch; nothing is
    trained. *)
Theorem step_limit_needs_an_update_per_epoch (a : args) (ds : dataset)
    (model : module net) :
  0 < max_steps a ->
  is_Some (processors !! task_name a) ->
  0 < per_gpu_train_batch_size a * Z.max 1 (n_gpu a) ->
  train_batches a ds < gradient_accumulation_steps a ->
  train a ds model = aborted model [] (ZeroDivisionError AtEpochCount).
Proof.
  intros Hmax [p Hp] Hbs Hlt.
  pose proof (train_batches_nonneg a ds Hbs) as Hnb.
  unfold train, dict_get. rewrite Hp.
  destruct (Z.leb_spec (per_gpu_train_batch_size a * Z.max 1 (n_gpu a)) 0); [lia |].
  unfold train_batches in Hlt, Hnb. unfold total_steps, floordiv.
  destruct (Z.ltb_spec 0 (max_steps a)); [| lia].
  destruct (Z.eqb_spec (gradient_accumulation_steps a) 0); [reflexivity |].
  rewrite Z.div_small by lia. reflexivity.
Qed.

(** Without a step limit the epoch loop runs every epoch over every
    batch. *)
Lemma epoch_loop_unlimited (a : args) (m : module net) (n_batches : nat) :
  gradient_accumulation_steps a <> 0 ->
  max_steps a <= 0 ->
  forall epochs st es st' err,
    epoch_loop a m n_batches epochs st = (es, st', err) ->
    List.map el_index es = epochs /\
    Forall (fun el => List.map bl_step (el_batches el) = seq 0 n_batches) es /\
    fst st' =
      fst st + Z.of_nat (List.length epochs) *
               Z.of_nat (update_steps (gradient_accumulation_steps a) (seq 0 n_batches)).
Proof.
  intros Hg Hmax. induction epochs as [|e epochs IH]; intros st es st' err.
  - cbn [epoch_loop]. intros [= <- <- <-]. repeat split; [constructor | cbn; lia].
  - cbn [epoch_loop].
    destruct (batch_loop a m e (seq 0 n_batches) st) as [[bs st1] err1] eqn:Hb.
    destruct (batch_loop_run a m e Hg _ _ _ _ _ Hb) as (-> & (rest & Hrest & Hcut) & _ & Hgs).
    rewrite (stop_now_unlimited a _ Hmax) in *.
    assert (rest = []) as ->.
    { destruct rest; [reflexivity |]. discriminate Hcut. discriminate. }
    rewrite app_nil_r in Hrest.
    destruct (epoch_loop a m n_batches epochs st1) as [[es1 st2] err2] eqn:Hloop.
    intros [= <- <- <-]. destruct (IH _ _ _ _ Hloop) as (Hidx & Hall & Hgs2).
    repeat split.
    + cbn [List.map el_index]. now rewrite Hidx.
    + constructor; [now cbn [el_batches] | exact Hall].
    + rewrite Hgs2, Hgs, <- Hrest. cbn [List.length]. lia.
Qed.

(** X7: without a step limit ([max_steps <= 0]) a run that enters the
    loop trains [int(num_train_epochs)] epochs, each over all batches of
    the loader, and for [gradient_accumulation_steps > 0] ends with
    [global_step] equal to epochs times [len(loader) // g]: the batches
    left over at the end of an epoch never reach the optimizer. *)
Theorem unlimited_run_shape (a : args) (ds : dataset) (model : module net) (n : Z) :
  max_steps a <= 0 ->
  enters_loop a ds n ->
  let run := train a ds model in
  int_of_float (num_train_epochs a) = Done n /\
  List.map el_index (run_epochs run) = seq 0 (Z.to_nat n) /\
  Forall (fun el => List.map bl_step (el_batches el) = seq 0 (Z.to_nat (train_batches a ds)))
    (run_epochs run) /\
  (0 < gradient_accumulation_steps a ->
   run_global_step run =
   Z.max 0 n * (train_batches a ds / gradient_accumulation_steps a)).
Proof.
  intros Hmax Hn run.
  destruct (train_entered a ds model n Hn) as (es & gs & tr & Hloop & Hrun).
  destruct Hn as ((_ & Hbs & Hcnt) & _).
  pose proof (epoch_count_done _ _ _ Hcnt) as Hg.
  destruct (epoch_loop_unlimited a _ _ Hg Hmax _ _ _ _ _ Hloop) as (Hidx & Hall & Hgs).
  subst run. rewrite Hrun. cbn [run_epochs run_global_step].
  split; [| split; [exact Hidx | split; [exact Hall |]]].
  - exact (epoch_count_unlimited _ _ _ Hmax Hcnt).
  - intros Hpos. cbn [fst] in Hgs. rewrite Hgs, List.length_seq.
    rewrite update_steps_seq by exact Hpos.
    pose proof (train_batches_nonneg a ds Hbs).
    replace (Z.of_nat (Z.to_nat n)) with (Z.max 0 n) by lia.
    rewrite Z2Nat.id by lia. lia.
Qed.

Lemma batch_losses_run (a : args) (m : module net) (e s : nat) (st : Z * F) :
  gradient_accumulation_steps a <> 0 ->
  exists loss,
    batch_losses (fst (fst (train_batch a m e s st))) = [loss] /\
    snd (snd (fst (train_batch a m e s st))) = fadd (snd st) loss.
Proof.
  intros Hg. rewrite (train_batch_run a m e s st Hg). cbn [fst snd].
  eexists. split; [| reflexivity]. unfold batch_losses. cbn [bl_ops].
  destruct (fp16 a), (is_update_step _ _); reflexivity.
Qed.

Lemma batch_loop_losses (a : args) (m : module net) (e : nat) :
  gradient_accumulation_steps a <> 0 ->
  forall steps st bs st' err,
    batch_loop a m e steps st = (bs, st', err) ->
    snd st' = fold_left fadd (List.concat (List.map batch_losses bs)) (snd st).
Proof.
  intros Hg. induction steps as [|s steps IH]; intros st bs st' err.
  - cbn [batch_loop]. intros [= <- <- <-]. reflexivity.
  - cbn [batch_loop].
    destruct (batch_losses_run a m e s st Hg) as (loss & Hl & Hs).
    destruct (train_batch a m e s st) as [[b st1] [x |]] eqn:Hb; cbn [fst snd] in Hl, Hs.
    + intros [= <- <- <-]. cbn [List.map List.concat]. rewrite Hl. cbn. now rewrite Hs.
    + destruct (stop_now a (fst st1)).
      * intros [= <- <- <-]. cbn [List.map List.concat]. rewrite Hl. cbn. now rewrite Hs.
      * destruct (batch_loop a m e steps st1) as [[bs1 st2] err1] eqn:Hloop.
        intros [= <- <- <-]. cbn [List.map List.concat].
        rewrite fold_left_app, Hl, (IH _ _ _ _ Hloop). cbn. now rewrite Hs.
Qed.

Lemma epoch_loop_losses (a : args) (m : module net) (n_batches : nat) :
  gradient_accumulation_steps a <> 0 ->
  forall epochs st es st' err,
    epoch_loop a m n_batches epochs st = (es, st', err) ->
    snd st' =
    fold_left fadd (List.concat (List.map batch_losses (all_batches es))) (snd st).
Proof.
  intros Hg. induction epochs as [|e epochs IH]; intros st es st' err.
  - cbn [epoch_loop]. intros [= <- <- <-]. reflexivity.
  - cbn [epoch_loop].
    destruct (batch_loop a m e (seq 0 n_batches) st) as [[bs st1] err1] eqn:Hb.
    pose proof (batch_loop_losses a m e Hg _ _ _ _ _ Hb) as Hs.
    assert (Hone : all_batches [{| el_index := e; el_batches := bs;
                                   el_global_step := fst st1;
                                   el_saves := @nil (save net) |}]
                   = bs).
    { unfold all_batches. cbn. apply app_nil_r. }
    destruct err1 as [x |].
    + intros [= <- <- <-]. now rewrite Hone.
    + destruct (stop_now a (fst st1)).
      * intros [= <- <- <-]. now rewrite Hone.
      * destruct (epoch_loop a m n_batches epochs st1) as [[es1 st2] err2] eqn:Hloop.
        intros [= <- <- <-]. unfold all_batches in *. cbn [List.map List.concat el_batches].
        rewrite List.map_app, List.concat_app, fold_left_app, <- Hs.
        exact (IH _ _ _ _ Hloop).
Qed.

(** X8: [tr_loss] is the sum, in order, of the losses handed to the
    backward passes of all batches, that is of the losses already
    divided by [gradient_accumulation_steps]; each batch hands over
    exactly one. *)
Theorem tr_loss_is_sum_of_backward_losses (a : args) (ds : dataset) (model : module net) :
  let run := train a ds model in
  run_tr_loss run =
    fold_left fadd
      (List.concat (List.map batch_losses (all_batches (run_epochs run)))) fzero /\
  Forall (fun b => List.length (batch_losses b) = 1%nat) (all_batches (run_epochs run)).
Proof.
  intros run.
  destruct (train_cases a ds model) as [(m0 & ev & e & He & _) | [n Hn]].
  { subst run. rewrite He. cbn. split; [reflexivity | constructor]. }
  destruct (train_entered a ds model n Hn) as (es & gs & tr & Hloop & Hrun).
  pose proof (epoch_count_done _ _ _ (proj2 (proj2 (proj1 Hn)))) as Hg.
  subst run. rewrite Hrun. cbn [run_tr_loss run_epochs]. split.
  - exact (epoch_loop_losses a _ _ Hg _ _ _ _ _ Hloop).
  - destruct (epoch_loop_run a _ _ Hg _ _ _ _ _ Hloop) as (_ & _ & Hall & _).
    unfold all_batches. apply List.Forall_concat, List.Forall_map.
    eapply List.Forall_impl; [| exact Hall]. cbn beta. intros el (Hops & _).
    eapply List.Forall_impl; [| exact Hops]. cbn beta. intros b Hb.
    unfold batch_losses. rewrite Hb.
    destruct (fp16 a), (is_update_step _ _); reflexivity.
Qed.

End TrainBehaviour.

Section StepLimit.

Context `{U : Utils} `{Fw : Framework}.

(** [global_step] when the epoch loop is left is the one logged for its
    last epoch. *)
Lemma epoch_loop_last (a : args) (m : module net) (n_batches : nat) :
  forall epochs st es st' err,
    epoch_loop a m n_batches epochs st = (es, st', err) ->
    (es = [] /\ st' = st) \/
    (exists el, last es = Some el /\ el_global_step el = fst st').
Proof.
  induction epochs as [|e epochs IH]; intros st es st' err.
  - cbn [epoch_loop]. intros [= <- <- <-]. now left.
  - cbn [epoch_loop].
    destruct (batch_loop a m e (seq 0 n_batches) st) as [[bs st1] [x |]].
    + intros [= <- <- <-]. right. eexists. split; reflexivity.
    + destruct (stop_now a (fst st1)).
      * intros [= <- <- <-]. right. eexists. split; reflexivity.
      * destruct (epoch_loop a m n_batches epochs st1) as [[es1 st2] err2] eqn:Hloop.
        intros [= <- <- <-]. right.
        destruct (IH _ _ _ _ Hloop) as [[-> ->] | (el & Hlast & Hgs)].
        -- eexists. split; reflexivity.
        -- exists el. split; [| exact Hgs].
           destruct es1; [discriminate | exact Hlast].
Qed.

(** X9: with a step limit and [gradient_accumulation_steps > 0], a run
    that enters the loop returns normally with [global_step = max_steps
    + 1], and its last epoch is ended by the limit: the weights after
    the final optimizer step are not saved by [train]. *)
Theorem step_limit_ends_without_checkpoint (a : args) (ds : dataset)
    (model : module net) (n : Z) :
  0 < max_steps a ->
  0 < gradient_accumulation_steps a ->
  enters_loop a ds n ->
  let run := train a ds model in
  run_result run =
    Done (max_steps a + 1, fdiv_int (run_tr_loss run) (max_steps a + 1)) /\
  exists el,
    last (run_epochs run) = Some el /\
    el_global_step el = max_steps a + 1 /\
    el_saves el = [].
Proof.
  intros Hmax Hgpos Hn run.
  destruct (train_entered a ds model n Hn) as (es & gs & tr & Hloop & Hrun).
  assert (Hg : gradient_accumulation_steps a <> 0) by lia.
  destruct (epoch_loop_run a _ _ Hg _ _ _ _ _ Hloop) as (_ & _ & Hall & _).
  destruct (epoch_loop_limit a _ _ Hg Hmax _ _ _ _ _ Hloop ltac:(cbn; lia))
    as (Hle & _ & Hfull).
  cbn [fst] in Hle, Hfull.
  assert (Hgs : gs = max_steps a + 1).
  { destruct (stop_now a gs) eqn:Hstop; [apply stop_now_true in Hstop; lia |].
    specialize (Hfull eq_refl). rewrite List.length_seq in Hfull.
    destruct Hn as ((_ & Hbs & Hcnt) & _).
    pose proof (train_batches_nonneg a ds Hbs) as Hnb.
    rewrite update_steps_seq, (Z2Nat.id (train_batches a ds)) in Hfull by lia.
    destruct (epoch_count_limited _ _ _ Hmax Hcnt) as [Hu ->].
    set (u := train_batches a ds / gradient_accumulation_steps a) in *.
    assert (0 < u).
    { assert (0 <= u) by (apply Z.div_pos; lia). lia. }
    pose proof (Z.div_mod (max_steps a) u ltac:(lia)).
    pose proof (Z.mod_pos_bound (max_steps a) u ltac:(lia)).
    assert (0 <= max_steps a / u) by (apply Z.div_pos; lia).
    rewrite Z2Nat.id in Hfull by lia.
    assert (Hs : stop_now a gs = true) by (apply stop_now_true; nia).
    congruence. }
  subst run. rewrite Hrun. cbn [run_result run_epochs run_tr_loss].
  split.
  - destruct (Z.eqb_spec gs 0); [lia | now rewrite Hgs].
  - destruct (epoch_loop_last a _ _ _ _ _ _ _ Hloop) as [[_ Hst] | (el & Hlast & Hel)].
    { injection Hst as Hz _. lia. }
    cbn [fst] in Hel. exists el. split; [exact Hlast |]. split; [congruence |].
    rewrite List.Forall_forall in Hall.
    assert (Hin : In el es).
    { apply last_Some in Hlast as [l' ->]. apply in_or_app. right. now left. }
    destruct (Hall el Hin) as (_ & _ & Hsaves).
    rewrite Hsaves, Hel, (proj2 (stop_now_true a gs)) by lia. reflexivity.
Qed.

End StepLimit.

(** X10: the model that [train] saves is the trained one with one
    wrapper removed.  After [dp_or_ddp_model] that is the model itself,
    except when both wrappers were applied ([n_gpu > 1] and
    [local_rank <> -1]): then it is still the [DataParallel] wrapper. *)
Theorem saved_model_unwraps_one_layer {net} (a : args) (m : net) :
  (n_gpu a <= 1 \/ local_rank a = -1 ->
   model_to_save (dp_or_ddp_model a (Plain m)) = Plain m) /\
  (1 < n_gpu a -> local_rank a <> -1 ->
   model_to_save (dp_or_ddp_model a (Plain m)) = DataParallel (Plain m)).
Proof.
  unfold dp_or_ddp_model.
  destruct (Z.ltb_spec 1 (n_gpu a)), (Z.eqb_spec (local_rank a) (-1));
    cbn [negb model_to_save]; split; intros; first [reflexivity | lia | congruence].
Qed.

Lemma train_exceptions_witness :
  @train Sample.utils (Sample.framework true)
    (Sample.schedule_of 1 (-1) NaN None false) (Sample.rows 1) (Plain tt) =
  @aborted (Sample.framework true) (Plain tt) [InitialZeroGrad] nan_to_integer.
Proof.
  destruct (@train_exceptions Sample.utils (Sample.framework true)
              (Sample.schedule_of 1 (-1) NaN None false) (Sample.rows 1) (Plain tt)
              nan_to_integer eq_refl) as [[H _] | [[H _] | [H _]]].
  - discriminate H.
  - exact H.
  - discriminate H.
Defined.

Lemma warmup_pct_nan_stops_training_witness :
  @train Sample.utils (Sample.framework false)
    (Sample.schedule_of 1 (-1) (Finite 3) (Some NaN) true) (Sample.rows 1) (Plain tt) =
  @aborted (Sample.framework false) (Plain tt) [] nan_to_integer.
Proof.
  apply (@warmup_pct_nan_stops_training Sample.utils (Sample.framework false)
           (Sample.schedule_of 1 (-1) (Finite 3) (Some NaN) true) (Sample.rows 1) (Plain tt)
           (Float (Finite 3)) (Float (Finite 3))).
  - reflexivity.
  - eexists. reflexivity.
  - cbn. lia.
  - reflexivity.
  - reflexivity.
  - cbn. lia.
Defined.

Lemma step_limit_needs_an_update_per_epoch_witness :
  @train Sample.utils (Sample.framework true) (Sample.training 8 1 3 false)
    (Sample.rows 1) (Plain tt) =
  @aborted (Sample.framework true) (Plain tt) [] (ZeroDivisionError AtEpochCount).
Proof.
  apply (@step_limit_needs_an_update_per_epoch Sample.utils (Sample.framework true)).
  - cbn. lia.
  - eexists. reflexivity.
  - cbn. lia.
  - vm_compute. reflexivity.
Defined.

Lemma unlimited_run_shape_witness :
  run_global_step
    (@train Sample.utils (Sample.framework true) (Sample.training 2 (-1) 3 false)
       (Sample.rows 3) (Plain tt)) = 3.
Proof.
  assert (Hn : @enters_loop Sample.utils (Sample.framework true)
                 (Sample.training 2 (-1) 3 false) (Sample.rows 3) 3).
  { split; [| split; [eexists _, _; split; reflexivity | discriminate]].
    split; [eexists; reflexivity |]. split; [cbn; lia | reflexivity]. }
  assert (Hmax : max_steps (Sample.training 2 (-1) 3 false) <= 0) by (cbn; lia).
  pose proof (@unlimited_run_shape Sample.utils (Sample.framework true) _
                (Sample.rows 3) (Plain tt) 3 Hmax Hn) as H.
  cbv zeta in H. destruct H as (_ & _ & _ & H).
  rewrite H by (cbn; lia). reflexivity.
Defined.

Lemma step_limit_ends_without_checkpoint_witness :
  run_result
    (@train Sample.utils (Sample.framework true) (Sample.training 1 4 3 false)
       (Sample.rows 1) (Plain tt)) = Done (5, (5 # 5)%Q).
Proof.
  assert (Hn : @enters_loop Sample.utils (Sample.framework true)
                 (Sample.training 1 4 3 false) (Sample.rows 1) 5).
  { split; [| split; [eexists _, _; split; reflexivity | discriminate]].
    split; [eexists; reflexivity |]. split; [cbn; lia | reflexivity]. }
  assert (Hmax : 0 < max_steps (Sample.training 1 4 3 false)) by (cbn; lia).
  assert (Hg : 0 < gradient_accumulation_steps (Sample.training 1 4 3 false))
    by (cbn; lia).
  exact (proj1 (@step_limit_ends_without_checkpoint Sample.utils (Sample.framework true)
                  _ (Sample.rows 1) (Plain tt) 5 Hmax Hg Hn)).
Defined.

Lemma saved_model_unwraps_one_layer_witness :
  model_to_save (dp_or_ddp_model Sample.base (Plain tt)) = Plain tt.
Proof.
  apply (proj1 (saved_model_unwraps_one_layer Sample.base tt)). right. reflexivity.
Defined.

(** ** Evaluation, beyond the prediction files *)

Lemma label_lines_stop (labels : list string) (good rest : list nat) (bad : nat) :
  Forall (fun k => (k < List.length labels)%nat) good ->
  (List.length labels <= bad)%nat ->
  exists ls,
    label_lines labels (good ++ bad :: rest) = (ls, Some IndexError) /\
    Forall2 (fun k l => labels !! k = Some l) good ls.
Proof.
  intros Hgood Hbad. induction Hgood as [|k good Hk _ IH].
  - exists []. cbn [app label_lines].
    rewrite (proj2 (lookup_ge_None labels bad)) by lia. split; [reflexivity | constructor].
  - destruct IH as (ls & Hls & Hall).
    destruct (lookup_lt_is_Some_2 labels k Hk) as [l Hl].
    exists (l :: ls). cbn [app label_lines]. rewrite Hl, Hls.
    split; [reflexivity | now constructor].
Qed.

(** The four files of a split have different paths. *)
Lemma eval_files_distinct (dir eval_split : string) :
  let results := path_join dir (file_name "eval_results_" eval_split ".txt") in
  let file stem := path_join dir (file_name stem eval_split ".lst") in
  results <> file "predictions_"%string /\
  results <> file "prediction_nodes_"%string /\
  results <> file "prediction_edge_logits_"%string.
Proof.
  intros results file.
  destruct (path_join_relative dir "x" eq_refl) as (prefix & _ & Hjoin).
  subst results file. cbn beta. rewrite !Hjoin by reflexivity.
  repeat split; intros H; apply append_inv_head in H;
    apply (f_equal (String.get 0)) in H; vm_compute in H; discriminate.
Qed.

Section EvaluateBehaviour.

Context `{U : Utils} `{Fw : Framework}.

(** The paths [evaluate] may write for a split. *)
Local Abbreviation written_by a eval_split :=
  [path_join (output_dir a) (file_name "eval_results_" eval_split ".txt");
   path_join (output_dir a) (file_name "predictions_" eval_split ".lst");
   path_join (output_dir a) (file_name "prediction_nodes_" eval_split ".lst");
   path_join (output_dir a) (file_name "prediction_edge_logits_" eval_split ".lst")].

Lemma write_predictions_frame (task dir : string) (labels : list string)
    (eval_split : string) (n_batches : nat) (c : collected F)
    (fs : gmap string (list string)) (p : string) :
  ~ In p [path_join dir (file_name "eval_results_" eval_split ".txt");
          path_join dir (file_name "predictions_" eval_split ".lst");
          path_join dir (file_name "prediction_nodes_" eval_split ".lst");
          path_join dir (file_name "prediction_edge_logits_" eval_split ".lst")] ->
  fst (write_predictions task dir labels eval_split n_batches c fs) !! p = fs !! p.
Proof.
  intros Hp. cbn [In] in Hp. unfold write_predictions.
  destruct (n_batches =? 0)%nat; [reflexivity |].
  destruct (traverse argmax _); [| reflexivity].
  destruct (traverse (traverse argmax) _); [| reflexivity].
  destruct (traverse (traverse class1) _); [| reflexivity].
  destruct (label_lines labels _) as [ls [e |]]; cbn [fst];
    rewrite !lookup_insert_ne by tauto; reflexivity.
Qed.

(** X11: whatever its outcome, [evaluate] leaves every file other than
    the four of the split ([eval_results_], [predictions_],
    [prediction_nodes_], [prediction_edge_logits_] under the output
    directory) with the content it had. *)
Theorem evaluate_touches_four_files (store : gmap string (list feature))
    (fs : gmap string (list string)) (a : args) (model : module net) (tok : tokenizer)
    (proc : processor example) (eval_split p : string) :
  ~ In p (written_by a eval_split) ->
  files (fst (evaluate store fs a model tok proc (Some eval_split))) !! p = fs !! p.
Proof.
  intros Hp. unfold evaluate.
  destruct (snd (load_and_cache_examples _ _ _ _ _)) as [[d ex] | e]; [| reflexivity].
  destruct (_ <=? 0); [reflexivity |].
  pose proof (write_predictions_frame (task_name a) (output_dir a) (get_labels proc)
                eval_split
                (List.length (batched (Z.to_nat (per_gpu_eval_batch_size a * Z.max 1 (n_gpu a)))
                                (eval_rows a d)))
                (collect model (batched (Z.to_nat (per_gpu_eval_batch_size a * Z.max 1 (n_gpu a)))
                                  (eval_rows a d)))
                fs p Hp) as H.
  destruct (write_predictions _ _ _ _ _ _ _) as [fs' [r | e]]; exact H.
Qed.

(** X12: evaluating an empty set (the loader yields no row) raises
    [ZeroDivisionError] at the average of line 306, and writes no file. *)
Theorem evaluate_empty_set (store : gmap string (list feature))
    (fs : gmap string (list string)) (a : args) (model : module net) (tok : tokenizer)
    (proc : processor example) (eval_split : string) (d : dataset)
    (ex : option (list example)) :
  snd (load_and_cache_examples store a (task_name a) tok eval_split) = Done (d, ex) ->
  eval_rows a d = [] ->
  0 < per_gpu_eval_batch_size a * Z.max 1 (n_gpu a) ->
  files (fst (evaluate store fs a model tok proc (Some eval_split))) = fs /\
  snd (evaluate store fs a model tok proc (Some eval_split)) =
  Raise (ZeroDivisionError AtEvalLoss).
Proof.
  intros Hload Hrows Hbs. unfold evaluate. rewrite Hload.
  destruct (Z.leb_spec (per_gpu_eval_batch_size a * Z.max 1 (n_gpu a)) 0); [lia |].
  rewrite Hrows. cbn. split; reflexivity.
Qed.

(** X13: when an argmax of the answer logits falls outside the label
    list, [IndexError] is raised while the predictions file is being
    written: the metrics file is complete, the predictions file holds
    the labels of the examples before the offending one, and the node
    and edge files are not written. *)
Theorem label_out_of_range (task dir : string) (labels : list string)
    (eval_split : string) (n_batches : nat) (c : collected F)
    (fs : gmap string (list string)) (good rest : list nat) (bad : nat)
    (node_preds : list (list nat)) (edge_probs : list (list F)) :
  n_batches <> 0%nat ->
  traverse argmax (c_logits c) = Done (good ++ bad :: rest) ->
  traverse (traverse argmax) (c_node_logits c) = Done node_preds ->
  traverse (traverse class1) (c_edge_logits c) = Done edge_probs ->
  Forall (fun k => (k < List.length labels)%nat) good ->
  (List.length labels <= bad)%nat ->
  let r := write_predictions task dir labels eval_split n_batches c fs in
  let file stem := path_join dir (file_name stem eval_split ".lst") in
  snd r = Raise IndexError /\
  (exists ls,
     fst r !! file "predictions_"%string = Some ls /\
     Forall2 (fun k l => labels !! k = Some l) good ls) /\
  is_Some (fst r !! path_join dir (file_name "eval_results_" eval_split ".txt")) /\
  fst r !! file "prediction_nodes_"%string = fs !! file "prediction_nodes_"%string /\
  fst r !! file "prediction_edge_logits_"%string =
    fs !! file "prediction_edge_logits_"%string.
Proof.
  intros Hn Hp Hnodes Hedges Hgood Hbad. cbv zeta. unfold write_predictions.
  destruct (Nat.eqb_spec n_batches 0); [contradiction |].
  rewrite Hp, Hnodes, Hedges.
  destruct (label_lines_stop labels good rest bad Hgood Hbad) as (ls & Hls & Hall).
  rewrite Hls. cbn [fst snd].
  destruct (prediction_files_distinct dir eval_split) as (Hpn & Hpe & _).
  destruct (eval_files_distinct dir eval_split) as (Hrp & Hrn & Hre).
  cbv zeta in *.
  split; [reflexivity |]. split; [| split; [| split]].
  - exists ls. split; [apply lookup_insert_eq | exact Hall].
  - rewrite lookup_insert_ne by congruence. rewrite lookup_insert_eq. eauto.
  - now rewrite !lookup_insert_ne by congruence.
  - now rewrite !lookup_insert_ne by congruence.
Qed.

End EvaluateBehaviour.

Section Argmax.

Context `{Fw : Framework}.

(** X14: when the float comparison is an order, the argmax of a vector
    is the first index of a largest entry: no entry is above the one at
    the index, and every earlier entry is below it.  On the empty vector
    it raises [ValueError]. *)
Theorem argmax_first_largest (l : list F) :
  orders ->
  (l = [] -> exists msg, argmax l = Raise (ValueError msg)) /\
  (forall k,
     argmax l = Done k ->
     exists x,
       l !! k = Some x /\
       forall j y, l !! j = Some y ->
         F_ltb x y = false /\ ((j < k)%nat -> F_ltb y x = true)).
Proof.
  intros Hord. split.
  - intros ->. eexists. reflexivity.
  - intros k. destruct l as [|x l]; [discriminate |]. cbn [argmax]. intros [= <-].
    apply (argmax_from_spec Hord l [x] 0%nat x); [reflexivity |].
    intros [|j] y; [| discriminate]. intros [= <-].
    split; [now apply ltb_irrefl | lia].
Qed.

End Argmax.

Lemma argmax_first_largest_witness :
  @argmax (Sample.framework true) [1%Q; 3%Q; 2%Q; 3%Q] = Done 1%nat /\
  exists x, [1%Q; 3%Q; 2%Q; 3%Q] !! 1%nat = Some x /\ Sample.q_ltb x 3%Q = false.
Proof.
  split; [reflexivity |].
  destruct (proj2 (@argmax_first_largest (Sample.framework true) [1%Q; 3%Q; 2%Q; 3%Q]
                     sample_orders) 1%nat eq_refl) as (x & Hx & Hmax).
  exists x. split; [exact Hx |]. exact (proj1 (Hmax 3%nat 3%Q eq_refl)).
Defined.

Lemma length_append (s t : string) :
  String.length (s +:+ t) = (String.length s + String.length t)%nat.
Proof.
  induction s as [|c s IH]; [reflexivity |].
  rewrite append_cons. cbn [String.length]. now rewrite IH.
Qed.

Lemma append_inv_tail (s1 s2 t : string) : s1 +:+ t = s2 +:+ t -> s1 = s2.
Proof.
  revert s2. induction s1 as [|c s1 IH]; intros [|c2 s2] H.
  - reflexivity.
  - apply (f_equal String.length) in H.
    rewrite append_nil_l, append_cons in H. cbn [String.length] in H.
    rewrite length_append in H. lia.
  - apply (f_equal String.length) in H.
    rewrite append_nil_l, append_cons in H. cbn [String.length] in H.
    rewrite length_append in H. lia.
  - rewrite !append_cons in H. injection H as -> H. f_equal. now apply IH.
Qed.

Lemma with_split_keys (eval_split : string) (metrics : gmap string string) :
  NoDup (List.map fst (with_split eval_split metrics)).
Proof.
  unfold with_split. rewrite List.map_map. cbn [fst].
  rewrite <- (List.map_map fst (fun k => k +:+ "_" +:+ eval_split)).
  assert (Hinj : Inj (=) (=) (fun k : string => k +:+ "_" +:+ eval_split)).
  { intros k1 k2 H. exact (append_inv_tail _ _ _ H). }
  apply (NoDup_fmap_2 _). apply NoDup_fst_map_to_list.
Qed.

Lemma with_split_lookup (eval_split : string) (metrics : gmap string string)
    (k v : string) :
  metrics !! k = Some v ->
  (list_to_map (with_split eval_split metrics) : gmap string string)
    !! (k +:+ "_" +:+ eval_split) = Some v.
Proof.
  intros H. apply elem_of_list_to_map_1; [apply with_split_keys |].
  unfold with_split. apply list_elem_of_In, in_map_iff.
  exists (k, v). split; [reflexivity |].
  apply list_elem_of_In, elem_of_map_to_list. exact H.
Qed.

Lemma with_split_lookup_other (eval_split : string) (metrics : gmap string string)
    (k' : string) :
  (forall k, is_Some (metrics !! k) -> k' <> k +:+ "_" +:+ eval_split) ->
  (list_to_map (with_split eval_split metrics) : gmap string string) !! k' = None.
Proof.
  intros H. apply not_elem_of_list_to_map_1. intros Hin.
  apply list_elem_of_In, in_map_iff in Hin as ([k1 v1] & <- & Hin).
  unfold with_split in Hin. apply in_map_iff in Hin as ([k v] & [= <- <-] & Hin).
  apply list_elem_of_In, elem_of_map_to_list in Hin.
  apply (H k); [eauto | reflexivity].
Qed.

#[local] Instance key_le_trans : Transitive key_le.
Proof.
  intros x y z Hxy Hyz. unfold key_le in *.
  exact (@transitivity _ String.le _ _ _ _ Hxy Hyz).
Qed.

#[local] Instance key_le_total : Total key_le.
Proof. intros x y. unfold key_le. apply String.le_total. Qed.

Section EvaluateMetrics.

Context `{U : Utils} `{Fw : Framework}.

(** A completed [write_predictions] computed the metrics of the decoded
    answers, wrote them to the metrics file and returned them. *)
Lemma write_predictions_metrics (task dir : string) (labels : list string)
    (eval_split : string) (n_batches : nat) (c : collected F)
    (fs fs' : gmap string (list string)) (result : gmap string string) :
  write_predictions task dir labels eval_split n_batches c fs = (fs', Done result) ->
  exists preds,
    traverse argmax (c_logits c) = Done preds /\
    let metrics := compute_metrics task preds (c_label_ids c) in
    result = list_to_map (with_split eval_split metrics) /\
    fs' !! path_join dir (file_name "eval_results_" eval_split ".txt") =
      Some (result_lines (with_split eval_split metrics)).
Proof.
  unfold write_predictions.
  destruct (n_batches =? 0)%nat; [discriminate |].
  destruct (traverse argmax (c_logits c)) as [preds |]; [| discriminate].
  destruct (traverse (traverse argmax) (c_node_logits c)); [| discriminate].
  destruct (traverse (traverse class1) (c_edge_logits c)); [| discriminate].
  destruct (label_lines labels preds) as [ls [e |]]; [discriminate |].
  intros [= <- <-]. exists preds. split; [reflexivity |]. cbn zeta.
  split; [reflexivity |].
  destruct (eval_files_distinct dir eval_split) as (Hrp & Hrn & Hre). cbv zeta in *.
  rewrite !lookup_insert_ne by congruence. apply lookup_insert_eq.
Qed.

Lemma evaluate_metrics (store : gmap string (list feature))
    (fs : gmap string (list string)) (a : args) (model : module net) (tok : tokenizer)
    (proc : processor example) (eval_split : string) (out : outputs)
    (results : gmap string string) :
  evaluate store fs a model tok proc (Some eval_split) = (out, Done results) ->
  exists d ex preds,
    snd (load_and_cache_examples store a (task_name a) tok eval_split) = Done (d, ex) /\
    let rows := eval_rows a d in
    let batch_size := Z.to_nat (per_gpu_eval_batch_size a * Z.max 1 (n_gpu a)) in
    let outs := List.map (model_eval model) (batched batch_size rows) in
    Forall2 (fun v k => argmax v = Done k) (List.concat (List.map eo_logits outs)) preds /\
    let metrics := compute_metrics (task_name a) preds (List.map row_label rows) in
    results = list_to_map (with_split eval_split metrics) ∪ default ∅ metrics_json /\
    files out !! path_join (output_dir a) (file_name "eval_results_" eval_split ".txt") =
      Some (result_lines (with_split eval_split metrics)).
Proof.
  unfold evaluate.
  destruct (snd (load_and_cache_examples store a (task_name a) tok eval_split))
    as [[d ex] | e] eqn:Hload; [| discriminate].
  destruct (Z.leb_spec (per_gpu_eval_batch_size a * Z.max 1 (n_gpu a)) 0);
    [discriminate |].
  set (rows := eval_rows a d). set (batches := batched _ rows).
  destruct (write_predictions _ _ _ _ _ _ fs) as [fs' [result | e]] eqn:Hw;
    [| discriminate].
  intros [= <- <-].
  destruct (write_predictions_metrics _ _ _ _ _ _ _ _ _ Hw) as (preds & Hp & Hres & Hfile).
  destruct (collect_outputs model batches) as (C1 & _ & _ & C4 & _).
  cbn zeta in *. rewrite C1 in Hp. rewrite C4 in Hres, Hfile.
  assert (Hcat : List.concat batches = rows) by apply batched_concat.
  rewrite Hcat in *.
  exists d, ex, preds. split; [reflexivity |].
  split; [now apply traverse_Forall2 |].
  split; [now rewrite Hres | exact Hfile].
Qed.

(** X15: a completed evaluation returns every metric of
    [compute_metrics] on the decoded answers and the gold labels under
    its name followed by [_{split}]; every other key keeps the value it
    has in [/output/metrics.json], and an old value under a new key is
    replaced. *)
Theorem evaluate_returns_metrics (store : gmap string (list feature))
    (fs : gmap string (list string)) (a : args) (model : module net) (tok : tokenizer)
    (proc : processor example) (eval_split : string) (out : outputs)
    (results : gmap string string) :
  evaluate store fs a model tok proc (Some eval_split) = (out, Done results) ->
  exists d ex preds,
    snd (load_and_cache_examples store a (task_name a) tok eval_split) = Done (d, ex) /\
    let rows := eval_rows a d in
    let batch_size := Z.to_nat (per_gpu_eval_batch_size a * Z.max 1 (n_gpu a)) in
    let outs := List.map (model_eval model) (batched batch_size rows) in
    Forall2 (fun v k => argmax v = Done k) (List.concat (List.map eo_logits outs)) preds /\
    let metrics := compute_metrics (task_name a) preds (List.map row_label rows) in
    (forall k v,
       metrics !! k = Some v -> results !! (k +:+ "_" +:+ eval_split) = Some v) /\
    (forall k',
       (forall k, is_Some (metrics !! k) -> k' <> k +:+ "_" +:+ eval_split) ->
       results !! k' = default ∅ metrics_json !! k').
Proof.
  intros He. destruct (evaluate_metrics _ _ _ _ _ _ _ _ _ He)
    as (d & ex & preds & Hload & Hp & Hres & _).
  exists d, ex, preds. split; [exact Hload |]. cbn zeta in *.
  split; [exact Hp |]. rewrite Hres. split.
  - intros k v Hk. apply lookup_union_Some_l. now apply with_split_lookup.
  - intros k' Hk'. apply lookup_union_r. now apply with_split_lookup_other.
Qed.

(** X16: the metrics file of a completed evaluation holds one line
    [key = value] per metric of [compute_metrics], the key carrying the
    split, in ascending order of the keys. *)
Theorem evaluate_metrics_file_sorted (store : gmap string (list feature))
    (fs : gmap string (list string)) (a : args) (model : module net) (tok : tokenizer)
    (proc : processor example) (eval_split : string) (out : outputs)
    (results : gmap string string) :
  evaluate store fs a model tok proc (Some eval_split) = (out, Done results) ->
  exists d ex preds,
    snd (load_and_cache_examples store a (task_name a) tok eval_split) = Done (d, ex) /\
    let rows := eval_rows a d in
    let batch_size := Z.to_nat (per_gpu_eval_batch_size a * Z.max 1 (n_gpu a)) in
    let outs := List.map (model_eval model) (batched batch_size rows) in
    Forall2 (fun v k => argmax v = Done k) (List.concat (List.map eo_logits outs)) preds /\
    let metrics := compute_metrics (task_name a) preds (List.map row_label rows) in
    exists entries,
      files out !! path_join (output_dir a) ("eval_results_" +:+ eval_split +:+ ".txt") =
        Some (List.map (fun kv => fst kv +:+ " = " +:+ snd kv) entries) /\
      StronglySorted (fun x y => String.le (fst x) (fst y)) entries /\
      List.length entries = size metrics /\
      forall k v, In (k +:+ "_" +:+ eval_split, v) entries <-> metrics !! k = Some v.
Proof.
  intros He. destruct (evaluate_metrics _ _ _ _ _ _ _ _ _ He)
    as (d & ex & preds & Hload & Hp & _ & Hfile).
  exists d, ex, preds. split; [exact Hload |]. cbn zeta in *.
  split; [exact Hp |].
  set (metrics := compute_metrics _ _ _) in *.
  exists (merge_sort key_le (with_split eval_split metrics)).
  pose proof (merge_sort_Permutation key_le (with_split eval_split metrics)) as Hperm.
  split; [exact Hfile |]. split; [| split].
  - exact (StronglySorted_merge_sort key_le _).
  - rewrite Hperm. unfold with_split. now rewrite List.length_map, length_map_to_list.
  - intros k v. rewrite <- list_elem_of_In, Hperm, list_elem_of_In.
    unfold with_split. rewrite in_map_iff. split.
    + intros ([k0 v0] & [= Hk <-] & Hin). apply append_inv_tail in Hk. subst k0.
      now apply list_elem_of_In, elem_of_map_to_list in Hin.
    + intros Hk. exists (k, v). split; [reflexivity |].
      now apply list_elem_of_In, elem_of_map_to_list.
Qed.

End EvaluateMetrics.

(** ** Data loaders *)

Lemma batched_aux_shape {A} (bs : nat) (cur l : list A) :
  (0 < bs)%nat -> (List.length cur < bs)%nat ->
  Z.of_nat (List.length (batched_aux bs cur l)) =
    (Z.of_nat (List.length cur + List.length l) + Z.of_nat bs - 1) / Z.of_nat bs /\
  Forall (fun b => (0 < List.length b <= bs)%nat) (batched_aux bs cur l) /\
  Forall (fun b => List.length b = bs) (removelast (batched_aux bs cur l)).
Proof.
  intros Hbs. revert cur. induction l as [|x l IH]; intros cur Hcur; cbn [batched_aux].
  - destruct cur as [|c cur].
    + cbn. rewrite Z.div_small by lia. repeat split; constructor.
    + cbn [List.length removelast]. rewrite Nat.add_0_r.
      cbn [List.length] in Hcur. split; [| split].
      * apply (Z.div_unique_pos _ _ _ (Z.of_nat (List.length cur))); lia.
      * constructor; [cbn [List.length]; lia | constructor].
      * constructor.
  - rewrite List.length_app. cbn [List.length].
    destruct (Nat.eqb_spec (List.length cur + 1) bs) as [E | E].
    + destruct (IH [] ltac:(cbn; lia)) as (Hn & Hall & Hfull).
      cbn [List.length] in *. rewrite Nat2Z.inj_succ, Hn. split; [| split].
      * replace (Z.of_nat (List.length cur + S (List.length l)) + Z.of_nat bs - 1)
          with (1 * Z.of_nat bs + (Z.of_nat (0 + List.length l) + Z.of_nat bs - 1))
          by lia.
        rewrite Z.div_add_l by lia. lia.
      * constructor; [rewrite List.length_app; cbn; lia | exact Hall].
      * destruct (batched_aux bs [] l) eqn:Eb; [constructor |].
        change (removelast (?y :: l0 :: l1)) with (y :: removelast (l0 :: l1)).
        constructor; [rewrite List.length_app; cbn; lia | exact Hfull].
    + destruct (IH (cur ++ [x]) ltac:(rewrite List.length_app; cbn; lia))
        as (Hn & Hall & Hfull).
      rewrite List.length_app in Hn. cbn [List.length] in Hn.
      split; [| split; assumption]. rewrite Hn. f_equal. lia.
Qed.

(** X17: a loader with batch size [bs > 0] over [n] rows yields
    [(n + bs - 1) // bs] batches, the number that [train] takes for
    [len(train_dataloader)]; no batch is empty, none is longer than
    [bs], all but the last hold exactly [bs] rows, and together they
    are the rows in order. *)
Theorem batches_of_a_loader {A} (bs : Z) (l : list A) :
  0 < bs ->
  let batches := batched (Z.to_nat bs) l in
  Z.of_nat (List.length batches) = loader_len (List.length l) bs /\
  Forall (fun b => 0 < Z.of_nat (List.length b) <= bs) batches /\
  Forall (fun b => Z.of_nat (List.length b) = bs) (removelast batches) /\
  List.concat batches = l.
Proof.
  intros Hbs batches. subst batches. unfold batched, loader_len.
  destruct (batched_aux_shape (Z.to_nat bs) [] l ltac:(lia) ltac:(cbn; lia))
    as (Hn & Hall & Hfull).
  cbn [List.length Nat.add] in Hn. rewrite Z2Nat.id in Hn by lia.
  split; [exact Hn |]. split; [| split].
  - eapply List.Forall_impl; [| exact Hall]. cbn beta. intros b Hb. lia.
  - eapply List.Forall_impl; [| exact Hfull]. cbn beta. intros b Hb. lia.
  - apply batched_aux_concat.
Qed.

Lemma batches_of_a_loader_witness :
  0 < 2 /\
  Z.of_nat (List.length (batched (Z.to_nat 2) [1; 2; 3; 4; 5])) = loader_len 5 2.
Proof.
  split; [lia |].
  exact (proj1 (batches_of_a_loader 2 [1; 2; 3; 4; 5] ltac:(lia))).
Defined.

(** *** Evaluations of the sample instance *)

Lemma evaluate_touches_four_files_witness :
  let fs : gmap string (list string) := {[ "out/notes.txt"%string := ["keep"%string] ]} in
  files (fst (@evaluate Sample.utils (Sample.framework true) ∅ fs Sample.base
                (Plain tt) tt Sample.rr_processor (Some "dev"%string)))
    !! "out/notes.txt"%string = Some ["keep"%string].
Proof.
  cbv zeta.
  rewrite (@evaluate_touches_four_files Sample.utils (Sample.framework true)).
  - reflexivity.
  - cbn. intros [H | [H | [H | [H | []]]]]; discriminate H.
Defined.

Lemma evaluate_empty_set_witness :
  let store : gmap string (list feature) :=
    {[ "data/cached_test_roberta-large_300_rr"%string := [] ]} in
  snd (@evaluate Sample.utils (Sample.framework true) store ∅ Sample.base
         (Plain tt) tt Sample.rr_processor (Some "test"%string)) =
  Raise (ZeroDivisionError AtEvalLoss).
Proof.
  cbv zeta.
  apply (@evaluate_empty_set Sample.utils (Sample.framework true) _ ∅ Sample.base
           (Plain tt) tt Sample.rr_processor "test" (make_dataset []) None).
  - reflexivity.
  - reflexivity.
  - cbn. lia.
Defined.

Lemma label_out_of_range_witness :
  let c : collected Q :=
    {| c_logits := [[2%Q; 1%Q]; [1%Q; 2%Q]; [2%Q; 1%Q]];
       c_node_logits := []; c_edge_logits := [];
       c_label_ids := [0; 1; 0]; c_node_label_ids := [] |} in
  snd (@write_predictions Sample.utils (Sample.framework true) "rr" "out"
         ["False"%string] "dev" 1 c ∅) = Raise IndexError.
Proof.
  cbv zeta.
  apply (@label_out_of_range Sample.utils (Sample.framework true) "rr" "out"
           ["False"%string] "dev" 1 _ ∅ [0%nat] [0%nat] 1%nat [] []).
  - discriminate.
  - reflexivity.
  - reflexivity.
  - reflexivity.
  - repeat constructor.
  - cbn. lia.
Defined.

Lemma evaluate_returns_metrics_witness :
  exists results,
    snd (@evaluate Sample.utils (Sample.framework true) ∅ ∅ Sample.base
           (Plain tt) tt Sample.rr_processor (Some "dev"%string)) = Done results /\
    results !! "acc_dev"%string = Some "1.0"%string.
Proof.
  destruct (@evaluate Sample.utils (Sample.framework true) ∅ ∅ Sample.base
              (Plain tt) tt Sample.rr_processor (Some "dev"%string))
    as [out [results | e]] eqn:He; [| vm_compute in He; discriminate].
  exists results. split; [reflexivity |].
  destruct (@evaluate_returns_metrics Sample.utils (Sample.framework true)
              _ _ _ _ _ _ _ _ _ He) as (d & ex & preds & _ & _ & Hnew & _).
  apply (Hnew "acc"%string). reflexivity.
Defined.

Lemma evaluate_metrics_file_sorted_witness :
  exists lines,
    files (fst (@evaluate Sample.utils (Sample.framework true) ∅ ∅ Sample.base
                  (Plain tt) tt Sample.rr_processor (Some "dev"%string)))
      !! "out/eval_results_dev.txt"%string = Some lines.
Proof.
  destruct (@evaluate Sample.utils (Sample.framework true) ∅ ∅ Sample.base
              (Plain tt) tt Sample.rr_processor (Some "dev"%string))
    as [out [results | e]] eqn:He; [| vm_compute in He; discriminate].
  destruct (@evaluate_metrics_file_sorted Sample.utils (Sample.framework true)
              _ _ _ _ _ _ _ _ _ He)
    as (d & ex & preds & _ & _ & entries & Hfile & _).
  eexists. exact Hfile.
Defined.

(** ** The entry point *)

Section MainBehaviour.

Context `{H : Host}.

Lemma evaluation_phase_train (store : gmap string (list feature)) (a : args)
    (fl : run_flags) (tok : tokenizer) (proc : processor example)
    (trained : option (train_run F net)) (fs : gmap string (list string)) :
  mr_train (evaluation_phase store a fl tok proc trained fs) = trained.
Proof.
  unfold evaluation_phase.
  destruct (if do_eval fl && is_main_process a then _ else _) as [[calls fs1] [r | e]];
    [| reflexivity].
  destruct (run_on_test fl && is_main_process a); [| reflexivity].
  destruct (test_run _ _ _ _ _ _ _) as [[calls2 fs2] r2]. reflexivity.
Qed.


(** X18: [main] trains only when [--do_train] is given without
    [--do_prediction], and never into an output directory that exists
    with content unless [--overwrite_output_dir] is given. *)
Theorem main_trains_only_when (store : gmap string (list feature))
    (fs : gmap string (list string)) (a : args) (fl : run_flags)
    (run : train_run F net) :
  mr_train (main store fs a fl) = Some run ->
  do_train fl = true /\ do_prediction fl = false /\
  (dir_nonempty (output_dir a) = false \/ overwrite_output_dir fl = true).
Proof.
  unfold main.
  destruct (dir_nonempty (output_dir a)) eqn:Hdir, (do_train fl) eqn:Htrain,
    (overwrite_output_dir fl) eqn:Hover; cbn [andb negb]; try discriminate;
  (destruct (if _ && _ then attach_debugger else Done tt); [| discriminate]);
  (destruct (processors !! _); [| discriminate]);
  (destruct (dict_get output_modes _); [| discriminate]);
  (destruct (negb _); [discriminate |]);
  (destruct (load_config _ _ _); [| discriminate]);
  (destruct (load_tokenizer _ _); [| discriminate]);
  (destruct (load_model _ _ _); [| discriminate]);
  (destruct (do_prediction fl);
   [destruct (evaluate _ _ _ _ _ _ _); discriminate |]);
  try (rewrite evaluation_phase_train; discriminate);
  intros _; auto.
Qed.

(** [args] as [main] hands them to [train] and [evaluate]. *)
Local Abbreviation runtime a fl :=
  (at_runtime a (str_lower (task_name a)) (str_lower (model_type a))
     (if (local_rank a =? -1) || no_cuda fl then cuda_device_count else 1)).



Lemma evaluation_phase_no_checkpoint (store : gmap string (list feature)) (a : args)
    (fl : run_flags) (tok : tokenizer) (proc : processor example)
    (trained : option (train_run F net)) (fs : gmap string (list string)) :
  is_main_process a = true ->
  do_eval fl = true -> eval_all_checkpoints fl = true -> run_on_test fl = true ->
  glob_sorted (saved_model_dirs trained) (output_dir a +:+ "/**/pytorch_model.bin") = [] ->
  evaluation_phase store a fl tok proc trained fs =
  {| mr_train := trained; mr_evals := []; mr_files := fs; mr_result := Raise IndexError |}.
Proof.
  intros Hmain Heval Hall Htest Hglob. unfold evaluation_phase.
  rewrite Hmain, Heval, Hall, Htest, Hglob. reflexivity.
Qed.

(** X21: with [--do_eval --eval_all_checkpoints --run_on_test] on the
    main process, when the glob of line 629, which runs after the
    training and sees the weights it saved, finds no weights file under
    the output directory, [main] makes no call of [evaluate], leaves the
    text files that [evaluate] writes as they were and ends with an
    exception; when the evaluation was reached (no training, or one that
    returned normally) it is the [IndexError] of [checkpoints[0]] at
    line 643. *)
Theorem main_test_without_checkpoints (store : gmap string (list feature))
    (fs : gmap string (list string)) (a : args) (fl : run_flags) :
  is_main_process a = true ->
  do_prediction fl = false ->
  do_eval fl = true -> eval_all_checkpoints fl = true -> run_on_test fl = true ->
  let run := main store fs a fl in
  glob_sorted (saved_model_dirs (mr_train run))
    (output_dir a +:+ "/**/pytorch_model.bin") = [] ->
  mr_evals run = [] /\ mr_files run = fs /\
  (exists e, mr_result run = Raise e) /\
  (forall r v,
     mr_train run = Some r -> run_result r = Done v ->
     mr_result run = Raise IndexError).
Proof.
  intros Hmain Hpred Heval Hall Htest. cbv zeta. unfold main.
  destruct (_ && _ && _); [cbn; repeat split; eauto; discriminate |].
  destruct (if _ && _ then attach_debugger else Done tt);
    [| cbn; repeat split; eauto; discriminate].
  destruct (processors !! _); [| cbn; repeat split; eauto; discriminate].
  destruct (dict_get output_modes _); [| cbn; repeat split; eauto; discriminate].
  destruct (negb _); [cbn; repeat split; eauto; discriminate |].
  destruct (load_config _ _ _); [| cbn; repeat split; eauto; discriminate].
  destruct (load_tokenizer _ _); [| cbn; repeat split; eauto; discriminate].
  destruct (load_model _ _ _); [| cbn; repeat split; eauto; discriminate].
  rewrite Hpred.
  destruct (do_train fl).
  - destruct (snd (load_and_cache_examples _ _ _ _ _)) as [[ds ex] |];
      [| cbn; repeat split; eauto; discriminate].
    destruct (run_result _) eqn:Hrun.
    + rewrite evaluation_phase_train. intros Hglob.
      rewrite evaluation_phase_no_checkpoint by assumption. cbn. repeat split; eauto.
    + cbn. repeat split; eauto. intros r v [= <-] Hr. congruence.
  - rewrite evaluation_phase_train. intros Hglob.
    rewrite evaluation_phase_no_checkpoint by assumption.
    cbn. repeat split; eauto.
Qed.




End MainBehaviour.

(** *** Runs of [main] on the sample host *)

Lemma main_trains_only_when_witness :
  exists run,
    mr_train (@main _ _ (SampleHost.host false []) ∅ ∅ Sample.base
                (SampleHost.flags true false false false false false)) = Some run /\
    do_train (SampleHost.flags true false false false false false) = true.
Proof.
  destruct (mr_train (@main _ _ (SampleHost.host false []) ∅ ∅ Sample.base
                        (SampleHost.flags true false false false false false)))
    as [run |] eqn:E; [| vm_compute in E; discriminate].
  exists run. split; [reflexivity |].
  exact (proj1 (@main_trains_only_when _ _ (SampleHost.host false []) ∅ ∅ Sample.base
                  (SampleHost.flags true false false false false false) run E)).
Defined.



Lemma main_test_without_checkpoints_witness :
  exists e,
    mr_result (@main _ _ (SampleHost.host false []) ∅ ∅ Sample.base
                 (SampleHost.flags false true false true true false)) = Raise e.
Proof.
  exact (proj1 (proj2 (proj2
    (@main_test_without_checkpoints _ _ (SampleHost.host false []) ∅ ∅ Sample.base
       (SampleHost.flags false true false true true false)
       eq_refl eq_refl eq_refl eq_refl eq_refl eq_refl)))).
Defined.


(** ** Checkpoint directories and the metric reader *)

Lemma split_on_not_nil (sep : ascii) (s : string) : split_on sep s <> [].
Proof.
  destruct s as [|c s]; cbn; [discriminate |].
  destruct (Ascii.eqb c sep); [discriminate |].
  destruct (split_on sep s); discriminate.
Qed.

Lemma split_on_plain (sep : ascii) (s : string) :
  contains sep s = false -> split_on sep s = [s].
Proof.
  induction s as [|c s IH]; cbn; [reflexivity |].
  destruct (Ascii.eqb c sep); cbn; [discriminate |].
  intros E. now rewrite (IH E).
Qed.

Lemma split_on_app (sep : ascii) (q s : string) :
  split_on sep (q +:+ String sep s) = split_on sep q ++ split_on sep s.
Proof.
  induction q as [|c q IH].
  - rewrite append_nil_l. cbn [split_on]. now rewrite Ascii.eqb_refl.
  - rewrite append_cons. cbn [split_on].
    destruct (Ascii.eqb c sep); rewrite IH; [reflexivity |].
    pose proof (split_on_not_nil sep q) as Hne.
    destruct (split_on sep q); [congruence | reflexivity].
Qed.

(** The last field after a separator that does not occur again. *)
Lemma last_field_app (sep : ascii) (q s : string) :
  contains sep s = false -> last_field sep (q +:+ String sep s) = s.
Proof.
  intros Hs. unfold last_field.
  rewrite split_on_app, (split_on_plain _ _ Hs). apply List.last_last.
Qed.

Lemma has_sep_app_sep (p f : string) : has_sep (p +:+ String "/" f) = true.
Proof.
  induction p as [|c p IH]; [reflexivity |].
  rewrite append_cons. cbn [has_sep]. rewrite IH. apply orb_true_r.
Qed.

Lemma dir_head_plain (f : string) : has_sep f = false -> dir_head f = "".
Proof.
  destruct f as [|c f]; [reflexivity |]. cbn [has_sep dir_head].
  intros ->. reflexivity.
Qed.

Lemma dir_head_app (p f : string) :
  has_sep f = false -> dir_head (p +:+ String "/" f) = p +:+ "/".
Proof.
  intros Hf. induction p as [|c p IH].
  - rewrite append_nil_l. cbn [dir_head]. now rewrite (dir_head_plain _ Hf).
  - rewrite !append_cons. cbn [dir_head]. rewrite has_sep_app_sep, orb_true_r.
    now rewrite IH.
Qed.

Lemma rstrip_sep_app (p : string) :
  p <> "" -> endswith_sep p = false ->
  only_seps (p +:+ "/") = false /\ rstrip_sep (p +:+ "/") = p.
Proof.
  induction p as [|c p IH]; [congruence |]. intros _ Hend.
  destruct p as [|c' p].
  - cbn [endswith_sep] in Hend. rewrite append_cons, append_nil_l.
    cbn [only_seps rstrip_sep]. rewrite Hend. cbn. split; reflexivity.
  - change (endswith_sep (String c (String c' p))) with (endswith_sep (String c' p)) in Hend.
    destruct (IH ltac:(discriminate) Hend) as [Ho Hr].
    rewrite append_cons. cbn [only_seps rstrip_sep].
    rewrite Ho, andb_false_r, Hr. split; reflexivity.
Qed.

(** [dirname] undoes the appending of a file name. *)
Lemma dirname_of_file (p f : string) :
  p <> "" -> endswith_sep p = false -> has_sep f = false ->
  dirname (p +:+ String "/" f) = p.
Proof.
  intros Hp Hend Hf. unfold dirname. rewrite (dir_head_app _ _ Hf).
  destruct (rstrip_sep_app p Hp Hend) as [-> ->].
  destruct (String.eqb_spec (p +:+ "/") "") as [E |]; [| reflexivity].
  destruct p; discriminate.
Qed.

Lemma endswith_sep_plain (s : string) : has_sep s = false -> endswith_sep s = false.
Proof.
  induction s as [|c s IH]; [reflexivity |]. cbn [has_sep endswith_sep].
  intros E. apply orb_false_iff in E as [Ec Es].
  destruct s; [exact Ec | exact (IH Es)].
Qed.

Lemma endswith_sep_append (p s : string) :
  s <> "" -> endswith_sep (p +:+ s) = endswith_sep s.
Proof.
  intros Hs. induction p as [|c p IH]; [reflexivity |].
  rewrite append_cons. cbn [endswith_sep].
  destruct (p +:+ s) eqn:E; [| exact IH].
  destruct p, s; try discriminate; congruence.
Qed.

Lemma uint_digits (c : ascii) (d : Decimal.uint) :
  contains c "0123456789" = false ->
  contains c (NilEmpty.string_of_uint d) = false.
Proof.
  intros Hc. cbn in Hc. repeat (apply orb_false_iff in Hc as [? Hc]).
  induction d; cbn [NilEmpty.string_of_uint contains]; [reflexivity | ..];
    rewrite IHd, orb_false_r; assumption.
Qed.

(** The decimal text of a non-negative integer is not empty and holds
    digits only. *)
Lemma str_int_digits (k : Z) (c : ascii) :
  0 <= k -> contains c "0123456789" = false ->
  str_int k <> "" /\ contains c (str_int k) = false.
Proof.
  intros Hk Hc. unfold str_int.
  destruct k as [| p | p]; [| | lia].
  - cbn. split; [discriminate |]. cbn in Hc.
    apply orb_false_iff in Hc as [-> _]. reflexivity.
  - cbn [Z.to_int NilZero.string_of_int NilZero.string_of_uint].
    pose proof (uint_digits c (Pos.to_uint p) Hc) as Hd.
    destruct (Pos.to_uint p) eqn:E; (split; [discriminate |]); [| exact Hd ..].
    cbn in Hc |- *. apply orb_false_iff in Hc as [-> _]. reflexivity.
Qed.

Lemma contains_sep (s : string) : contains "/" s = has_sep s.
Proof. induction s as [|c s IH]; [reflexivity |]. cbn. now rewrite IH. Qed.

(** X23: the directory that [train] names after an epoch is found again
    by the evaluation of all checkpoints: for the weights file in
    [epoch-{k}] under the output directory, [dirname] gives that
    directory and the text after its last hyphen, which [main] takes as
    prefix and key suffix, is [k]. *)
Theorem checkpoint_prefix_is_epoch (out : string) (k : Z) :
  0 <= k ->
  let dir := path_join out ("epoch-" +:+ str_int k) in
  dirname (dir +:+ "/pytorch_model.bin") = dir /\
  last_field "-" dir = str_int k /\
  step_suffix [dir; out] dir = str_int k.
Proof.
  intros Hk dir.
  destruct (str_int_digits k "-" Hk eq_refl) as [Hne Hdash].
  destruct (str_int_digits k "/" Hk eq_refl) as [_ Hsep]. rewrite contains_sep in Hsep.
  destruct (path_join_relative out "x" eq_refl) as (prefix & _ & Hjoin).
  assert (Hdir : dir = (prefix +:+ "epoch") +:+ String "-" (str_int k)).
  { subst dir. rewrite Hjoin by reflexivity.
    now rewrite !append_assoc, !append_cons, !append_nil_l. }
  assert (Hlast : last_field "-" dir = str_int k).
  { rewrite Hdir. now apply last_field_app. }
  split; [| split; [exact Hlast | exact Hlast]].
  apply dirname_of_file; [| | reflexivity].
  - rewrite Hdir. destruct (prefix +:+ "epoch"); discriminate.
  - rewrite Hdir, endswith_sep_append by discriminate.
    change (String "-" (str_int k)) with ("-" +:+ str_int k).
    rewrite endswith_sep_append by exact Hne. now apply endswith_sep_plain.
Qed.

Lemma checkpoint_prefix_is_epoch_witness :
  0 <= 5 /\ last_field "-" "out/epoch-5" = "5"%string.
Proof.
  split; [lia |].
  exact (proj1 (proj2 (checkpoint_prefix_is_epoch "out" 5 ltac:(lia)))).
Defined.

(** X24: for an output directory that is not empty and does not end in
    a separator, the files that the two commands of [get_metric_on_dev]
    read as node predictions, edge logits and answer predictions are the
    files that [evaluate] writes for the dev split. *)
Theorem dev_metric_commands_read_evaluate_files (a : args) :
  output_dir a <> ""%string ->
  endswith_sep (output_dir a) = false ->
  let out := output_dir a in
  let file stem := path_join out (file_name stem "dev" ".lst") in
  dev_metric_commands a =
  ("python ./ilp_infer/inference.py --data_dir " +:+ data_dir a +:+
   " --eval_split dev --node_preds " +:+ file "prediction_nodes_"%string +:+
   " --edge_logits  " +:+ file "prediction_edge_logits_"%string +:+
   " --edge_preds " +:+ out +:+ "/edge_preds_d5_dev.lst > " +:+ out +:+
   "/dev_inference.log ",
   "python ./evaluation/eval_proof.py --data_dir " +:+ data_dir a +:+
   " --eval_split dev --qa_pred_file " +:+ file "predictions_"%string +:+
   " --node_pred_file " +:+ file "prediction_nodes_"%string +:+
   " --edge_pred_file " +:+ out +:+ "/edge_preds_d5_dev.lst > " +:+ out +:+
   "/dev_eval.log").
Proof.
  intros Hne Hend out file.
  assert (Hjoin : forall name, startswith_sep name = false ->
            path_join out name = out +:+ String "/" name).
  { intros name Hn. unfold path_join. rewrite Hn. subst out. rewrite Hend, orb_false_r.
    destruct (String.eqb_spec (output_dir a) ""); [contradiction | reflexivity]. }
  subst file. cbn beta. rewrite !Hjoin by reflexivity.
  unfold dev_metric_commands, file_name. fold out.
  f_equal; repeat rewrite ?append_assoc, ?append_cons, ?append_nil_l; reflexivity.
Qed.

Lemma dev_metric_commands_read_evaluate_files_witness :
  snd (dev_metric_commands Sample.base) =
  ("python ./evaluation/eval_proof.py --data_dir data --eval_split dev " +:+
   "--qa_pred_file out/predictions_dev.lst " +:+
   "--node_pred_file out/prediction_nodes_dev.lst " +:+
   "--edge_pred_file out/edge_preds_d5_dev.lst > out/dev_eval.log")%string.
Proof.
  exact (f_equal snd
           (dev_metric_commands_read_evaluate_files Sample.base
              ltac:(discriminate) eq_refl)).
Defined.
